(** * mpibind: task-to-unit and task-to-device assignment

    A shallow embedding of [src/mpibind.c] (the SLURM spank plugin
    [mpibind]) and the properties of its assignment algorithms.

    Conventions of the embedding.
    - [int32_t] and [uint32_t] values are integers of [Z]; every
      arithmetic operation of the source that can leave the range is
      followed by [wrap32] or [wrapu32].
    - A C function whose behaviour can be undefined (division by zero,
      access outside an array, dereference of [NULL]) returns an
      [outcome]: [Undef] stands for the undefined behaviour, [Fail] for
      the error return of the function, [Ok] for a normal return.
    - Loops are functions by recursion on the number of iterations
      left; where that number is not known beforehand it is a fuel, and
      a loop that has not ended within its fuel is [Undef] (none does:
      see [decimate_cpuset_spec], [first_with_gpus_spec] and
      [parse_ranges_fuel]).
    - Output parameters passed by pointer are passed in and returned.
    - [hwloc] bitmaps are integers used as bit masks (bit [i] is unit [i]).
    - Calls that only log ([slurm_error], [printf], ...) are left out. *)

From Stdlib Require Import ZArith Lia List String Ascii Bool Sorted.
From Stdlib Require Import SpecFloat QArith Qround.
From stdpp Require Import base option list gmap strings pretty.

Local Open Scope Z_scope.

(* ================================================================== *)
(** * Part I: definitions *)
(* ================================================================== *)

(** ** Machine integers *)

Definition wrap32 (z : Z) : Z := (z + 2 ^ 31) mod 2 ^ 32 - 2 ^ 31.
Definition wrapu32 (z : Z) : Z := z mod 2 ^ 32.

Definition in_int32 (z : Z) : Prop := - 2 ^ 31 <= z < 2 ^ 31.
Definition in_uint32 (z : Z) : Prop := 0 <= z < 2 ^ 32.

(** ** Results of C functions *)

Inductive outcome (A : Type) : Type :=
| Ok (a : A)
| Fail
| Undef.
Arguments Ok {A} a.
Arguments Fail {A}.
Arguments Undef {A}.

#[export] Instance outcome_ret : MRet outcome := fun A a => Ok a.

#[export] Instance outcome_bind : MBind outcome := fun A B k m =>
  match m with
  | Ok a => k a
  | Fail => Fail
  | Undef => Undef
  end.

(** Array cells are read and written through integer indices; an index
    outside the array is undefined behaviour. *)
Definition zget {A} (l : list A) (i : Z) : outcome A :=
  if i <? 0 then Undef
  else match l !! Z.to_nat i with
       | Some a => Ok a
       | None => Undef
       end.

Definition zset {A} (l : list A) (i : Z) (a : A) : outcome (list A) :=
  if (0 <=? i) && (i <? Z.of_nat (length l))
  then Ok (<[Z.to_nat i := a]> l)
  else Undef.

(** ** [map_to_domains] (mpibind.c, lines 457-482) *)

Module Partition.

(** The three output parameters [*mapi], [*np_in_dom], [*id_in_dom]. *)
Record dom_out : Type := DomOut {
  mapi : Z;
  np_in_dom : Z;
  id_in_dom : Z
}.

(** The value of [tmp] in iteration [i] of the loop. *)
Definition dom_tmp (i np_per_dom_ave np_per_dom_extra : Z) : Z :=
  if i <? np_per_dom_extra then wrap32 (np_per_dom_ave + 1)
  else np_per_dom_ave.

(** The [for] loop: [n] iterations remain, the next one is iteration [i]. *)
Fixpoint map_loop (n : nat) (rank ave extra i cum_np : Z) (o : dom_out)
  : outcome (Z * dom_out) :=
  match n with
  | O => Ok (1, o)
  | S n' =>
      let tmp := dom_tmp i ave extra in
      let prev := cum_np in
      let cum_np := wrap32 (cum_np + tmp) in
      if rank <? cum_np then
        if tmp =? 0 then Undef
        else if (wrap32 (rank - prev) =? - 2 ^ 31) && (tmp =? -1) then Undef
        else Ok (0, {| mapi := i; np_in_dom := tmp;
                       id_in_dom := Z.rem (wrap32 (rank - prev)) tmp |})
      else map_loop n' rank ave extra (i + 1) cum_np o
  end.

(** A division by zero is undefined, and so is [INT32_MIN / -1] (and
    [INT32_MIN % -1]), whose quotient is not an [int32_t]. *)
Definition map_to_domains (rank np ndoms : Z) (o : dom_out)
  : outcome (Z * dom_out) :=
  if ndoms =? 0 then Undef
  else if (np =? - 2 ^ 31) && (ndoms =? -1) then Undef
  else
    let np_per_dom_ave := wrap32 (Z.quot np ndoms) in
    let np_per_dom_extra := Z.rem np ndoms in
    map_loop (Z.to_nat ndoms) rank np_per_dom_ave np_per_dom_extra 0 0 o.

(** The partition as the specification words it: [base] items per
    domain, one more in each of the first [remainder] domains. *)
Definition bucket_size (total domainCount d : Z) : Z :=
  total / domainCount + (if d <? total mod domainCount then 1 else 0).

Definition bucket_sizes (total domainCount : Z) : list Z :=
  map (fun d => bucket_size total domainCount (Z.of_nat d))
      (seq 0 (Z.to_nat domainCount)).

(** Index of the first item of bucket [d]: the sizes of the buckets
    before it, added up. *)
Definition bucket_start (total domainCount d : Z) : Z :=
  fold_right Z.add 0
    (map (fun j => bucket_size total domainCount (Z.of_nat j))
         (seq 0 (Z.to_nat d))).

(** The sizes the code works with, one per iteration of its loop. *)
Definition dom_sizes (np ndoms : Z) : list Z :=
  map (fun i => dom_tmp (Z.of_nat i) (wrap32 (Z.quot np ndoms)) (Z.rem np ndoms))
      (seq 0 (Z.to_nat ndoms)).

Definition zsum (l : list Z) : Z := fold_right Z.add 0 l.

(** What a call stores in its output parameters when it returns 0. *)
Definition returned (index total ndoms : Z) : option dom_out :=
  match map_to_domains index total ndoms (DomOut 0 0 0) with
  | Ok (0, o) => Some o
  | _ => None
  end.

(** The [sizeInDomain] the function returns for domain [d]: the one it
    stores for the first index, of 0 .. [total - 1], that it maps to
    [d]; 0 when it maps no index to [d]. *)
Definition returned_size (total ndoms d : Z) : Z :=
  let to_d (i : nat) := match returned (Z.of_nat i) total ndoms with
                        | Some o => mapi o =? d
                        | None => false
                        end in
  match List.find to_d (seq 0 (Z.to_nat total)) with
  | Some i => match returned (Z.of_nat i) total ndoms with
              | Some o => np_in_dom o
              | None => 0
              end
  | None => 0
  end.

(** The sizes returned for the domains 0 .. [ndoms - 1]. *)
Definition returned_sizes (total ndoms : Z) : list Z :=
  map (fun d => returned_size total ndoms (Z.of_nat d)) (seq 0 (Z.to_nat ndoms)).

End Partition.

(** ** The [hwloc] bitmap interface

    [hwloc] is an external library.  Its bitmaps are modelled, after its
    documentation, as integers: bit [i] of the integer is index [i] of
    the bitmap.  An integer that is not negative is a finite bitmap; a
    negative one (all high bits set) is an infinitely set bitmap. *)

Module Hwloc.

Definition hwloc_bitmap_t : Type := Z.

Definition hwloc_bitmap_alloc : hwloc_bitmap_t := 0.

Definition hwloc_bitmap_iszero (b : hwloc_bitmap_t) : bool := b =? 0.

Definition hwloc_bitmap_isset (b : hwloc_bitmap_t) (i : Z) : bool := Z.testbit b i.

Definition hwloc_bitmap_set (b : hwloc_bitmap_t) (i : Z) : hwloc_bitmap_t :=
  Z.setbit b i.

(** Indices [first..last] are added; nothing is added when [last < first]. *)
Definition hwloc_bitmap_set_range (b : hwloc_bitmap_t) (first last : Z) : hwloc_bitmap_t :=
  Z.lor b (Z.shiftl (Z.ones (last - first + 1)) first).

Definition hwloc_bitmap_clr (b : hwloc_bitmap_t) (i : Z) : hwloc_bitmap_t :=
  Z.clearbit b i.

Definition hwloc_bitmap_or (a b : hwloc_bitmap_t) : hwloc_bitmap_t := Z.lor a b.

(** Number of bits set in a positive number. *)
Fixpoint Pweight (p : positive) : Z :=
  match p with
  | xH => 1
  | xO q => Pweight q
  | xI q => 1 + Pweight q
  end.

(** Number of indices in the bitmap, [-1] when it is infinite. *)
Definition hwloc_bitmap_weight (b : hwloc_bitmap_t) : Z :=
  match b with
  | Z0 => 0
  | Zpos p => Pweight p
  | Zneg _ => -1
  end.

(** Index of the lowest bit set in a positive number. *)
Fixpoint Pfirst (p : positive) : Z :=
  match p with
  | xO q => 1 + Pfirst q
  | _ => 0
  end.

(** First index of the bitmap, [-1] when it is empty. *)
Definition hwloc_bitmap_first (b : hwloc_bitmap_t) : Z :=
  match b with
  | Z0 => -1
  | Zpos p => Pfirst p
  | Zneg p => Pfirst p
  end.

(** First index after [prev], [-1] when there is none; [prev = -1]
    gives the first index. *)
Definition hwloc_bitmap_next (b : hwloc_bitmap_t) (prev : Z) : Z :=
  let rest := Z.shiftr b (prev + 1) in
  if rest =? 0 then -1 else prev + 1 + hwloc_bitmap_first rest.

(** Keeps a single index of the bitmap (the first one); an empty bitmap
    stays empty. *)
Definition hwloc_bitmap_singlify (b : hwloc_bitmap_t) : hwloc_bitmap_t :=
  let i := hwloc_bitmap_first b in
  if i <? 0 then b else Z.shiftl 1 i.

(** The indices of a finite bitmap, in ascending order, counted from [i]. *)
Fixpoint Pmembers (i : Z) (p : positive) : list Z :=
  match p with
  | xH => [i]
  | xO q => Pmembers (i + 1) q
  | xI q => i :: Pmembers (i + 1) q
  end.

Definition members_from (i : Z) (b : hwloc_bitmap_t) : list Z :=
  match b with
  | Zpos p => Pmembers i p
  | _ => []
  end.

Definition members (b : hwloc_bitmap_t) : list Z := members_from 0 b.

End Hwloc.

(** ** [decimate_cpuset] (mpibind.c, lines 435-452) and the reduction
    step of [slurm_spank_task_init] (lines 943-946) *)

Module Reduce.
Import Hwloc.

(** The [do ... while (i > 0)] loop: one unit of [fuel] per iteration;
    [Undef] when the fuel does not suffice. *)
Fixpoint decimate_loop (fuel : nat) (cpuset : hwloc_bitmap_t) (i thread : Z)
  : outcome hwloc_bitmap_t :=
  match fuel with
  | O => Undef
  | S fuel' =>
      let '(cpuset, thread) :=
        if thread =? 0 then (hwloc_bitmap_clr cpuset i, thread)
        else (cpuset, thread - 1) in
      let i := hwloc_bitmap_next cpuset i in
      if 0 <? i then decimate_loop fuel' cpuset i thread
      else Ok cpuset
  end.

(** The bitmap of the first [t] indices of [p]: what the loop is meant
    to leave. *)
Fixpoint Pkeep (t : Z) (p : positive) : Z :=
  match p with
  | xH => if t =? 0 then 0 else 1
  | xO q => Z.double (Pkeep t q)
  | xI q => if t =? 0 then Z.double (Pkeep t q)
            else Z.succ_double (Pkeep (t - 1) q)
  end.

(** [bits] is an [int]; it is compared with the [uint32_t] [num_threads]
    as an unsigned number. *)
Definition decimate_cpuset (num_threads : Z) (cpuset : hwloc_bitmap_t)
  : outcome hwloc_bitmap_t :=
  let bits := wrap32 (hwloc_bitmap_weight cpuset) in
  let thread := num_threads in
  if wrapu32 bits <=? num_threads then Ok cpuset
  else
    let i := hwloc_bitmap_first cpuset in
    decimate_loop (Z.to_nat bits) cpuset i thread.

(** [if (num_threads == 1) hwloc_bitmap_singlify (cpuset);
     else decimate_cpuset (cpuset);] *)
Definition reduce_cpuset (num_threads : Z) (cpuset : hwloc_bitmap_t)
  : outcome hwloc_bitmap_t :=
  if num_threads =? 1 then Ok (hwloc_bitmap_singlify cpuset)
  else decimate_cpuset num_threads cpuset.

End Reduce.

(** ** The raw unit-set of a task ([slurm_spank_task_init], lines 886 and
    920-926)

    [num_pus_per_task] is a C [float]: IEEE 754 single precision
    (24 bits of precision, exponents below 128), every operation
    rounded to nearest-even. *)

Module Slice.
Import Hwloc.

Definition float : Type := spec_float.

(** [(float) n] for an unsigned integer [n]. *)
Definition float_of_uint32 (n : Z) : float := binary_normalize 24 128 n 0 false.

Definition float_div (x y : float) : float := SFdiv 24 128 x y.
Definition float_mul (x y : float) : float := SFmul 24 128 x y.
Definition float_lt (x y : float) : bool := SFltb x y.
Definition float_one : float := float_of_uint32 1.

(** [(int32_t) x]: the fraction is dropped; undefined when the result is
    not an [int32_t], and for infinities and NaN. *)
Definition int32_of_float (x : float) : outcome Z :=
  match x with
  | S754_zero _ => Ok 0
  | S754_finite s m e =>
      let a := if 0 <=? e then Z.pos m * 2 ^ e else Z.pos m / 2 ^ (- e) in
      let v := if s then - a else a in
      if (- 2 ^ 31 <=? v) && (v <? 2 ^ 31) then Ok v else Undef
  | _ => Undef
  end.

(** [num_pus_per_task = (float) level_size / local_size;] *)
Definition pus_per_task (level_size local_size : Z) : float :=
  float_div (float_of_uint32 level_size) (float_of_uint32 local_size).

(** [index = (int32_t) (local_rank * num_pus_per_task);] *)
Definition slice_index (level_size local_size local_rank : Z) : outcome Z :=
  int32_of_float
    (float_mul (float_of_uint32 local_rank) (pus_per_task level_size local_size)).

(** [if (num_pus_per_task < 1.0) num_pus_per_task = 1.0;] and the cast
    [(int32_t) num_pus_per_task] of the loop bound. *)
Definition clamp_pus (x : float) : float :=
  if float_lt x float_one then float_one else x.

Definition slice_count (level_size local_size : Z) : outcome Z :=
  int32_of_float (clamp_pus (pus_per_task level_size local_size)).

(** [for (i = index; ...; i++) hwloc_bitmap_or (cpuset, cpuset, cpusets[i]);]
    with [n] iterations left. *)
Fixpoint or_loop (n : nat) (cpusets : list hwloc_bitmap_t) (i : Z)
    (cpuset : hwloc_bitmap_t) : outcome hwloc_bitmap_t :=
  match n with
  | O => Ok cpuset
  | S n' =>
      c ← zget cpusets i;
      or_loop n' cpusets (i + 1) (hwloc_bitmap_or cpuset c)
  end.

Definition raw_cpuset (cpusets : list hwloc_bitmap_t)
    (level_size local_size local_rank : Z) : outcome hwloc_bitmap_t :=
  index ← slice_index level_size local_size local_rank;
  count ← slice_count level_size local_size;
  or_loop (Z.to_nat (wrap32 (index + count) - index)) cpusets index
          hwloc_bitmap_alloc.

(** The raw unit-set as the specification words it: a real-valued
    share, clamped up to 1; [startIndex = floor (localRank * share)];
    the entries [startIndex .. startIndex + ceil share - 1], clipped to
    the pool. *)
Definition spec_share (levelSize localTaskCount : Z) : Q :=
  let share := (inject_Z levelSize / inject_Z localTaskCount)%Q in
  if Qlt_le_dec share 1 then 1%Q else share.

Definition spec_raw_cpuset (pool : list hwloc_bitmap_t)
    (levelSize localTaskCount localRank : Z) : hwloc_bitmap_t :=
  let share := spec_share levelSize localTaskCount in
  let startIndex := Qfloor (inject_Z localRank * share) in
  let first := Z.max 0 startIndex in
  let last := Z.min levelSize (startIndex + Qceiling share) in
  fold_right Z.lor 0
    (take (Z.to_nat (last - first)) (drop (Z.to_nat first) pool)).

(** The slice in integer arithmetic, for comparison. *)
Definition exact_index (level_size local_size local_rank : Z) : Z :=
  (local_rank * level_size) / local_size.

Definition exact_count (level_size local_size : Z) : Z :=
  Z.max 1 (level_size / local_size).

(** Whether, for every [local_rank] below [local_size], the slice of the
    code starts and ends where integer arithmetic puts it, and lies
    within the pool. *)
Definition slice_exact (level_size local_size : Z) : bool :=
  forallb (fun r =>
    match slice_index level_size local_size (Z.of_nat r),
          slice_count level_size local_size with
    | Ok i, Ok n =>
        (i =? exact_index level_size local_size (Z.of_nat r))
        && (n =? exact_count level_size local_size)
        && (i + n <=? level_size)
    | _, _ => false
    end) (seq 0 (Z.to_nat local_size)).

Definition slices_exact_upto (bound : nat) : bool :=
  forallb (fun l =>
    forallb (fun s => slice_exact (Z.of_nat l) (Z.of_nat s)) (seq 1 bound))
    (seq 1 bound).

End Slice.

(** ** The topology, as far as the plugin looks at it

    The [hwloc] topology is given by what the queries of the plugin
    return on it. *)

Module Topology.
Import Hwloc.

(** A NUMA-node or machine object above a device: its [os_index], and
    the [os_index] of its nearest ancestor of type Group and of type
    Machine ([None] when [hwloc_get_ancestor_obj_by_type] finds none). *)
Record hwloc_obj : Type := HwlocObj {
  os_index : Z;
  group_ancestor : option Z;
  machine_ancestor : option Z
}.

(** An OS device, as enumerated by [hwloc_get_next_osdev]. *)
Record osdev : Type := OsDev {
  osdev_is_gpu : bool;              (* attr->osdev.type == HWLOC_OBJ_OSDEV_GPU *)
  osdev_name : string;
  osdev_numa : option hwloc_obj;    (* ancestor of type NUMA node *)
  osdev_machine : option hwloc_obj  (* ancestor of type Machine *)
}.

Record topology : Type := Topo {
  (* for every depth, the cpuset of every object at that depth;
     [None] where [hwloc_get_obj_by_depth] returns NULL *)
  topo_levels : list (list (option hwloc_bitmap_t));
  (* the cpuset of every core, by logical index *)
  topo_cores : list (option hwloc_bitmap_t);
  (* number of NUMA nodes *)
  topo_numas : Z;
  topo_osdevs : list osdev
}.

(** The devices the plugin counts as GPUs. *)
Definition is_render_gpu (obj : osdev) : bool :=
  osdev_is_gpu obj && String.prefix "render" (osdev_name obj).

(** The NUMA ancestor of a device, or else its machine ancestor. *)
Definition gpu_ancestor (obj : osdev) : option hwloc_obj :=
  match osdev_numa obj with
  | Some a => Some a
  | None => osdev_machine obj
  end.

End Topology.

(** ** [get_gpustring] (mpibind.c, lines 516-631) *)

Module Gpu.
Import Topology Partition.

(** The four arrays of the function.  A cell that [malloc] left
    uninitialised holds 0 here; no such cell is read below the counts. *)
Record gpu_tables : Type := GpuTables {
  gpus_in_numa : list (list Z);
  gpus_in_group : list (list Z);
  gpus_per_numa : list Z;
  gpus_per_group : list Z
}.

Definition alloc_tables (gpus numas : Z) : gpu_tables :=
  let row := replicate (Z.to_nat gpus) 0 in
  {| gpus_in_numa := replicate (Z.to_nat numas) row;
     gpus_in_group := replicate (Z.to_nat numas) row;
     gpus_per_numa := replicate (Z.to_nat numas) 0;
     gpus_per_group := replicate (Z.to_nat numas) 0 |}.

Definition get2 (m : list (list Z)) (i j : Z) : outcome Z :=
  row ← zget m i; zget row j.

Definition set2 (m : list (list Z)) (i j v : Z) : outcome (list (list Z)) :=
  row ← zget m i; row' ← zset row j v; zset m i row'.

(** Lines 530-559: every GPU is entered under its ancestor and under
    the group of that ancestor; [gpus] counts them. *)
Fixpoint assign_gpus (devs : list osdev) (numagroup : list Z) (gpus : Z)
    (t : gpu_tables) : outcome (Z * gpu_tables) :=
  match devs with
  | [] => Ok (gpus, t)
  | obj :: rest =>
      if is_render_gpu obj then
        match gpu_ancestor obj with
        | Some ancestor =>
            let a := os_index ancestor in
            n ← zget (gpus_per_numa t) a;
            in_numa ← set2 (gpus_in_numa t) a n (wrapu32 gpus);
            g ← zget numagroup a;
            ng ← zget (gpus_per_group t) g;
            in_group ← set2 (gpus_in_group t) g ng (wrapu32 gpus);
            per_numa ← zset (gpus_per_numa t) a (wrapu32 (n + 1));
            per_group ← zset (gpus_per_group t) g (wrapu32 (ng + 1));
            assign_gpus rest numagroup (wrap32 (gpus + 1))
              {| gpus_in_numa := in_numa; gpus_in_group := in_group;
                 gpus_per_numa := per_numa; gpus_per_group := per_group |}
        | None => Fail
        end
      else assign_gpus rest numagroup gpus t
  end.

(** [while (gpus_per_numa[k] == 0 && k < numas) k++;] *)
Fixpoint first_with_gpus (fuel : nat) (numas : Z) (per_numa : list Z) (k : Z)
  : outcome Z :=
  match fuel with
  | O => Undef
  | S fuel' =>
      n ← zget per_numa k;
      if (n =? 0) && (k <? numas)
      then first_with_gpus fuel' numas per_numa (k + 1)
      else Ok k
  end.

(** [for (j = 0; j < n; j++) dst[j] = src[j];] with [n] iterations left. *)
Fixpoint copy_row (n : nat) (j : Z) (src dst : list Z) : outcome (list Z) :=
  match n with
  | O => Ok dst
  | S n' =>
      v ← zget src j;
      dst' ← zset dst j v;
      copy_row n' (j + 1) src dst'
  end.

(** The body of the loop of lines 564-584, for NUMA domain [i]. *)
Definition fallback_step (numas : Z) (numagroup : list Z) (i : Z)
    (t : gpu_tables) : outcome gpu_tables :=
  n ← zget (gpus_per_numa t) i;
  if n =? 0 then
    g ← zget numagroup i;
    ng ← zget (gpus_per_group t) g;
    if 0 <? ng then
      (* best: take gpus from group *)
      per_numa ← zset (gpus_per_numa t) i ng;
      src ← zget (gpus_in_group t) g;
      dst ← zget (gpus_in_numa t) i;
      dst' ← copy_row (Z.to_nat ng) 0 src dst;
      in_numa ← zset (gpus_in_numa t) i dst';
      Ok {| gpus_in_numa := in_numa; gpus_in_group := gpus_in_group t;
            gpus_per_numa := per_numa; gpus_per_group := gpus_per_group t |}
    else
      (* worst: take whatever you can get *)
      k ← first_with_gpus (S (length (gpus_per_numa t))) numas (gpus_per_numa t) 0;
      nk ← zget (gpus_per_numa t) k;
      per_numa ← zset (gpus_per_numa t) i nk;
      src ← zget (gpus_in_numa t) k;
      dst ← zget (gpus_in_numa t) i;
      dst' ← copy_row (Z.to_nat nk) 0 src dst;
      in_numa ← zset (gpus_in_numa t) i dst';
      Ok {| gpus_in_numa := in_numa; gpus_in_group := gpus_in_group t;
            gpus_per_numa := per_numa; gpus_per_group := gpus_per_group t |}
  else Ok t.

(** The loop itself: [n] domains are left, the next one is [i]. *)
Fixpoint fallback_loop (n : nat) (numas : Z) (numagroup : list Z) (i : Z)
    (t : gpu_tables) : outcome gpu_tables :=
  match n with
  | O => Ok t
  | S n' =>
      t' ← fallback_step numas numagroup i t;
      fallback_loop n' numas numagroup (i + 1) t'
  end.

(** Lines 527-584 together: direct ownership, then the fallback. *)
Definition gpu_ownership (devs : list osdev) (gpus numas : Z)
    (numagroup : list Z) : outcome gpu_tables :=
  '(_, t) ← assign_gpus devs numagroup 0 (alloc_tables gpus numas);
  fallback_loop (Z.to_nat numas) numas numagroup 0 t.

(** The device list of NUMA domain [i]: the first [gpus_per_numa[i]]
    cells of row [i] of [gpus_in_numa]. *)
Definition numa_gpus (t : gpu_tables) (i : Z) : list Z :=
  match gpus_per_numa t !! Z.to_nat i, gpus_in_numa t !! Z.to_nat i with
  | Some n, Some row => take (Z.to_nat n) row
  | _, _ => []
  end.

Definition group_gpus (t : gpu_tables) (g : Z) : list Z :=
  match gpus_per_group t !! Z.to_nat g, gpus_in_group t !! Z.to_nat g with
  | Some n, Some row => take (Z.to_nat n) row
  | _, _ => []
  end.

(** [asprintf (&str, "%d", v)] for a [uint32_t] [v]. *)
Definition print_d (v : Z) : string := pretty (wrap32 v).

(** Lines 616-622: the inner loop of case 2, which writes the devices
    of the whole row into [str]. *)
Fixpoint list_gpus (n : nat) (j : Z) (row : list Z) (str : option string)
  : outcome (option string) :=
  match n with
  | O => Ok str
  | S n' =>
      v ← zget row j;
      str' ← (if j =? 0 then Ok (print_d v)
              else match str with
                   | Some s => Ok (s +:+ "," +:+ print_d v)
                   | None => Undef
                   end);
      list_gpus n' (j + 1) row (Some str')
  end.

(** Lines 608-624: the outer loop of case 2 over the devices [i] of the
    domain. *)
Fixpoint gpus_of_task (n : nat) (i ngpus np_in_numa id_in_numa : Z)
    (row : list Z) (str : option string) : outcome (option string) :=
  match n with
  | O => Ok str
  | S n' =>
      '(rc, task) ← map_to_domains (wrap32 i) (wrap32 ngpus) np_in_numa
                                    (DomOut 0 0 0);
      if negb (rc =? 0) then Fail
      else
        str' ← (if id_in_numa =? mapi task
                then list_gpus (Z.to_nat ngpus) 0 row str
                else Ok str);
        gpus_of_task n' (i + 1) ngpus np_in_numa id_in_numa row str'
  end.

(** Lines 586-631: the task is mapped to a NUMA domain and the devices
    of the domain are reconciled with the tasks of the domain. *)
Definition gpu_string (t : gpu_tables) (numas local_rank local_size : Z)
  : outcome string :=
  '(rc, numa) ← map_to_domains (wrap32 local_rank) (wrap32 local_size) numas
                                (DomOut 0 0 0);
  if negb (rc =? 0) then Fail
  else
    ngpus ← zget (gpus_per_numa t) (mapi numa);
    if ngpus <=? wrapu32 (np_in_dom numa) then
      (* case 1: more tasks than GPUs *)
      '(rc, gpu) ← map_to_domains (id_in_dom numa) (np_in_dom numa)
                                   (wrap32 ngpus) (DomOut 0 0 0);
      if negb (rc =? 0) then Fail
      else
        v ← get2 (gpus_in_numa t) (mapi numa) (mapi gpu);
        Ok (print_d v)
    else
      (* case 2: more GPUs than tasks *)
      row ← zget (gpus_in_numa t) (mapi numa);
      str ← gpus_of_task (Z.to_nat ngpus) 0 ngpus (np_in_dom numa)
                         (id_in_dom numa) row None;
      match str with
      | Some s => Ok s
      | None => Fail
      end.

Definition get_gpustring (devs : list osdev) (gpus numas : Z)
    (numagroup : list Z) (local_rank local_size : Z) : outcome string :=
  t ← gpu_ownership devs gpus numas numagroup;
  gpu_string t numas local_rank local_size.

(** Case 2 as the specification words it: the devices of the domain
    whose owning task, [assign (deviceIndex, devicesInDomain,
    tasksInDomain)], is this task, in ascending order. *)
Definition owner_of (deviceIndex devicesInDomain tasksInDomain : Z) : option Z :=
  match map_to_domains deviceIndex devicesInDomain tasksInDomain (DomOut 0 0 0) with
  | Ok (0, o) => Some (mapi o)
  | _ => None
  end.

Definition spec_owned_gpus (devices : list Z) (tasksInDomain position : Z) : list Z :=
  map snd
    (filter (fun p => owner_of (Z.of_nat (fst p)) (Z.of_nat (length devices))
                               tasksInDomain = Some position)
            (imap (fun i d => (i, d)) devices)).

Definition join_commas (l : list Z) : string :=
  match l with
  | [] => ""
  | d :: ds => fold_left (fun s v => s +:+ "," +:+ print_d v) ds (print_d d)
  end.

End Gpu.

(** ** Well-formed inputs and tables of [get_gpustring] *)

Module GpuInv.
Import Topology Gpu.

(** Rows and counters have the allocated sizes, and no counter exceeds
    [c]. *)
Record tables_wf (numas cap c : Z) (t : gpu_tables) : Prop := TablesWf {
  wf_len_per_numa : length (gpus_per_numa t) = Z.to_nat numas;
  wf_len_per_group : length (gpus_per_group t) = Z.to_nat numas;
  wf_len_in_numa : length (gpus_in_numa t) = Z.to_nat numas;
  wf_len_in_group : length (gpus_in_group t) = Z.to_nat numas;
  wf_rows_numa : Forall (fun row => length row = Z.to_nat cap) (gpus_in_numa t);
  wf_rows_group : Forall (fun row => length row = Z.to_nat cap) (gpus_in_group t);
  wf_cnt_numa : Forall (fun n => 0 <= n <= c) (gpus_per_numa t);
  wf_cnt_group : Forall (fun n => 0 <= n <= c) (gpus_per_group t)
}.

(** [numagroup] has one entry per NUMA domain, each the index of a row
    of the group arrays. *)
Definition numagroup_ok (numas : Z) (numagroup : list Z) : Prop :=
  length numagroup = Z.to_nat numas /\
  Forall (fun g => 0 <= g < numas) numagroup.

(** Every GPU has an ancestor whose [os_index] is the index of a NUMA
    domain. *)
Definition devs_ok (numas : Z) (devs : list osdev) : Prop :=
  Forall (fun obj => is_render_gpu obj = true ->
                     exists a, gpu_ancestor obj = Some a /\
                               0 <= os_index a < numas) devs.

(** The number of GPUs, as [slurm_spank_task_init] counts them. *)
Definition count_gpus (devs : list osdev) : Z :=
  Z.of_nat (length (List.filter is_render_gpu devs)).

(** Some NUMA domain has a device. *)
Definition some_numa_has_gpu (t : gpu_tables) : Prop :=
  exists a n, gpus_per_numa t !! a = Some n /\ 1 <= n.

(** [k] is the first NUMA domain, in enumeration order, with at least
    one device in [t]. *)
Definition first_numa_with_gpu (t : gpu_tables) (k : Z) : Prop :=
  0 <= k /\
  (exists n, gpus_per_numa t !! Z.to_nat k = Some n /\ 1 <= n) /\
  forall j, 0 <= j < k -> gpus_per_numa t !! Z.to_nat j = Some 0.

(** From [t] to [t'] the group arrays are the same, and every NUMA
    domain that has a device in [t] has the same devices in [t']. *)
Definition owned_kept (t t' : gpu_tables) : Prop :=
  gpus_in_group t' = gpus_in_group t /\
  gpus_per_group t' = gpus_per_group t /\
  forall (j : nat) (n : Z),
    gpus_per_numa t !! j = Some n -> n <> 0 ->
    gpus_per_numa t' !! j = Some n /\
    gpus_in_numa t' !! j = gpus_in_numa t !! j.

End GpuInv.

(** ** Example topologies *)

Module Scenario.
Import Topology.

Definition numa_obj (i : Z) : hwloc_obj :=
  {| os_index := i; group_ancestor := None; machine_ancestor := Some 0 |}.

Definition render_gpu (name : string) (numa : Z) : osdev :=
  {| osdev_is_gpu := true; osdev_name := name;
     osdev_numa := Some (numa_obj numa); osdev_machine := Some (numa_obj 0) |}.

(** Two GPUs below NUMA domains 0 and 1 of four; each GPU also shows as
    a [card] device, and there is a network device. *)
Definition two_gpus : list osdev :=
  [ {| osdev_is_gpu := true; osdev_name := "card0";
       osdev_numa := Some (numa_obj 0); osdev_machine := Some (numa_obj 0) |};
    render_gpu "renderD128" 0;
    {| osdev_is_gpu := false; osdev_name := "ib0";
       osdev_numa := Some (numa_obj 0); osdev_machine := Some (numa_obj 0) |};
    {| osdev_is_gpu := true; osdev_name := "card1";
       osdev_numa := Some (numa_obj 1); osdev_machine := Some (numa_obj 0) |};
    render_gpu "renderD129" 1 ].

(** A pool of eight units, entry [i] covering unit [i] alone. *)
Definition units8 : list Hwloc.hwloc_bitmap_t := [1; 2; 4; 8; 16; 32; 64; 128].

(** Every NUMA domain in a group of its own. *)
Definition own_groups : list Z := [0; 1; 2; 3].

(** Three GPUs below the only NUMA domain. *)
Definition three_gpus : list osdev :=
  [ render_gpu "renderD128" 0; render_gpu "renderD129" 0;
    render_gpu "renderD130" 0 ].

End Scenario.

(** ** The C library calls of the option parser *)

Module Libc.

Definition isdigit (c : ascii) : bool :=
  let n := N_of_ascii c in ((48 <=? n) && (n <=? 57))%N.

Definition isspace (c : ascii) : bool :=
  let n := N_of_ascii c in ((n =? 32) || ((9 <=? n) && (n <=? 13)))%N.

Definition digit_value (c : ascii) : Z := Z.of_N (N_of_ascii c) - 48.

Fixpoint skip_spaces (s : string) : string :=
  match s with
  | String c r => if isspace c then skip_spaces r else s
  | EmptyString => s
  end.

(** The decimal digits at the head of [s], added to [acc], and what
    follows them. *)
Fixpoint read_digits (s : string) (acc : Z) : Z * string :=
  match s with
  | String c r =>
      if isdigit c then read_digits r (10 * acc + digit_value c) else (acc, s)
  | EmptyString => (acc, s)
  end.

Definition LONG_MAX : Z := 2 ^ 63 - 1.
Definition LONG_MIN : Z := - 2 ^ 63.

(** The conversion of the digits at the head of [u], and no conversion
    ([endptr] is the whole string [s]) when [u] has none there. *)
Definition convert_digits (neg : bool) (u s : string) : Z * string :=
  match u with
  | String c _ =>
      if isdigit c then
        let '(v, rest) := read_digits u 0 in
        let v := if neg then - v else v in
        (Z.max LONG_MIN (Z.min LONG_MAX v), rest)
      else (0, s)
  | EmptyString => (0, s)
  end.

(** [strtol (s, &endptr, 10)]: the value and the string at [endptr].
    White space and one sign are skipped; without a digit nothing is
    converted and [endptr] is [s]; the value is clamped to a [long]. *)
Definition strtol (s : string) : Z * string :=
  let t := skip_spaces s in
  match t with
  | String "-" r => convert_digits true r s
  | String "+" r => convert_digits false r s
  | _ => convert_digits false t s
  end.

End Libc.

(** ** State of the plugin and of the job step *)

Module Plugin.
Import Hwloc Topology Libc.

(** The global variables of the plugin (lines 73-84). *)
Record globals : Type := Globals {
  disabled : Z;
  enabled : Z;
  verbose : Z;
  cpubits : option hwloc_bitmap_t;   (* [None] is [NULL] *)
  level_size : Z;
  local_rank : Z;
  local_size : Z;
  local_threads : Z;
  num_cores : Z;
  num_threads : Z;
  rank : Z
}.

(** Their values when the plugin is loaded. *)
Definition initial_globals : globals :=
  {| disabled := 0; enabled := 1; verbose := 0; cpubits := None;
     level_size := 0; local_rank := 0; local_size := 0; local_threads := 0;
     num_cores := 0; num_threads := 0; rank := 0 |}.

Definition set_disabled (v : Z) (g : globals) : globals :=
  {| disabled := v; enabled := enabled g; verbose := verbose g;
     cpubits := cpubits g; level_size := level_size g;
     local_rank := local_rank g; local_size := local_size g;
     local_threads := local_threads g; num_cores := num_cores g;
     num_threads := num_threads g; rank := rank g |}.

Definition set_verbose (v : Z) (g : globals) : globals :=
  {| disabled := disabled g; enabled := enabled g; verbose := v;
     cpubits := cpubits g; level_size := level_size g;
     local_rank := local_rank g; local_size := local_size g;
     local_threads := local_threads g; num_cores := num_cores g;
     num_threads := num_threads g; rank := rank g |}.

Definition set_cpubits (b : option hwloc_bitmap_t) (g : globals) : globals :=
  {| disabled := disabled g; enabled := enabled g; verbose := verbose g;
     cpubits := b; level_size := level_size g;
     local_rank := local_rank g; local_size := local_size g;
     local_threads := local_threads g; num_cores := num_cores g;
     num_threads := num_threads g; rank := rank g |}.

Definition set_level_size (v : Z) (g : globals) : globals :=
  {| disabled := disabled g; enabled := enabled g; verbose := verbose g;
     cpubits := cpubits g; level_size := v;
     local_rank := local_rank g; local_size := local_size g;
     local_threads := local_threads g; num_cores := num_cores g;
     num_threads := num_threads g; rank := rank g |}.

Definition set_local_rank (v : Z) (g : globals) : globals :=
  {| disabled := disabled g; enabled := enabled g; verbose := verbose g;
     cpubits := cpubits g; level_size := level_size g;
     local_rank := v; local_size := local_size g;
     local_threads := local_threads g; num_cores := num_cores g;
     num_threads := num_threads g; rank := rank g |}.

Definition set_local_size (v : Z) (g : globals) : globals :=
  {| disabled := disabled g; enabled := enabled g; verbose := verbose g;
     cpubits := cpubits g; level_size := level_size g;
     local_rank := local_rank g; local_size := v;
     local_threads := local_threads g; num_cores := num_cores g;
     num_threads := num_threads g; rank := rank g |}.

Definition set_local_threads (v : Z) (g : globals) : globals :=
  {| disabled := disabled g; enabled := enabled g; verbose := verbose g;
     cpubits := cpubits g; level_size := level_size g;
     local_rank := local_rank g; local_size := local_size g;
     local_threads := v; num_cores := num_cores g;
     num_threads := num_threads g; rank := rank g |}.

Definition set_num_cores (v : Z) (g : globals) : globals :=
  {| disabled := disabled g; enabled := enabled g; verbose := verbose g;
     cpubits := cpubits g; level_size := level_size g;
     local_rank := local_rank g; local_size := local_size g;
     local_threads := local_threads g; num_cores := v;
     num_threads := num_threads g; rank := rank g |}.

Definition set_num_threads (v : Z) (g : globals) : globals :=
  {| disabled := disabled g; enabled := enabled g; verbose := verbose g;
     cpubits := cpubits g; level_size := level_size g;
     local_rank := local_rank g; local_size := local_size g;
     local_threads := local_threads g; num_cores := num_cores g;
     num_threads := v; rank := rank g |}.

Definition set_rank (v : Z) (g : globals) : globals :=
  {| disabled := disabled g; enabled := enabled g; verbose := verbose g;
     cpubits := cpubits g; level_size := level_size g;
     local_rank := local_rank g; local_size := local_size g;
     local_threads := local_threads g; num_cores := num_cores g;
     num_threads := num_threads g; rank := v |}.

(** What the plugin asks of SLURM through its [spank_t] handle, and of
    the system. *)
Record spank : Type := Spank {
  sp_remote : bool;                    (* spank_remote (sp) *)
  sp_task_id : option Z;               (* S_TASK_ID, [None] on failure *)
  sp_local_task_count : option Z;      (* S_JOB_LOCAL_TASK_COUNT *)
  sp_env : gmap string string;         (* the environment of the job step *)
  sp_nprocessors_onln : Z              (* sysconf (_SC_NPROCESSORS_ONLN) *)
}.

(** [spank_getenv (sp, var, buf, len)]: the value, when the variable is
    set and its value fits the buffer. *)
Definition spank_getenv (e : gmap string string) (var : string) (len : Z)
  : option string :=
  match e !! var with
  | Some v => if Z.of_nat (String.length v) <? len then Some v else None
  | None => None
  end.

(** [spank_setenv (sp, var, val, overwrite)]: a variable that is set is
    left alone unless [overwrite] is not zero. *)
Definition spank_setenv (e : gmap string string) (var val : string)
    (overwrite : Z) : gmap string string :=
  match e !! var with
  | Some _ => if overwrite =? 0 then e else <[var := val]> e
  | None => <[var := val]> e
  end.

End Plugin.

(** ** [parse_option] and [parse_user_option] (lines 118-245) *)

Module Options.
Import Hwloc Libc Plugin.

Inductive parse_result : Type :=
| Parsed (rc : Z) (g : globals)   (* the function returns [rc] *)
| Exits                           (* [exit (0)] after the help text *)
| Stuck.                          (* a loop has not ended within its fuel *)

(** The [while (opt[0])] loop over a list of cores and ranges; returns
    [rc], [cpubits] and [level_size]. *)
Fixpoint parse_ranges (fuel : nat) (coreobjs : Z) (opt : string)
    (bits : hwloc_bitmap_t) (lsize : Z) : option (Z * hwloc_bitmap_t * Z) :=
  match fuel with
  | O => None
  | S fuel' =>
      match opt with
      | EmptyString => Some (0, bits, lsize)
      | _ =>
          let '(start, endptr) := strtol opt in
          if start <? 0 then Some (-1, bits, lsize)
          else if coreobjs <? start then Some (-1, bits, lsize)
          else
            match endptr with
            | EmptyString =>
                Some (0, hwloc_bitmap_set bits start, wrapu32 (lsize + 1))
            | String "-" opt1 =>
                match opt1 with
                | EmptyString => Some (-1, bits, lsize)
                | _ =>
                    let '(end_, endptr) := strtol opt1 in
                    if end_ <? 0 then Some (-1, bits, lsize)
                    else if coreobjs <? end_ then Some (-1, bits, lsize)
                    else if end_ <? start then Some (-1, bits, lsize)
                    else
                      let bits := hwloc_bitmap_set_range bits start end_ in
                      let lsize := wrapu32 (lsize + (end_ - start + 1)) in
                      let opt2 := match endptr with
                                  | String _ r => r
                                  | EmptyString => EmptyString
                                  end in
                      parse_ranges fuel' coreobjs opt2 bits lsize
                end
            | String "," opt1 =>
                parse_ranges fuel' coreobjs opt1
                  (hwloc_bitmap_set bits start) (wrapu32 (lsize + 1))
            | String _ _ => Some (-1, bits, lsize)
            end
      end
  end.

Definition starts_with_digit (opt : string) : bool :=
  match opt with
  | String c _ => isdigit c
  | EmptyString => false
  end.

Definition parse_option (coreobjs : Z) (opt : string) (remote : Z)
    (g : globals) : parse_result :=
  if String.eqb opt "on" then Parsed 0 (set_disabled 0 g)
  else if String.eqb opt "off" then Parsed 0 (set_disabled 1 g)
  else if String.eqb opt "vv" then Parsed 0 (set_verbose 3 g)
  else if String.eqb opt "v" || String.eqb opt "verbose"
       then Parsed 0 (set_verbose 2 g)
  else if String.eqb opt "w" then Parsed 0 (set_verbose 1 g)
  else if starts_with_digit opt then
    match parse_ranges (S (String.length opt)) coreobjs opt hwloc_bitmap_alloc 0 with
    | Some (rc, bits, lsize) =>
        Parsed rc (set_level_size lsize (set_cpubits (Some bits) g))
    | None => Stuck
    end
  else if String.eqb opt "help" && (remote =? 0) then Exits
  else Parsed (-1) g.

(** The tokens between the periods of an option string. *)
Fixpoint split_dots (s : string) : list string :=
  match s with
  | EmptyString => [EmptyString]
  | String "." r => EmptyString :: split_dots r
  | String c r =>
      match split_dots r with
      | t :: ts => String c t :: ts
      | [] => [String c EmptyString]
      end
  end.

Fixpoint parse_tokens (coreobjs : Z) (tokens : list string) (remote : Z)
    (g : globals) : parse_result :=
  match tokens with
  | [] => Parsed 0 g
  | opt :: rest =>
      match parse_option coreobjs opt remote g with
      | Parsed rc g' =>
          if rc =? 0 then parse_tokens coreobjs rest remote g'
          else Parsed (-1) g'
      | r => r
      end
  end.

(** [arg] is [None] for [NULL]. *)
Definition parse_user_option (coreobjs : Z) (arg : option string) (remote : Z)
    (g : globals) : parse_result :=
  match arg with
  | None => Parsed 0 g
  | Some a => parse_tokens coreobjs (split_dots a) remote g
  end.

(** ** [get_remote_env] (lines 284-345) *)

Definition get_remote_env (sp : spank) (g : globals) : parse_result :=
  if negb (disabled g =? 0) then Parsed 0 g
  else
    (* Turn off verbosity for all but rank 0 *)
    match sp_task_id sp with
    | None => Parsed (-1) g
    | Some r =>
        let g := set_rank r g in
        let g := if negb (r =? 0) then set_verbose 0 g else g in
        let val :=
          match spank_getenv (sp_env sp) "OMPI_COMM_WORLD_LOCAL_RANK" 64 with
          | Some v => Some v
          | None => spank_getenv (sp_env sp) "SLURM_LOCALID" 64
          end in
        match val with
        | None => Parsed (-1) g
        | Some v =>
            let g := set_local_rank (wrapu32 (fst (strtol v))) g in
            match sp_local_task_count sp with
            | None => Parsed (-1) g
            | Some n =>
                let g := set_local_size n g in
                let g :=
                  match spank_getenv (sp_env sp) "OMP_NUM_THREADS" 64 with
                  | Some v => set_num_threads (wrapu32 (fst (strtol v))) g
                  | None => set_num_threads 0 g
                  end in
                match spank_getenv (sp_env sp) "MPIBIND" 64 with
                | Some v =>
                    parse_user_option (sp_nprocessors_onln sp) (Some v) 1 g
                | None => Parsed 0 g
                end
            end
        end
    end.

End Options.

(** ** [get_gomp_str] (lines 488-510) *)

Module Gomp.
Import Hwloc.

(** The [while ((i != -1) && (j > 0))] loop, [j] being the number left. *)
Fixpoint gomp_loop (j : nat) (cpuset : hwloc_bitmap_t) (i : Z)
    (str : option string) : option string :=
  match j with
  | O => str
  | S j' =>
      if i =? -1 then str
      else
        let str' := match str with
                    | Some s => s +:+ "," +:+ pretty (wrap32 i)
                    | None => pretty (wrap32 i)
                    end in
        gomp_loop j' cpuset (hwloc_bitmap_next cpuset i) (Some str')
  end.

Definition get_gomp_str (num_threads : Z) (cpuset : hwloc_bitmap_t)
  : option string :=
  gomp_loop (Z.to_nat (wrap32 num_threads)) cpuset
            (hwloc_bitmap_first cpuset) None.

End Gomp.

(** ** [slurm_spank_task_init] (lines 730-999) *)

Module TaskInit.
Import Hwloc Topology Plugin Options.

(** Lines 776-796: the pool of an explicit list of cores.  [cpusets]
    holds the entries written so far; the array has [lsize] cells. *)
Fixpoint pick_cores (cores : list (option hwloc_bitmap_t)) (i : Z)
    (bits : hwloc_bitmap_t) (lsize : Z) (cpusets : list hwloc_bitmap_t)
    (ncores : Z) : outcome (list hwloc_bitmap_t * Z) :=
  match cores with
  | [] => Ok (cpusets, ncores)
  | obj :: rest =>
      if hwloc_bitmap_isset bits i then
        match obj with
        | Some c =>
            if ncores <? lsize
            then pick_cores rest (i + 1) bits lsize (cpusets ++ [c])
                            (wrapu32 (ncores + 1))
            else Undef
        | None => Fail
        end
      else pick_cores rest (i + 1) bits lsize cpusets ncores
  end.

(** Lines 802-808: the first depth with enough objects; returns the
    depth the loop ends with and [level_size]. *)
Fixpoint find_depth (levels : list (list (option hwloc_bitmap_t)))
    (depth threads lsize : Z) : Z * Z :=
  match levels with
  | [] => (depth, lsize)
  | level :: rest =>
      let lsize := Z.of_nat (length level) in
      if threads <=? lsize then (depth, lsize)
      else find_depth rest (depth + 1) threads lsize
  end.

(** Lines 812-821: the cpusets of the objects [i ..] of a level. *)
Fixpoint collect_level (n : nat) (i : Z) (level : list (option hwloc_bitmap_t))
    (cpusets : list hwloc_bitmap_t) : outcome (list hwloc_bitmap_t) :=
  match n with
  | O => Ok cpusets
  | S n' =>
      match level !! Z.to_nat i with
      | Some (Some c) => collect_level n' (i + 1) level (cpusets ++ [c])
      | _ => Fail
      end
  end.

(** Lines 776-796: the pool of the cores of an explicit list [bits];
    sets [num_cores] and shrinks [level_size]. *)
Definition select_cores (topo : topology) (bits : hwloc_bitmap_t) (g : globals)
  : outcome (globals * list hwloc_bitmap_t) :=
  '(cpusets, ncores) ← pick_cores (topo_cores topo) 0 bits (level_size g) [] 0;
  let g := set_num_cores ncores g in
  let g := if ncores <? level_size g then set_level_size ncores g else g in
  Ok (g, cpusets).

(** Lines 798-821: the pool of the objects of one depth; sets
    [num_cores] and [level_size]. *)
Definition select_by_depth (topo : topology) (g : globals)
  : outcome (globals * list hwloc_bitmap_t) :=
  let topodepth := Z.of_nat (length (topo_levels topo)) in
  let g := set_num_cores (Z.of_nat (length (topo_cores topo))) g in
  let '(depth, lsize) :=
    find_depth (topo_levels topo) 0 (local_threads g) (level_size g) in
  let g := set_level_size lsize g in
  let depth := if depth =? topodepth then wrapu32 (depth - 1) else depth in
  let level := default [] (topo_levels topo !! Z.to_nat depth) in
  cpusets ← collect_level (Z.to_nat lsize) 0 level [];
  Ok (g, cpusets).

(** [if (cpubits && !hwloc_bitmap_iszero (cpubits))] *)
Definition explicit_cores (g : globals) : option hwloc_bitmap_t :=
  match cpubits g with
  | Some bits => if hwloc_bitmap_iszero bits then None else Some bits
  | None => None
  end.

Definition unit_pool (topo : topology) (g : globals)
  : outcome (globals * list hwloc_bitmap_t) :=
  match explicit_cores g with
  | Some bits => select_cores topo bits g
  | None => select_by_depth topo g
  end.

(** Lines 841-868: the GPUs are counted, and the group of the ancestor
    of each is entered in [numagroup]. *)
Fixpoint group_numas (devs : list osdev) (numagroup : list Z) (gpus : Z)
  : outcome (list Z * Z) :=
  match devs with
  | [] => Ok (numagroup, gpus)
  | obj :: rest =>
      if is_render_gpu obj then
        match gpu_ancestor obj with
        | Some ancestor =>
            let ancestor2 := match group_ancestor ancestor with
                             | Some i => Some i
                             | None => machine_ancestor ancestor
                             end in
            match ancestor2 with
            | Some i2 =>
                numagroup ← zset numagroup (os_index ancestor) i2;
                group_numas rest numagroup (wrap32 (gpus + 1))
            | None => Undef
            end
        | None => Undef
        end
      else group_numas rest numagroup gpus
  end.

(** Lines 896-909: [OMP_NUM_THREADS] when the user did not set it. *)
Definition export_omp_num_threads (g : globals) (e : gmap string string)
  : outcome (globals * gmap string string) :=
  if num_threads g =? 0 then
    if local_size g =? 0 then Undef
    else
      let n := num_cores g / local_size g in
      let n := if n =? 0 then 1 else n in
      Ok (set_num_threads n g, spank_setenv e "OMP_NUM_THREADS" (pretty n) 0)
  else Ok (g, e).

(** What a call leaves: the globals, the environment of the task, and
    the cpuset given to [hwloc_set_cpubind] ([None] when the function
    returns 0 without binding). *)
Record task_result : Type := TaskResult {
  tr_globals : globals;
  tr_env : gmap string string;
  tr_cpubind : option hwloc_bitmap_t
}.

(** [Fail] is the return of [ESPANK_ERROR]. *)
Definition bind_task (sp : spank) (topo : topology) (g : globals)
  : outcome task_result :=
  let g := set_local_threads
             (if num_threads g =? 0 then local_size g
              else wrapu32 (local_size g * num_threads g)) g in
  '(g, cpusets) ← unit_pool topo g;
  let numas := topo_numas topo in
  '(numagroup, gpus) ← group_numas (topo_osdevs topo)
                                    (replicate (Z.to_nat numas) 0) 0;
  gpustr ← (if gpus =? 0 then Ok None
            else s ← Gpu.get_gpustring (topo_osdevs topo) gpus numas numagroup
                                       (local_rank g) (local_size g);
                 Ok (Some s));
  '(g', e) ← export_omp_num_threads g (sp_env sp);
  raw ← Slice.raw_cpuset cpusets (level_size g) (local_size g) (local_rank g);
  cpuset ← Reduce.reduce_cpuset (num_threads g') raw;
  let e := match Gomp.get_gomp_str (num_threads g') cpuset with
           | Some str => spank_setenv e "GOMP_CPU_AFFINITY" str 1
           | None => e
           end in
  let e := match gpustr with
           | Some str => spank_setenv e "CUDA_VISIBLE_DEVICES" str 1
           | None => e
           end in
  Ok {| tr_globals := g'; tr_env := e; tr_cpubind := Some cpuset |}.

Definition slurm_spank_task_init (sp : spank) (topo : topology) (g : globals)
  : outcome task_result :=
  if negb (sp_remote sp)
  then Ok {| tr_globals := g; tr_env := sp_env sp; tr_cpubind := None |}
  else
    match get_remote_env sp g with
    | Parsed _ g =>
        if (enabled g =? 0) || negb (disabled g =? 0)
        then Ok {| tr_globals := g; tr_env := sp_env sp; tr_cpubind := None |}
        else bind_task sp topo g
    | Exits => Undef
    | Stuck => Undef
    end.

(** The number of cores an explicit list [bits] selects on a node. *)
Definition selected_cores (topo : topology) (bits : hwloc_bitmap_t) : Z :=
  Z.of_nat (length (List.filter (fun i => hwloc_bitmap_isset bits (Z.of_nat i))
                                (seq 0 (length (topo_cores topo))))).

(** The cores [num_cores] counts: those of an explicit list when there
    is one, those of the node otherwise. *)
Definition cores_available (topo : topology) (g : globals) : Z :=
  match explicit_cores g with
  | Some bits => selected_cores topo bits
  | None => Z.of_nat (length (topo_cores topo))
  end.

(** [OMP_NUM_THREADS] as the specification words it. *)
Definition spec_omp_num_threads (totalCoresOnNode localTaskCount : Z) : string :=
  pretty (Z.max 1 (totalCoresOnNode / localTaskCount)).

End TaskInit.

(** ** An example node: sixteen cores, one NUMA domain, no GPU *)

Module Node.
Import Topology Plugin.

Definition core_cpusets : list (option Hwloc.hwloc_bitmap_t) :=
  map (fun i => Some (2 ^ Z.of_nat i)) (seq 0 16).

Definition topo16 : topology :=
  {| topo_levels := [[Some 65535]; core_cpusets];
     topo_cores := core_cpusets;
     topo_numas := 1;
     topo_osdevs := [] |}.

(** Local task [local_id] of four on that node, with the environment
    [e] added to what SLURM sets. *)
Definition task (task_id : Z) (local_id : string) (e : list (string * string))
  : spank :=
  {| sp_remote := true;
     sp_task_id := Some task_id;
     sp_local_task_count := Some 4;
     sp_env := list_to_map (("SLURM_LOCALID"%string, local_id) :: e);
     sp_nprocessors_onln := 16 |}.

(** What [slurm_spank_task_init] leaves for task 0 of that step. *)
Definition task0_result : TaskInit.task_result :=
  Eval vm_compute in
    match TaskInit.slurm_spank_task_init (task 0 "0" []) topo16 initial_globals with
    | Ok r => r
    | _ => {| TaskInit.tr_globals := initial_globals; TaskInit.tr_env := ∅;
              TaskInit.tr_cpubind := None |}
    end.

End Node.

(** ** Lists of numbers as text *)

Module Render.

(** One more number at the end of a list that is being written: the
    step of the loops of [get_gomp_str] and [get_gpustring]. *)
Definition add_item (str : option string) (i : Z) : option string :=
  Some (match str with
        | Some s => s +:+ "," +:+ Gpu.print_d i
        | None => Gpu.print_d i
        end).

(** The numbers of [l] in decimal, separated by commas; [None] (a
    [NULL] string) when there is none. *)
Definition comma_list (l : list Z) : option string :=
  match l with
  | [] => None
  | _ => Some (String.concat "," (map Gpu.print_d l))
  end.

End Render.

(** ** A node with shared devices *)

Module Devices.
Import Topology Gpu.

(** Two GPUs below NUMA domain 0 of two; both domains in group 0. *)
Definition gpus_below_numa0 : list osdev :=
  [ Scenario.render_gpu "renderD128" 0; Scenario.render_gpu "renderD129" 0 ].

Definition one_group : list Z := [0; 0].

(** The tables [get_gpustring] works with on that node, after the
    fallback: both domains list both devices. *)
Definition shared_tables : gpu_tables :=
  Eval vm_compute in
    match gpu_ownership gpus_below_numa0 2 2 one_group with
    | Ok t => t
    | _ => alloc_tables 0 0
    end.

End Devices.

(** ** The devices a NUMA domain owns directly *)

Module Ownership.
Import Topology.

(** Every GPU with the number [get_gpustring] gives it: the value of
    [gpus] when the enumeration of lines 530-559 reaches it. *)
Fixpoint numbered (devs : list osdev) (k : Z) : list (Z * osdev) :=
  match devs with
  | [] => []
  | obj :: rest =>
      if is_render_gpu obj then (k, obj) :: numbered rest (k + 1)
      else numbered rest k
  end.

(** [os_index] of the ancestor of a device. *)
Definition ancestor_index (obj : osdev) : option Z :=
  os_index <$> gpu_ancestor obj.

Definition below_numa (i : Z) (p : Z * osdev) : Prop :=
  ancestor_index p.2 = Some i.

Definition below_group (numagroup : list Z) (g : Z) (p : Z * osdev) : Prop :=
  ancestor_index p.2 ≫= (fun a => numagroup !! Z.to_nat a) = Some g.

#[export] Instance below_numa_dec (i : Z) (p : Z * osdev)
  : Decision (below_numa i p) :=
  decide (ancestor_index p.2 = Some i).

#[export] Instance below_group_dec (numagroup : list Z) (g : Z) (p : Z * osdev)
  : Decision (below_group numagroup g p) :=
  decide (ancestor_index p.2 ≫= (fun a => numagroup !! Z.to_nat a) = Some g).

(** The numbers of the GPUs below NUMA domain [i], in enumeration
    order. *)
Definition direct_gpus (devs : list osdev) (i : Z) : list Z :=
  (filter (below_numa i) (numbered devs 0)).*1.

(** The numbers of the GPUs below the NUMA domains of group [g]. *)
Definition grouped_gpus (devs : list osdev) (numagroup : list Z) (g : Z) : list Z :=
  (filter (below_group numagroup g) (numbered devs 0)).*1.

End Ownership.

(** ** The other callbacks, and what they call (lines 247-282, 359-412, 639-728) *)

Module Callbacks.
Import Libc Plugin Options.

Definition set_enabled (v : Z) (g : globals) : globals :=
  {| disabled := disabled g; enabled := v; verbose := verbose g;
     cpubits := cpubits g; level_size := level_size g;
     local_rank := local_rank g; local_size := local_size g;
     local_threads := local_threads g; num_cores := num_cores g;
     num_threads := num_threads g; rank := rank g |}.

(** Whether the digits at the head of [u] are outside the range of a
    [long]. *)
Definition digits_overflow (neg : bool) (u : string) : bool :=
  match u with
  | String c _ =>
      if isdigit c then
        let '(v, _) := read_digits u 0 in
        let v := if neg then - v else v in
        (v <? LONG_MIN) || (LONG_MAX <? v)
      else false
  | EmptyString => false
  end.

(** Whether [strtol (s, &p, 10)] sets [errno] (to [ERANGE]; no
    conversion at all sets nothing in the C library the plugin is
    built with). *)
Definition strtol_erange (s : string) : bool :=
  let t := skip_spaces s in
  match t with
  | String "-" r => digits_overflow true r
  | String "+" r => digits_overflow false r
  | _ => digits_overflow false t
  end.

(** [str2int] (lines 359-371). *)
Definition str2int (str : string) : Z :=
  let '(l, p) := strtol str in
  let stops_well := match p with
                    | EmptyString => true
                    | String "(" _ => true
                    | String _ _ => false
                    end in
  if strtol_erange str || negb stops_well then -1 else wrap32 l.

(** [job_is_exclusive] (lines 376-395); [val] has 16 bytes. *)
Definition job_is_exclusive (sp : spank) (g : globals) : Z :=
  match spank_getenv (sp_env sp) "SLURM_JOB_CPUS_PER_NODE" 16 with
  | None => 0
  | Some val =>
      let n := str2int val in
      if n <? 0 then 0
      else if level_size g <=? wrapu32 n then 1 else 0
  end.

(** [job_step_is_batch] (lines 400-412); [stepid] is [S_JOB_STEPID],
    [None] when [spank_get_item] fails. *)
Definition job_step_is_batch (stepid : option Z) : Z :=
  match stepid with
  | None => 0
  | Some id => if id =? 4294967294 then 1 else 0
  end.

(** The loop of [slurm_spank_init] over the arguments of the plugin:
    it ends at the first one that starts with [mpibind=]. *)
Fixpoint init_args (av : list string) (g : globals) : globals :=
  match av with
  | [] => g
  | a :: rest =>
      if String.prefix "mpibind=" a then
        let opt := String.substring 8 (String.length a - 8) a in
        if String.eqb opt "off" then set_disabled 1 g else g
      else init_args rest g
  end.

(** [slurm_spank_init] (lines 639-668); it returns 0. *)
Definition slurm_spank_init (sp : spank) (av : list string) (g : globals)
  : globals :=
  if negb (sp_remote sp) then g else init_args av g.

(** [slurm_spank_user_init] (lines 683-728); it returns 0.  The
    topology it loads is an argument of [slurm_spank_task_init]
    here. *)
Definition slurm_spank_user_init (sp : spank) (stepid : option Z) (g : globals)
  : globals :=
  if negb (sp_remote sp) then g
  else
    let g := set_enabled 0 g in
    if negb (job_step_is_batch stepid =? 0) then g
    else if job_is_exclusive sp g =? 0 then g
    else set_enabled 1 g.

(** [get_local_env] (lines 247-282): [environ] is the environment of
    the process, read with [getenv]. *)
Definition get_local_env (environ : gmap string string) (coreobjs : Z)
    (g : globals) : parse_result :=
  if negb (disabled g =? 0) then Parsed 0 g
  else
    let threads (g : globals) :=
      match environ !! "OMP_NUM_THREADS" with
      | Some v => set_num_threads (wrapu32 (fst (strtol v))) g
      | None => set_num_threads 0 g
      end in
    match environ !! "MPIBIND" with
    | Some val =>
        match parse_user_option coreobjs (Some val) 0 g with
        | Parsed rc g => Parsed rc (threads g)
        | r => r
        end
    | None => Parsed 0 (threads g)
    end.

(** [slurm_spank_init_post_opt] (lines 670-676). *)
Definition slurm_spank_init_post_opt (sp : spank) (g : globals) : parse_result :=
  if negb (sp_remote sp)
  then get_local_env (sp_env sp) (sp_nprocessors_onln sp) g
  else Parsed 0 g.

End Callbacks.

(** ** Finite topologies *)

Module Finite.
Import Hwloc Topology.

(** Every cpuset of the list is finite and holds no unit [n] or
    above. *)
Definition cpusets_below (n : Z) (l : list (option hwloc_bitmap_t)) : Prop :=
  Forall (fun oc => forall c, oc = Some c -> 0 <= c < 2 ^ n) l.

Definition topology_below (n : Z) (topo : topology) : Prop :=
  Forall (cpusets_below n) (topo_levels topo) /\ cpusets_below n (topo_cores topo).

End Finite.

(** ** A node with GPUs *)

Module GpuNode.
Import Topology Plugin.

(** Every GPU lies below a NUMA domain of the node, and the group (or
    else the machine) above that domain has an index below the number
    of NUMA domains: the indices [slurm_spank_task_init] enters in
    [numagroup] are indices of rows of the group tables. *)
Definition groups_ok (numas : Z) (devs : list osdev) : Prop :=
  Forall (fun obj =>
            is_render_gpu obj = true ->
            exists a i2,
              gpu_ancestor obj = Some a /\ 0 <= os_index a < numas /\
              match group_ancestor a with
              | Some i => Some i
              | None => machine_ancestor a
              end = Some i2 /\
              0 <= i2 < numas) devs.

(** The node of [Node.topo16] with two GPUs, below NUMA domains 0 and 1
    of four. *)
Definition topo16_gpus : topology :=
  {| topo_levels := topo_levels Node.topo16;
     topo_cores := topo_cores Node.topo16;
     topo_numas := 4;
     topo_osdevs := Scenario.two_gpus |}.

(** What [slurm_spank_task_init] leaves for task 2 of four on that
    node. *)
Definition task2_result : TaskInit.task_result :=
  Eval vm_compute in
    match TaskInit.slurm_spank_task_init (Node.task 2 "2" []) topo16_gpus
            initial_globals with
    | Ok r => r
    | _ => {| TaskInit.tr_globals := initial_globals; TaskInit.tr_env := ∅;
              TaskInit.tr_cpubind := None |}
    end.

End GpuNode.

(* ================================================================== *)
(** * Part II: properties *)
(* ================================================================== *)

Lemma wrap32_id z : in_int32 z -> wrap32 z = z.
Proof.
  unfold in_int32, wrap32. intros H.
  rewrite Z.mod_small by lia. lia.
Qed.

Lemma wrapu32_id z : in_uint32 z -> wrapu32 z = z.
Proof. unfold in_uint32, wrapu32. intros H. apply Z.mod_small. lia. Qed.

(** ** The partitioner *)

Section PartitionFacts.
Import Partition.

(** Closed forms of the size and of the start of a bucket, for a
    quotient [ave] and a remainder [extra]. *)
Let sz (ave extra i : Z) : Z := if i <? extra then ave + 1 else ave.
Let st (ave extra i : Z) : Z := i * ave + Z.min i extra.

Lemma st_succ ave extra i : 0 <= i -> st ave extra (i + 1) = st ave extra i + sz ave extra i.
Proof. unfold st, sz. intros Hi. destruct (Z.ltb_spec i extra); lia. Qed.

Lemma sz_nonneg ave extra i : 0 <= ave -> 0 <= sz ave extra i.
Proof. unfold sz. destruct (i <? extra); lia. Qed.

Lemma st_mono ave extra i j :
  0 <= ave -> 0 <= i <= j -> st ave extra i <= st ave extra j.
Proof. unfold st. intros. nia. Qed.

Lemma st_le_total ave extra ndoms i :
  0 <= ave -> 0 <= extra < ndoms -> 0 <= i <= ndoms ->
  st ave extra i <= ndoms * ave + extra.
Proof. unfold st. intros. nia. Qed.

Lemma dom_tmp_sz ave extra i :
  0 <= ave < 2 ^ 31 -> (0 < extra -> ave + 1 < 2 ^ 31) ->
  0 <= i -> dom_tmp i ave extra = sz ave extra i.
Proof.
  intros Ha He Hi. unfold dom_tmp, sz.
  destruct (Z.ltb_spec i extra); [|done].
  apply wrap32_id. unfold in_int32. lia.
Qed.

(** The loop, started in iteration [i] with the items of the buckets
    before [i] counted in [cum_np]. *)
Lemma map_loop_spec rank np ndoms ave extra o :
  0 <= ave -> 0 <= extra < ndoms -> np = ndoms * ave + extra ->
  np < 2 ^ 31 -> 0 <= rank < 2 ^ 31 ->
  forall n i,
    0 <= i -> i + Z.of_nat n = ndoms -> st ave extra i <= rank ->
    if rank <? np then
      exists d, i <= d < ndoms /\
        st ave extra d <= rank < st ave extra d + sz ave extra d /\
        map_loop n rank ave extra i (st ave extra i) o =
          Ok (0, {| mapi := d; np_in_dom := sz ave extra d;
                    id_in_dom := (rank - st ave extra d) mod sz ave extra d |})
    else map_loop n rank ave extra i (st ave extra i) o = Ok (1, o).
Proof.
  intros Hav Hex Hnp Hlt Hrk.
  assert (Hst_total : st ave extra ndoms = np) by (unfold st; lia).
  assert (Hmul : ave <= ndoms * ave) by nia.
  assert (Hmul1 : 0 < extra -> ave + 1 <= ndoms * ave + extra) by (intros; lia).
  assert (Hav31 : 0 <= ave < 2 ^ 31) by lia.
  assert (Hav1 : 0 < extra -> ave + 1 < 2 ^ 31) by lia.
  induction n as [|n IH]; intros i Hi Hin Hcum.
  - assert (i = ndoms) by lia; subst i. rewrite Hst_total in Hcum.
    destruct (Z.ltb_spec rank np); [lia|done].
  - cbn [map_loop]. rewrite dom_tmp_sz by done.
    assert (Hle : st ave extra (i + 1) <= np)
      by (subst np; apply st_le_total; lia).
    pose proof (sz_nonneg ave extra i Hav) as Hsz.
    pose proof (st_mono ave extra 0 i Hav ltac:(lia)) as Hst0.
    assert (st ave extra 0 = 0) as Hz by (unfold st; lia).
    pose proof (st_succ ave extra i Hi) as Hsucc.
    rewrite wrap32_id by (unfold in_int32; lia).
    rewrite <- Hsucc.
    destruct (Z.ltb_spec rank (st ave extra (i + 1))) as [Hin'|Hout].
    + destruct (Z.eqb_spec (sz ave extra i) 0) as [E|NE]; [lia|].
      destruct (Z.eqb_spec (sz ave extra i) (-1)) as [E1|_]; [lia|].
      rewrite andb_false_r.
      assert (rank < np) by lia.
      destruct (Z.ltb_spec rank np); [|lia].
      exists i. split; [lia|]. split; [lia|].
      rewrite wrap32_id by (unfold in_int32; lia).
      rewrite Z.rem_mod_nonneg by lia. done.
    + specialize (IH (i + 1) ltac:(lia) ltac:(lia) Hout).
      destruct (rank <? np).
      * destruct IH as (d & Hd & Hr & ->). exists d. split; [lia|done].
      * done.
Qed.

(** A negative [np]: every bucket is empty or negative, and no rank
    that is not negative is found. *)
Lemma map_loop_neg rank ave o :
  - 2 ^ 31 <= ave <= 0 -> 0 <= rank ->
  forall n extra i,
    extra <= 0 -> 0 <= i -> - 2 ^ 31 <= (i + Z.of_nat n) * ave ->
    map_loop n rank ave extra i (i * ave) o = Ok (1, o).
Proof.
  intros Hav Hrk. induction n as [|n IH]; intros extra i Hex Hi Hb; [done|].
  cbn [map_loop]. unfold dom_tmp.
  destruct (Z.ltb_spec i extra); [lia|].
  rewrite wrap32_id by (unfold in_int32; nia).
  destruct (Z.ltb_spec rank (i * ave + ave)); [nia|].
  replace (i * ave + ave) with ((i + 1) * ave) by lia.
  apply IH; lia.
Qed.

Lemma bucket_size_sz total ndoms d :
  bucket_size total ndoms d = sz (total / ndoms) (total mod ndoms) d.
Proof. unfold bucket_size, sz. destruct (d <? total mod ndoms); lia. Qed.

Lemma bucket_start_st total ndoms d :
  0 < ndoms -> 0 <= d ->
  bucket_start total ndoms d = st (total / ndoms) (total mod ndoms) d.
Proof.
  intros Hn Hd. unfold bucket_start.
  pose proof (Z.mod_pos_bound total ndoms Hn) as Hm.
  rewrite <- (Z2Nat.id d) at 2 by done.
  induction (Z.to_nat d) as [|n IH]; [unfold st; simpl; lia|].
  rewrite seq_S, map_app, fold_right_app. cbn [map fold_right Nat.add].
  rewrite Nat2Z.inj_succ, <- Z.add_1_r, st_succ by lia.
  rewrite <- IH, bucket_size_sz.
  generalize (sz (total / ndoms) (total mod ndoms) (Z.of_nat n)) as s.
  generalize (seq 0 n) as l. intros l s.
  induction l as [|x l IHl]; cbn [map fold_right]; lia.
Qed.

Lemma map_to_domains_spec rank np ndoms o :
  0 <= np < 2 ^ 31 -> 0 < ndoms < 2 ^ 31 -> 0 <= rank < 2 ^ 31 ->
  if rank <? np then
    exists d, 0 <= d < ndoms /\
      bucket_start np ndoms d <= rank < bucket_start np ndoms d + bucket_size np ndoms d /\
      map_to_domains rank np ndoms o =
        Ok (0, {| mapi := d; np_in_dom := bucket_size np ndoms d;
                  id_in_dom := (rank - bucket_start np ndoms d) mod bucket_size np ndoms d |})
  else map_to_domains rank np ndoms o = Ok (1, o).
Proof.
  intros Hnp Hnd Hrk. unfold map_to_domains.
  destruct (Z.eqb_spec ndoms 0); [lia|].
  destruct (Z.eqb_spec ndoms (-1)) as [|_]; [lia|]. rewrite andb_false_r.
  rewrite Z.quot_div_nonneg, Z.rem_mod_nonneg by lia.
  pose proof (Z.mod_pos_bound np ndoms ltac:(lia)) as Hm.
  pose proof (Z.div_pos np ndoms ltac:(lia) ltac:(lia)) as Hq.
  pose proof (Z.div_mod np ndoms ltac:(lia)) as Hdm.
  assert (np / ndoms <= np) by (apply Z.div_le_upper_bound; nia).
  rewrite wrap32_id by (unfold in_int32; lia).
  pose proof (map_loop_spec rank np ndoms (np / ndoms) (np mod ndoms) o
                Hq Hm Hdm ltac:(lia) Hrk (Z.to_nat ndoms) 0 ltac:(lia) ltac:(lia)) as H0.
  assert (Hz : st (np / ndoms) (np mod ndoms) 0 = 0) by (unfold st; lia).
  rewrite Hz in H0. specialize (H0 ltac:(lia)).
  destruct (rank <? np); [|done].
  destruct H0 as (d & Hd & Hr & Heq). exists d.
  rewrite bucket_size_sz, bucket_start_st by lia. done.
Qed.

Lemma map_to_domains_neg rank np ndoms o :
  - 2 ^ 31 <= np < 0 -> 0 < ndoms < 2 ^ 31 -> 0 <= rank ->
  map_to_domains rank np ndoms o = Ok (1, o).
Proof.
  intros Hnp Hnd Hrk. unfold map_to_domains.
  destruct (Z.eqb_spec ndoms 0); [lia|].
  destruct (Z.eqb_spec ndoms (-1)) as [|_]; [lia|]. rewrite andb_false_r.
  pose proof (Z.quot_rem' np ndoms) as Hqr.
  pose proof (Z.rem_nonpos np ndoms ltac:(lia) ltac:(lia)) as Hr.
  pose proof (Z.rem_bound_pos_neg np ndoms ltac:(lia) ltac:(lia)) as Hr'.
  assert (Hq : np <= Z.quot np ndoms <= 0).
  { assert (0 < ndoms) as Hn0 by lia. assert (np < 0) as Hn1 by lia.
    clear Hnp Hnd. revert Hqr Hr Hr'.
    generalize (Z.quot np ndoms) (Z.rem np ndoms). intros q r ? ? ?.
    assert (q <= 0) by nia. assert (ndoms * q <= q) by nia. lia. }
  rewrite wrap32_id by (unfold in_int32; lia).
  assert (Hb : - 2 ^ 31 <= (0 + Z.of_nat (Z.to_nat ndoms)) * Z.quot np ndoms)
    by (rewrite Z2Nat.id by lia; lia).
  exact (map_loop_neg rank (Z.quot np ndoms) o ltac:(lia) Hrk
           (Z.to_nat ndoms) (Z.rem np ndoms) 0 Hr ltac:(lia) Hb).
Qed.

End PartitionFacts.

Section PartitionClaims.
Import Partition.


Lemma bucket_start_succ total ndoms d :
  0 < ndoms -> 0 <= d ->
  bucket_start total ndoms (d + 1) = bucket_start total ndoms d + bucket_size total ndoms d.
Proof.
  intros Hn Hd. rewrite !bucket_start_st, bucket_size_sz by lia.
  apply st_succ. done.
Qed.

Lemma bucket_start_mono total ndoms d d' :
  0 <= total -> 0 < ndoms -> 0 <= d <= d' ->
  bucket_start total ndoms d <= bucket_start total ndoms d'.
Proof.
  intros Ht Hn Hd. rewrite !bucket_start_st by lia.
  apply st_mono; [|done]. by apply Z.div_pos.
Qed.

(** The cumulative ranges of two different buckets are disjoint. *)
Lemma bucket_range_unique total ndoms index d d' :
  0 <= total -> 0 < ndoms -> 0 <= d -> 0 <= d' ->
  bucket_start total ndoms d <= index < bucket_start total ndoms d + bucket_size total ndoms d ->
  bucket_start total ndoms d' <= index < bucket_start total ndoms d' + bucket_size total ndoms d' ->
  d = d'.
Proof.
  intros Ht Hn Hd Hd' H1 H2.
  rewrite <- bucket_start_succ in H1, H2 by lia.
  destruct (Z.lt_trichotomy d d') as [Hlt|[->|Hgt]]; [|done|].
  - pose proof (bucket_start_mono total ndoms (d + 1) d' Ht Hn ltac:(lia)). lia.
  - pose proof (bucket_start_mono total ndoms (d' + 1) d Ht Hn ltac:(lia)). lia.
Qed.

Lemma dom_sizes_bucket_sizes total ndoms :
  0 <= total < 2 ^ 31 -> 0 < ndoms ->
  dom_sizes total ndoms = bucket_sizes total ndoms.
Proof.
  intros Ht Hn. unfold dom_sizes, bucket_sizes.
  rewrite Z.quot_div_nonneg, Z.rem_mod_nonneg by lia.
  pose proof (Z.div_pos total ndoms ltac:(lia) Hn) as Hq.
  pose proof (Z.mod_pos_bound total ndoms Hn) as Hm.
  pose proof (Z.div_mod total ndoms ltac:(lia)) as Hdm.
  assert (total / ndoms <= ndoms * (total / ndoms)) by nia.
  rewrite wrap32_id by (unfold in_int32; lia).
  apply map_ext. intros i. rewrite bucket_size_sz.
  apply dom_tmp_sz; lia.
Qed.

Lemma zsum_bucket_sizes total ndoms :
  0 < ndoms -> zsum (bucket_sizes total ndoms) = total.
Proof.
  intros Hn. change (zsum (bucket_sizes total ndoms)) with (bucket_start total ndoms ndoms).
  rewrite bucket_start_st by lia.
  pose proof (Z.mod_pos_bound total ndoms Hn).
  pose proof (Z.div_mod total ndoms ltac:(lia)). lia.
Qed.

Lemma bucket_sizes_lookup total ndoms d :
  0 <= d < ndoms ->
  bucket_sizes total ndoms !! Z.to_nat d = Some (bucket_size total ndoms d).
Proof.
  intros Hd. unfold bucket_sizes.
  rewrite list_lookup_fmap, lookup_seq_lt by lia.
  simpl. by rewrite Z2Nat.id by lia.
Qed.

(** C1: for 0 <= index < total and domainCount > 0, [map_to_domains]
    succeeds and returns the bucket [d] whose cumulative range
    [bucket_start d, bucket_start d + bucket_size d) contains [index]
    (there is one such bucket only), that bucket's size, and the
    position [(index - bucket_start d) mod bucket_size d]; bucket
    sizes are [total / domainCount], plus one in the first
    [total mod domainCount] buckets.  For total = 10 and domainCount = 3
    the sizes are [4; 3; 3] and index 9 is position 2 of domain 2. *)
Theorem map_to_domains_partition (index total domainCount : Z) (o : dom_out) :
  0 <= index < total -> 0 < domainCount ->
  total < 2 ^ 31 -> domainCount < 2 ^ 31 ->
  (exists d,
      0 <= d < domainCount /\
      bucket_start total domainCount d <= index
        < bucket_start total domainCount d + bucket_size total domainCount d /\
      (forall d', 0 <= d' ->
         bucket_start total domainCount d' <= index
           < bucket_start total domainCount d' + bucket_size total domainCount d' ->
         d' = d) /\
      map_to_domains index total domainCount o =
        Ok (0, {| mapi := d;
                  np_in_dom := bucket_size total domainCount d;
                  id_in_dom := (index - bucket_start total domainCount d)
                                 mod bucket_size total domainCount d |})) /\
  bucket_sizes 10 3 = [4; 3; 3] /\
  map_to_domains 9 10 3 o = Ok (0, {| mapi := 2; np_in_dom := 3; id_in_dom := 2 |}).
Proof.
  intros Hi Hd Ht Hdc. split; [|split; reflexivity].
  pose proof (map_to_domains_spec index total domainCount o
                ltac:(lia) ltac:(lia) ltac:(lia)) as H.
  destruct (Z.ltb_spec index total); [|lia].
  destruct H as (d & Hd' & Hr & Heq). exists d.
  repeat split; try lia; [|done].
  intros d' Hd0 Hr'.
  apply (bucket_range_unique total domainCount index d' d); try lia; done.
Qed.

Lemma map_to_domains_partition_witness :
  (0 <= 9 < 10 /\ 0 < 3 /\ 10 < 2 ^ 31 /\ 3 < 2 ^ 31) /\
  exists d,
    0 <= d < 3 /\
    map_to_domains 9 10 3 (DomOut 0 0 0) =
      Ok (0, {| mapi := d; np_in_dom := bucket_size 10 3 d;
                id_in_dom := (9 - bucket_start 10 3 d) mod bucket_size 10 3 d |}).
Proof.
  split; [lia|].
  destruct (map_to_domains_partition 9 10 3 (DomOut 0 0 0)
              ltac:(lia) ltac:(lia) ltac:(lia) ltac:(lia))
    as [(d & Hd & _ & _ & Heq) _].
  exists d. split; assumption.
Defined.

Lemma bucket_size_nonneg total ndoms d :
  0 <= total -> 0 < ndoms -> 0 <= bucket_size total ndoms d.
Proof.
  intros Ht Hn. unfold bucket_size.
  pose proof (Z.div_pos total ndoms Ht Hn). destruct (_ <? _); lia.
Qed.

(** What the function stores for a valid index. *)
Lemma returned_bucket total ndoms i :
  0 <= total < 2 ^ 31 -> 0 < ndoms < 2 ^ 31 -> 0 <= i < total ->
  exists d o,
    0 <= d < ndoms /\
    bucket_start total ndoms d <= i
      < bucket_start total ndoms d + bucket_size total ndoms d /\
    returned i total ndoms = Some o /\ mapi o = d /\
    np_in_dom o = bucket_size total ndoms d.
Proof.
  intros Ht Hn Hi.
  pose proof (map_to_domains_spec i total ndoms (DomOut 0 0 0)
                ltac:(lia) ltac:(lia) ltac:(lia)) as H.
  destruct (Z.ltb_spec i total); [|lia].
  destruct H as (d & Hd & Hr & Heq). exists d. eexists.
  split; [done|]. split; [done|]. unfold returned. rewrite Heq. done.
Qed.

(** The size the function returns for a domain is the size of the
    bucket of that domain; a domain it never returns has an empty
    bucket. *)
Lemma returned_size_bucket total ndoms d :
  0 <= total < 2 ^ 31 -> 0 < ndoms < 2 ^ 31 -> 0 <= d < ndoms ->
  returned_size total ndoms d = bucket_size total ndoms d.
Proof.
  intros Ht Hn Hd. unfold returned_size.
  destruct (find _ _) as [i|] eqn:E.
  - apply find_some in E as [Hin Hp]. apply in_seq in Hin.
    destruct (returned_bucket total ndoms (Z.of_nat i) Ht Hn ltac:(lia))
      as (d' & o & _ & _ & Er & Hm & Hs).
    rewrite Er in Hp |- *. apply Z.eqb_eq in Hp. congruence.
  - destruct (Z.eq_dec (bucket_size total ndoms d) 0) as [->|Hne]; [done|]. exfalso.
    pose proof (bucket_size_nonneg total ndoms d ltac:(lia) ltac:(lia)) as Hnn.
    pose proof (bucket_start_mono total ndoms 0 d ltac:(lia) ltac:(lia) ltac:(lia)) as H0.
    change (bucket_start total ndoms 0) with 0 in H0.
    pose proof (bucket_start_mono total ndoms (d + 1) ndoms
                  ltac:(lia) ltac:(lia) ltac:(lia)) as H1.
    rewrite bucket_start_succ in H1 by lia.
    change (bucket_start total ndoms ndoms) with (zsum (bucket_sizes total ndoms)) in H1.
    rewrite zsum_bucket_sizes in H1 by lia.
    pose proof (find_none _ _ E (Z.to_nat (bucket_start total ndoms d))) as Hf.
    cbv beta in Hf. rewrite Z2Nat.id in Hf by lia.
    destruct (returned_bucket total ndoms (bucket_start total ndoms d) Ht Hn ltac:(lia))
      as (d' & o & Hd' & Hr & Er & Hm & _).
    rewrite Er in Hf.
    assert (d' = d) as ->.
    { apply (bucket_range_unique total ndoms (bucket_start total ndoms d)); lia. }
    rewrite Hm, Z.eqb_refl in Hf.
    specialize (Hf ltac:(apply in_seq; lia)). discriminate Hf.
Qed.

(** C2: for total >= 0 and domainCount > 0, the [sizeInDomain] values
    [map_to_domains] returns, taken over all the indices 0 .. total - 1
    and listed by domain (0 for a domain it returns for no index), are
    [base + 1] for the first [remainder] domains and [base] for the
    others, as are the sizes its loop works with; over the
    [domainCount] domains they add up to [total]; two of them differ
    by at most 1; and the [sizeInDomain] returned for an index is the
    entry of the domain returned with it. *)
Theorem map_to_domains_balanced (total domainCount : Z) :
  0 <= total < 2 ^ 31 -> 0 < domainCount < 2 ^ 31 ->
  returned_sizes total domainCount = bucket_sizes total domainCount /\
  dom_sizes total domainCount = returned_sizes total domainCount /\
  length (returned_sizes total domainCount) = Z.to_nat domainCount /\
  zsum (returned_sizes total domainCount) = total /\
  (forall s1 s2, In s1 (returned_sizes total domainCount) ->
                 In s2 (returned_sizes total domainCount) -> Z.abs (s1 - s2) <= 1) /\
  (forall index o, 0 <= index < total ->
     exists o', map_to_domains index total domainCount o = Ok (0, o') /\
                returned_sizes total domainCount !! Z.to_nat (mapi o')
                  = Some (np_in_dom o')).
Proof.
  intros Ht Hd.
  assert (E : returned_sizes total domainCount = bucket_sizes total domainCount).
  { unfold returned_sizes, bucket_sizes. apply map_ext_in. intros d Hin.
    apply in_seq in Hin. apply returned_size_bucket; lia. }
  rewrite E, dom_sizes_bucket_sizes by lia.
  split; [done|]. split; [done|]. split.
  { unfold bucket_sizes. by rewrite length_map, length_seq. }
  split; [apply zsum_bucket_sizes; lia|]. split.
  - intros s1 s2 H1 H2. unfold bucket_sizes in *.
    apply in_map_iff in H1 as (d1 & <- & _).
    apply in_map_iff in H2 as (d2 & <- & _).
    unfold bucket_size.
    destruct (_ <? _); destruct (_ <? _); lia.
  - intros index o Hi.
    pose proof (map_to_domains_spec index total domainCount o
                  ltac:(lia) ltac:(lia) ltac:(lia)) as H.
    destruct (Z.ltb_spec index total); [|lia].
    destruct H as (d & Hd' & Hr & Heq).
    eexists. split; [exact Heq|]. simpl.
    by apply bucket_sizes_lookup.
Qed.

Lemma map_to_domains_balanced_witness :
  (0 <= 10 < 2 ^ 31 /\ 0 < 3 < 2 ^ 31) /\
  returned_sizes 10 3 = [4; 3; 3] /\ zsum (returned_sizes 10 3) = 10.
Proof.
  split; [lia|].
  destruct (map_to_domains_balanced 10 3 ltac:(lia) ltac:(lia))
    as (H1 & _ & _ & H2 & _).
  split; [rewrite H1; reflexivity|exact H2].
Defined.

(** C8: for domainCount > 0 and index >= 0, [map_to_domains] returns;
    its return value is not zero exactly when index >= total, and then
    the output parameters are as they were; for 0 <= index < total it
    returns 0 and the position it stores is at least 0 and less than
    the size it stores.  (The function is a function: one triple per
    index.) *)
Theorem map_to_domains_error_iff (index total domainCount : Z) (o : dom_out) :
  0 <= index < 2 ^ 31 -> - 2 ^ 31 <= total < 2 ^ 31 -> 0 < domainCount < 2 ^ 31 ->
  exists rc o',
    map_to_domains index total domainCount o = Ok (rc, o') /\
    (rc <> 0 <-> total <= index) /\
    (rc <> 0 -> o' = o) /\
    (index < total -> rc = 0 /\ 0 <= id_in_dom o' < np_in_dom o').
Proof.
  intros Hi Ht Hd.
  destruct (Z.lt_ge_cases total 0) as [Hneg|Hpos].
  - exists 1, o. rewrite map_to_domains_neg by lia.
    repeat split; try lia; done.
  - pose proof (map_to_domains_spec index total domainCount o
                  ltac:(lia) ltac:(lia) ltac:(lia)) as H.
    destruct (Z.ltb_spec index total).
    + destruct H as (d & Hd' & Hr & Heq).
      eexists 0, _. split; [exact Heq|]. simpl.
      repeat split; try lia; try done.
      all: apply Z.mod_pos_bound; lia.
    + exists 1, o. repeat split; try lia; done.
Qed.

Lemma map_to_domains_error_iff_witness :
  (0 <= 10 < 2 ^ 31 /\ - 2 ^ 31 <= 10 < 2 ^ 31 /\ 0 < 3 < 2 ^ 31) /\
  exists rc o',
    map_to_domains 10 10 3 (DomOut 7 7 7) = Ok (rc, o') /\
    (rc <> 0 <-> 10 <= 10).
Proof.
  split; [lia|].
  destruct (map_to_domains_error_iff 10 10 3 (DomOut 7 7 7)
              ltac:(lia) ltac:(lia) ltac:(lia))
    as (rc & o' & Heq & Hrc & _).
  exists rc, o'. split; assumption.
Defined.

End PartitionClaims.

(** ** Bitmaps *)

Section BitmapFacts.
Import Hwloc.

Lemma Pweight_pos p : 1 <= Pweight p.
Proof. induction p; cbn [Pweight]; lia. Qed.

Lemma Pfirst_nonneg p : 0 <= Pfirst p.
Proof. induction p; cbn [Pfirst]; lia. Qed.

Lemma weight_double b : 0 <= b -> hwloc_bitmap_weight (Z.double b) = hwloc_bitmap_weight b.
Proof. destruct b; [done|done|lia]. Qed.

Lemma weight_succ_double b :
  0 <= b -> hwloc_bitmap_weight (Z.succ_double b) = 1 + hwloc_bitmap_weight b.
Proof. destruct b; [done|done|lia]. Qed.

Lemma members_from_double i b :
  members_from i (Z.double b) = members_from (i + 1) b.
Proof. by destruct b. Qed.

Lemma members_from_succ_double i b :
  0 <= b -> members_from i (Z.succ_double b) = i :: members_from (i + 1) b.
Proof. destruct b; [done|done|lia]. Qed.

Lemma length_Pmembers i p : Z.of_nat (length (Pmembers i p)) = Pweight p.
Proof.
  revert i. induction p as [q IH|q IH|]; intros i; cbn [Pmembers Pweight length].
  - rewrite Nat2Z.inj_succ, IH. lia.
  - apply IH.
  - done.
Qed.

(** The list of members has as many entries as the bitmap has indices. *)
Lemma length_members b : 0 <= b -> Z.of_nat (length (members b)) = hwloc_bitmap_weight b.
Proof. destruct b; [done| |lia]. intros _. apply length_Pmembers. Qed.

Lemma Pmembers_spec p : forall i j,
  0 <= i -> (j ∈ Pmembers i p <-> i <= j /\ Z.testbit (Zpos p) (j - i) = true).
Proof.
  induction p as [q IH|q IH|]; intros i j Hi; cbn [Pmembers].
  - rewrite elem_of_cons, IH by lia. rewrite Pos2Z.inj_xI.
    destruct (Z.eq_dec j i) as [->|Hne].
    + rewrite Z.sub_diag, Z.testbit_odd_0. intuition lia.
    + replace (j - i) with (Z.succ (j - (i + 1))) by lia.
      split.
      * intros [?|[? ?]]; [lia|]. rewrite Z.testbit_odd_succ by lia. split; [lia|done].
      * intros [? H]. right. rewrite Z.testbit_odd_succ in H by lia. split; [lia|done].
  - rewrite IH by lia. rewrite Pos2Z.inj_xO.
    destruct (Z.eq_dec j i) as [->|Hne].
    + rewrite Z.sub_diag, Z.testbit_even_0. intuition lia.
    + replace (j - i) with (Z.succ (j - (i + 1))) by lia.
      split.
      * intros [? ?]. rewrite Z.testbit_even_succ by lia. split; [lia|done].
      * intros [? H]. rewrite Z.testbit_even_succ in H by lia. split; [lia|done].
  - rewrite list_elem_of_singleton. split.
    + intros ->. rewrite Z.sub_diag. split; [lia|done].
    + intros [? H]. destruct (Z.eq_dec j i) as [->|Hne]; [done|].
      replace (j - i) with (Z.succ (j - i - 1)) in H by lia.
      change 1 with (2 * 0 + 1) in H.
      rewrite Z.testbit_odd_succ, Z.testbit_0_l in H by lia. done.
Qed.

(** The members of a finite bitmap are the indices that are set in it. *)
Lemma members_spec b j : 0 <= b -> (j ∈ members b <-> hwloc_bitmap_isset b j = true).
Proof.
  intros Hb. unfold members, hwloc_bitmap_isset. destruct b as [|p|p]; [| |lia].
  - rewrite Z.testbit_0_l. cbn. split; [by intros ?%elem_of_nil|done].
  - cbn [members_from]. rewrite Pmembers_spec by lia. rewrite Z.sub_0_r.
    split; [by intros [_ ?]|]. intros H. split; [|done].
    destruct (Z.neg_nonneg_cases j) as [Hn|]; [|done].
    by rewrite Z.testbit_neg_r in H.
Qed.

Lemma Pmembers_lower p : forall i j, j ∈ Pmembers i p -> i <= j.
Proof.
  induction p as [q IH|q IH|]; intros i j; cbn [Pmembers].
  - intros [->|H%IH]%elem_of_cons; lia.
  - intros H%IH. lia.
  - intros ->%list_elem_of_singleton. lia.
Qed.

(** They are listed in ascending order. *)
Lemma Pmembers_sorted p : forall i, StronglySorted Z.lt (Pmembers i p).
Proof.
  induction p as [q IH|q IH|]; intros i; cbn [Pmembers].
  - constructor; [apply IH|]. apply Forall_forall. intros j Hj.
    apply Pmembers_lower in Hj. lia.
  - apply IH.
  - repeat constructor.
Qed.

Lemma members_sorted b : StronglySorted Z.lt (members b).
Proof. destruct b; try constructor. apply Pmembers_sorted. Qed.

Lemma Pmembers_head p i : head (Pmembers i p) = Some (i + Pfirst p).
Proof.
  revert i. induction p as [q IH|q IH|]; intros i; cbn [Pmembers Pfirst head].
  - f_equal. lia.
  - rewrite IH. f_equal. lia.
  - f_equal. lia.
Qed.

Lemma members_from_pow2 (k : nat) : forall i,
  members_from i (2 ^ Z.of_nat k) = [i + Z.of_nat k].
Proof.
  induction k as [|k IH]; intros i.
  - change (members_from i (2 ^ Z.of_nat 0)) with [i]. f_equal. lia.
  - rewrite Nat2Z.inj_succ, Z.pow_succ_r, <- Z.double_spec by lia.
    rewrite members_from_double, IH. f_equal. lia.
Qed.

Lemma weight_pow2 (k : nat) : hwloc_bitmap_weight (2 ^ Z.of_nat k) = 1.
Proof.
  induction k as [|k IH]; [done|].
  rewrite Nat2Z.inj_succ, Z.pow_succ_r, <- Z.double_spec by lia.
  rewrite weight_double; [done|]. apply Z.pow_nonneg. lia.
Qed.

Lemma clearbit_set c i :
  0 <= i -> Z.testbit c i = true -> Z.clearbit c i = c - 2 ^ i.
Proof.
  intros Hi Hc. rewrite Z.clearbit_spec'. symmetry.
  apply Z.sub_nocarry_ldiff. apply Z.bits_inj'. intros m Hm.
  rewrite Z.ldiff_spec, Z.bits_0, Z.pow2_bits_eqb by done.
  destruct (Z.eqb_spec i m) as [->|]; [by rewrite Hc|done].
Qed.

Lemma shiftr_split lo i h :
  0 <= i -> 0 <= lo < 2 ^ i -> Z.shiftr (lo + 2 ^ i * h) i = h.
Proof.
  intros Hi Hlo. rewrite Z.shiftr_div_pow2 by done.
  rewrite Z.mul_comm, Z.div_add by lia.
  rewrite Z.div_small by done. lia.
Qed.

Lemma testbit_split_odd lo i h :
  0 <= i -> 0 <= lo < 2 ^ i -> Z.testbit (lo + 2 ^ i * (2 * h + 1)) i = true.
Proof.
  intros Hi Hlo. apply Z.testbit_true; [done|].
  rewrite <- Z.shiftr_div_pow2, shiftr_split by done.
  rewrite Z.add_comm, Z.mul_comm, Z.mod_add by lia. done.
Qed.

End BitmapFacts.

(** ** Reduction of the raw unit-set *)

Section ReduceFacts.
Import Hwloc Reduce.

Lemma Pkeep_nonneg p : forall t, 0 <= Pkeep t p.
Proof.
  induction p as [q IH|q IH|]; intros t; cbn [Pkeep].
  - destruct (t =? 0); [rewrite Z.double_spec|rewrite Z.succ_double_spec].
    + specialize (IH t). lia.
    + specialize (IH (t - 1)). lia.
  - rewrite Z.double_spec. specialize (IH t). lia.
  - destruct (t =? 0); lia.
Qed.

Lemma weight_Pkeep p : forall t,
  0 <= t -> hwloc_bitmap_weight (Pkeep t p) = Z.min t (Pweight p).
Proof.
  induction p as [q IH|q IH|]; intros t Ht; cbn [Pkeep Pweight].
  - pose proof (Pweight_pos q).
    destruct (Z.eqb_spec t 0) as [->|Hne].
    + rewrite weight_double by apply Pkeep_nonneg. rewrite IH by lia. lia.
    + rewrite weight_succ_double by apply Pkeep_nonneg. rewrite IH by lia. lia.
  - rewrite weight_double by apply Pkeep_nonneg. by apply IH.
  - destruct (Z.eqb_spec t 0) as [->|Hne]; cbn; lia.
Qed.

Lemma members_Pkeep p : forall t i,
  0 <= t -> members_from i (Pkeep t p) = take (Z.to_nat t) (Pmembers i p).
Proof.
  induction p as [q IH|q IH|]; intros t i Ht; cbn [Pkeep Pmembers].
  - destruct (Z.eqb_spec t 0) as [->|Hne].
    + rewrite members_from_double, IH by lia. done.
    + rewrite members_from_succ_double by apply Pkeep_nonneg.
      rewrite IH by lia.
      replace (Z.to_nat t) with (S (Z.to_nat (t - 1))) by lia. done.
  - rewrite members_from_double. by apply IH.
  - destruct (Z.eqb_spec t 0) as [->|Hne]; [done|].
    replace (Z.to_nat t) with (S (Z.to_nat (t - 1))) by lia.
    cbn. by rewrite take_nil.
Qed.

Lemma Pkeep_all p : forall t, Pweight p <= t -> Pkeep t p = Zpos p.
Proof.
  induction p as [q IH|q IH|]; intros t Ht; cbn [Pkeep Pweight] in *.
  - pose proof (Pweight_pos q).
    destruct (Z.eqb_spec t 0); [lia|]. rewrite IH by lia. done.
  - rewrite IH by lia. done.
  - destruct (Z.eqb_spec t 0); [lia|done].
Qed.

(** The loop, entered at the first index of the part [p] of the bitmap
    that lies at and above position [i]; the part [lo] below [i] has
    been dealt with. *)
Lemma decimate_loop_spec p : forall lo i t fuel,
  0 <= i -> 0 <= lo < 2 ^ i -> 0 <= t -> Pweight p <= Z.of_nat fuel ->
  decimate_loop fuel (lo + 2 ^ i * Zpos p) (i + Pfirst p) t =
    Ok (lo + 2 ^ i * Pkeep t p).
Proof.
  induction p as [q IH|q IH|]; intros lo i t fuel Hi Hlo Ht Hf.
  - (* bit [i] is set and others follow *)
    cbn [Pweight Pfirst Pkeep] in *. pose proof (Pweight_pos q).
    destruct fuel as [|fuel]; [lia|]. rewrite Nat2Z.inj_succ in Hf.
    rewrite Z.add_0_r. change (Z.pos q~1) with (2 * Z.pos q + 1).
    cbn [decimate_loop].
    assert (Hpow : 2 ^ (i + 1) = 2 * 2 ^ i) by (rewrite Z.pow_add_r; lia).
    destruct (Z.eqb_spec t 0) as [->|Hne].
    + unfold hwloc_bitmap_clr.
      rewrite clearbit_set by (try apply testbit_split_odd; done).
      replace (lo + 2 ^ i * (2 * Z.pos q + 1) - 2 ^ i)
        with (lo + 2 ^ (i + 1) * Z.pos q) by lia.
      unfold hwloc_bitmap_next. rewrite shiftr_split by lia.
      cbn [Z.eqb hwloc_bitmap_first]. pose proof (Pfirst_nonneg q).
      destruct (Z.ltb_spec 0 (i + 1 + Pfirst q)); [|lia].
      rewrite IH by lia. f_equal. rewrite Z.double_spec. lia.
    + unfold hwloc_bitmap_next.
      replace (lo + 2 ^ i * (2 * Z.pos q + 1))
        with ((lo + 2 ^ i) + 2 ^ (i + 1) * Z.pos q) by lia.
      rewrite shiftr_split by lia.
      cbn [Z.eqb hwloc_bitmap_first]. pose proof (Pfirst_nonneg q).
      destruct (Z.ltb_spec 0 (i + 1 + Pfirst q)); [|lia].
      rewrite IH by lia. f_equal. rewrite Z.succ_double_spec. lia.
  - (* bit [i] is not set: the loop is entered further up *)
    cbn [Pweight Pfirst Pkeep] in *.
    assert (Hpow : 2 ^ (i + 1) = 2 * 2 ^ i) by (rewrite Z.pow_add_r; lia).
    change (Z.pos q~0) with (2 * Z.pos q).
    replace (lo + 2 ^ i * (2 * Z.pos q)) with (lo + 2 ^ (i + 1) * Z.pos q) by lia.
    replace (i + (1 + Pfirst q)) with (i + 1 + Pfirst q) by lia.
    rewrite IH by lia. f_equal. rewrite Z.double_spec. lia.
  - (* bit [i] is the last one *)
    cbn [Pweight Pfirst Pkeep] in *.
    destruct fuel as [|fuel]; [lia|].
    rewrite Z.add_0_r. cbn [decimate_loop].
    assert (Hpow : 2 ^ (i + 1) = 2 * 2 ^ i) by (rewrite Z.pow_add_r; lia).
    destruct (Z.eqb_spec t 0) as [->|Hne].
    + unfold hwloc_bitmap_clr.
      rewrite clearbit_set; [|done|].
      2:{ replace (2 ^ i * 1) with (2 ^ i * (2 * 0 + 1)) by lia.
          by apply testbit_split_odd. }
      unfold hwloc_bitmap_next.
      replace (lo + 2 ^ i * 1 - 2 ^ i) with (lo + 2 ^ (i + 1) * 0) by lia.
      rewrite shiftr_split by lia. cbn. f_equal. lia.
    + unfold hwloc_bitmap_next.
      replace (lo + 2 ^ i * 1) with ((lo + 2 ^ i) + 2 ^ (i + 1) * 0) by lia.
      rewrite shiftr_split by lia. reflexivity.
Qed.

(** [decimate_cpuset] returns, and leaves the first [num_threads]
    indices of a finite, non-empty bitmap. *)
Lemma decimate_cpuset_spec num_threads p :
  0 <= num_threads < 2 ^ 32 -> Pweight p < 2 ^ 31 ->
  decimate_cpuset num_threads (Zpos p) = Ok (Pkeep num_threads p).
Proof.
  intros Ht Hw. unfold decimate_cpuset. cbn [hwloc_bitmap_weight hwloc_bitmap_first].
  pose proof (Pweight_pos p).
  rewrite wrap32_id by (unfold in_int32; lia).
  rewrite wrapu32_id by (unfold in_uint32; lia).
  destruct (Z.leb_spec (Pweight p) num_threads).
  - by rewrite Pkeep_all.
  - pose proof (decimate_loop_spec p 0 0 num_threads (Z.to_nat (Pweight p))
                  ltac:(lia) ltac:(lia) ltac:(lia) ltac:(lia)) as H1.
    rewrite Z.pow_0_r, !Z.add_0_l, !Z.mul_1_l in H1. exact H1.
Qed.

Lemma singlify_spec p :
  hwloc_bitmap_singlify (Zpos p) = 2 ^ Pfirst p.
Proof.
  unfold hwloc_bitmap_singlify. cbn [hwloc_bitmap_first].
  pose proof (Pfirst_nonneg p).
  destruct (Z.ltb_spec (Pfirst p) 0); [lia|].
  rewrite Z.shiftl_mul_pow2 by done. lia.
Qed.

(** C5: for a non-empty (finite) raw unit-set and threadsPerTask >= 1,
    the reduction step returns a unit-set that holds 1 unit when
    threadsPerTask = 1 and [min threadsPerTask rawCardinality] units
    otherwise; in both cases its members are the first threadsPerTask
    members of the raw unit-set in ascending order, every other unit
    being cleared. *)
Theorem reduce_cpuset_cardinality (num_threads : Z) (cpuset : Hwloc.hwloc_bitmap_t) :
  0 < cpuset -> 1 <= num_threads < 2 ^ 32 ->
  hwloc_bitmap_weight cpuset < 2 ^ 31 ->
  exists final,
    reduce_cpuset num_threads cpuset = Ok final /\
    0 <= final /\
    hwloc_bitmap_weight final =
      (if num_threads =? 1 then 1
       else Z.min num_threads (hwloc_bitmap_weight cpuset)) /\
    members final = take (Z.to_nat num_threads) (members cpuset).
Proof.
  intros Hc Ht Hw. destruct cpuset as [|p|p]; [lia| |lia].
  cbn [hwloc_bitmap_weight] in Hw. unfold reduce_cpuset.
  destruct (Z.eqb_spec num_threads 1) as [->|Hne].
  - exists (2 ^ Pfirst p). rewrite singlify_spec.
    pose proof (Pfirst_nonneg p) as Hf.
    split; [done|]. split; [apply Z.pow_nonneg; lia|].
    rewrite <- (Z2Nat.id (Pfirst p)) by done. split; [apply weight_pow2|].
    unfold members. rewrite members_from_pow2. cbn [members_from].
    pose proof (Pmembers_head p 0) as Hh.
    destruct (Pmembers 0 p) as [|x l]; [done|].
    cbn in Hh. injection Hh as ->. cbn. rewrite Z2Nat.id by done. done.
  - exists (Pkeep num_threads p). rewrite decimate_cpuset_spec by (done || lia).
    split; [done|]. split; [apply Pkeep_nonneg|].
    split; [apply weight_Pkeep; lia|].
    unfold members. rewrite members_Pkeep by lia. done.
Qed.

Lemma reduce_cpuset_cardinality_witness :
  (0 < 182 /\ 1 <= 3 < 2 ^ 32 /\ hwloc_bitmap_weight 182 < 2 ^ 31) /\
  exists final,
    reduce_cpuset 3 182 = Ok final /\
    hwloc_bitmap_weight final = 3 /\
    members final = [1; 2; 4].
Proof.
  split; [repeat split; (lia || reflexivity)|].
  destruct (reduce_cpuset_cardinality 3 182 ltac:(lia) ltac:(lia) ltac:(reflexivity))
    as (final & H1 & _ & H2 & H3).
  exists final. repeat split; assumption.
Defined.

End ReduceFacts.

(** ** The raw unit-set *)

Section SliceFacts.
Import Hwloc Slice.

Lemma int32_of_float_range x v : int32_of_float x = Ok v -> in_int32 v.
Proof.
  unfold int32_of_float, in_int32. destruct x as [s| | |s m e]; try done.
  - intros [= <-]. lia.
  - cbv zeta. destruct (_ && _) eqn:E; [|done]. intros [= <-]. lia.
Qed.

Lemma or_loop_spec cpusets : forall n i acc,
  0 <= i -> i + Z.of_nat n <= Z.of_nat (length cpusets) ->
  or_loop n cpusets i acc =
    Ok (fold_left Z.lor (take n (drop (Z.to_nat i) cpusets)) acc).
Proof.
  induction n as [|n IH]; intros i acc Hi Hlen; [done|].
  cbn [or_loop]. unfold zget.
  destruct (Z.ltb_spec i 0); [lia|].
  destruct (cpusets !! Z.to_nat i) as [c|] eqn:E.
  2:{ apply lookup_ge_None in E. lia. }
  cbn. rewrite IH by lia.
  rewrite (drop_S _ _ _ E). cbn [take fold_left].
  replace (Z.to_nat (i + 1)) with (S (Z.to_nat i)) by lia. done.
Qed.

Lemma testbit_fold_lor l : forall acc u,
  Z.testbit (fold_left Z.lor l acc) u = true <->
  Z.testbit acc u = true \/ exists e, e ∈ l /\ Z.testbit e u = true.
Proof.
  induction l as [|x l IH]; intros acc u; cbn [fold_left].
  - split; [by left|]. intros [?|(e & []%elem_of_nil & _)]. done.
  - rewrite IH, Z.lor_spec, orb_true_iff. split.
    + intros [[?|?]|(e & He & Hu)]; [by left| |].
      * right. exists x. split; [left|done].
      * right. exists e. split; [by right|done].
    + intros [?|(e & He & Hu)]; [by left; left|].
      apply elem_of_cons in He as [->|He]; [by left; right|].
      right. by exists e.
Qed.

Lemma elem_of_slice {A} (l : list A) (i n : nat) (e : A) :
  e ∈ take n (drop i l) <-> exists k, (i <= k < i + n)%nat /\ l !! k = Some e.
Proof.
  rewrite list_elem_of_lookup. split.
  - intros (j & Hj). apply lookup_take_Some in Hj as [Hj Hlt].
    rewrite lookup_drop in Hj. exists (i + j)%nat. split; [lia|done].
  - intros (k & Hk & He). exists (k - i)%nat.
    apply lookup_take_Some. split; [|lia].
    rewrite lookup_drop. by replace (i + (k - i))%nat with k by lia.
Qed.

(** For small pools and task counts the single-precision slice is the
    one of integer arithmetic, and lies within the pool. *)
Lemma slices_exact_21 : slices_exact_upto 21 = true.
Proof. vm_compute. reflexivity. Qed.

Lemma slice_small_exact level_size local_size local_rank :
  1 <= level_size <= 21 -> 1 <= local_size <= 21 ->
  0 <= local_rank < local_size ->
  slice_index level_size local_size local_rank =
    Ok (exact_index level_size local_size local_rank) /\
  slice_count level_size local_size = Ok (exact_count level_size local_size) /\
  exact_index level_size local_size local_rank + exact_count level_size local_size
    <= level_size.
Proof.
  intros HL HS Hr. pose proof slices_exact_21 as H.
  unfold slices_exact_upto in H. rewrite forallb_forall in H.
  specialize (H (Z.to_nat level_size)). rewrite in_seq in H.
  specialize (H ltac:(lia)). rewrite forallb_forall in H.
  specialize (H (Z.to_nat local_size)). rewrite in_seq in H.
  specialize (H ltac:(lia)). rewrite !Z2Nat.id in H by lia.
  unfold slice_exact in H. rewrite forallb_forall in H.
  specialize (H (Z.to_nat local_rank)). rewrite in_seq in H.
  specialize (H ltac:(lia)). rewrite Z2Nat.id in H by lia.
  destruct (slice_index level_size local_size local_rank) as [i| |]; try done.
  destruct (slice_count level_size local_size) as [n| |]; try done.
  apply andb_true_iff in H as [H H3]. apply andb_true_iff in H as [H1 H2].
  apply Z.eqb_eq in H1, H2. apply Z.leb_le in H3. subst. done.
Qed.

(** Beyond that the rounding of the single-precision operations shows:
    task 11 of 22 on a pool of 26 starts at entry 12, not at entry
    [floor (11 * 26 / 22) = 13]. *)
Lemma slice_rounding_26_22 :
  slice_index 26 22 11 = Ok 12 /\ exact_index 26 22 11 = 13.
Proof. split; vm_compute; reflexivity. Qed.

End SliceFacts.

Section SliceClaims.
Import Hwloc Slice Scenario.

(** C4 (as the code has it): with [share] the single-precision quotient
    levelSize / localTaskCount, [startIndex] the integer part of the
    single-precision product localRank * share (share not yet clamped)
    and [count] the integer part of share clamped up to 1.0, the raw
    unit-set of a task whose slice [startIndex, startIndex + count)
    lies within the pool is the union of the pool entries of that
    slice: [count] is the floor of the share, not its ceiling, and
    nothing is clipped.  With levelSize = 8 and localTaskCount = 4 the
    share is 2.0, task 0 gets units 0 and 1, task 3 units 6 and 7. *)
Theorem raw_cpuset_slice (cpusets : list Hwloc.hwloc_bitmap_t)
    (level_size local_size local_rank index count : Z) :
  slice_index level_size local_size local_rank = Ok index ->
  slice_count level_size local_size = Ok count ->
  0 <= index -> index + count <= Z.of_nat (length cpusets) ->
  Z.of_nat (length cpusets) < 2 ^ 31 ->
  (exists raw,
      raw_cpuset cpusets level_size local_size local_rank = Ok raw /\
      raw = fold_left Z.lor
              (take (Z.to_nat count) (drop (Z.to_nat index) cpusets)) 0 /\
      forall u, hwloc_bitmap_isset raw u = true <->
                exists i e, index <= i < index + count /\
                            cpusets !! Z.to_nat i = Some e /\
                            hwloc_bitmap_isset e u = true) /\
  pus_per_task 8 4 = float_of_uint32 2 /\
  raw_cpuset units8 8 4 0 = Ok 3 /\ members 3 = [0; 1] /\
  raw_cpuset units8 8 4 3 = Ok 192 /\ members 192 = [6; 7].
Proof.
  intros Hi Hc Hi0 Hlen Hmax.
  split; [|repeat split; vm_compute; reflexivity].
  pose proof (int32_of_float_range _ _ Hc) as Hcr. unfold in_int32 in Hcr.
  unfold raw_cpuset. rewrite Hi, Hc. cbn.
  rewrite wrap32_id by (unfold in_int32; lia).
  replace (index + count - index) with count by lia.
  eexists. split; [|split; [reflexivity|]].
  - destruct (Z.lt_ge_cases count 0).
    + by replace (Z.to_nat count) with 0%nat by lia.
    + apply or_loop_spec; lia.
  - intros u. unfold hwloc_bitmap_isset, hwloc_bitmap_alloc.
    rewrite testbit_fold_lor, Z.testbit_0_l. split.
    + intros [?|(e & He & Hu)]; [done|].
      apply elem_of_slice in He as (k & Hk & He).
      exists (Z.of_nat k), e. rewrite Nat2Z.id. split; [lia|done].
    + intros (i & e & Hr & He & Hu). right. exists e. split; [|done].
      apply elem_of_slice. exists (Z.to_nat i). split; [lia|done].
Qed.

Lemma raw_cpuset_slice_witness :
  (slice_index 3 2 1 = Ok 1 /\ slice_count 3 2 = Ok 1 /\ 0 <= 1 /\
   1 + 1 <= Z.of_nat (length [1; 2; 4]) /\ Z.of_nat (length [1; 2; 4]) < 2 ^ 31) /\
  exists raw, raw_cpuset [1; 2; 4] 3 2 1 = Ok raw /\ raw = 2.
Proof.
  split; [repeat split; vm_compute; (reflexivity || discriminate)|].
  destruct (raw_cpuset_slice [1; 2; 4] 3 2 1 1 1
              ltac:(vm_compute; reflexivity) ltac:(vm_compute; reflexivity)
              ltac:(lia) ltac:(vm_compute; discriminate)
              ltac:(vm_compute; reflexivity))
    as [(raw & H1 & H2 & _) _].
  exists raw. split; [exact H1|]. rewrite H2. reflexivity.
Defined.

(** C4 as worded fails for a pool of three units shared by two
    tasks: the share is 1.5, the specification gives task 0 the entries
    0 and 1 (ceiling 2), the code gives it entry 0 alone. *)
Lemma raw_cpuset_not_ceiling :
  spec_raw_cpuset [1; 2; 4] 3 2 0 = 3 /\
  raw_cpuset [1; 2; 4] 3 2 0 = Ok 1 /\
  raw_cpuset [1; 2; 4] 3 2 0 <> Ok (spec_raw_cpuset [1; 2; 4] 3 2 0).
Proof. repeat split; vm_compute; (reflexivity || discriminate). Qed.

End SliceClaims.

(** ** Arrays *)

Section ArrayFacts.
Context {A : Type}.
Implicit Types (l : list A) (i : Z).

Lemma zget_Ok l i a : 0 <= i -> l !! Z.to_nat i = Some a -> zget l i = Ok a.
Proof.
  intros Hi Hl. unfold zget. destruct (Z.ltb_spec i 0); [lia|]. by rewrite Hl.
Qed.

Lemma zget_inv l i a : zget l i = Ok a -> 0 <= i /\ l !! Z.to_nat i = Some a.
Proof.
  unfold zget. destruct (Z.ltb_spec i 0); [done|].
  destruct (l !! Z.to_nat i); [|done]. by intros [= ->].
Qed.

Lemma zget_lt l i : 0 <= i < Z.of_nat (length l) -> exists a, zget l i = Ok a.
Proof.
  intros Hi. destruct (lookup_lt_is_Some_2 l (Z.to_nat i) ltac:(lia)) as [a Ha].
  exists a. apply zget_Ok; [lia|done].
Qed.

Lemma zset_Ok l i a :
  0 <= i < Z.of_nat (length l) -> zset l i a = Ok (<[Z.to_nat i := a]> l).
Proof.
  intros Hi. unfold zset.
  destruct (Z.leb_spec 0 i); [|lia]. destruct (Z.ltb_spec i (Z.of_nat (length l))); [done|lia].
Qed.

Lemma zset_inv l i a l' :
  zset l i a = Ok l' -> 0 <= i < Z.of_nat (length l) /\ l' = <[Z.to_nat i := a]> l.
Proof.
  unfold zset. destruct (Z.leb_spec 0 i); [|done].
  destruct (Z.ltb_spec i (Z.of_nat (length l))); [|done].
  intros [= <-]. split; [lia|done].
Qed.

End ArrayFacts.

(** One step through a sequence of calls whose first one has returned. *)
Ltac osimpl := unfold mbind, outcome_bind; cbv beta iota.

Lemma obind_inv {A B} (m : outcome A) (k : A -> outcome B) b :
  (m ≫= k) = Ok b -> exists a, m = Ok a /\ k a = Ok b.
Proof. destruct m as [a| |]; [|done|done]. intros H. by exists a. Qed.

(** ** Device ownership *)

Section GpuOwnership.
Import Topology Gpu GpuInv.

Lemma set2_Ok (m : list (list Z)) i j v row :
  0 <= i -> m !! Z.to_nat i = Some row -> 0 <= j < Z.of_nat (length row) ->
  set2 m i j v = Ok (<[Z.to_nat i := <[Z.to_nat j := v]> row]> m).
Proof.
  intros Hi Hrow Hj. unfold set2.
  rewrite (zget_Ok _ _ _ Hi Hrow). cbn.
  rewrite zset_Ok by done. cbn.
  apply zset_Ok. split; [done|].
  apply lookup_lt_Some in Hrow. lia.
Qed.

Lemma count_gpus_cons obj devs :
  count_gpus (obj :: devs) =
    (if is_render_gpu obj then 1 else 0) + count_gpus devs.
Proof.
  unfold count_gpus. cbn [List.filter]. destruct (is_render_gpu obj); cbn [length]; lia.
Qed.

Lemma count_gpus_nonneg devs : 0 <= count_gpus devs.
Proof. unfold count_gpus. lia. Qed.


Lemma alloc_tables_wf gpus numas :
  0 <= gpus -> tables_wf numas gpus 0 (alloc_tables gpus numas).
Proof.
  intros Hg. unfold alloc_tables. split; cbn.
  1-4: by rewrite length_replicate.
  1-2: apply Forall_replicate; by rewrite length_replicate.
  1-2: by apply Forall_replicate.
Qed.

(** Direct ownership succeeds on well-formed inputs; [c] devices have
    been entered before, [count_gpus devs] are entered now. *)
Lemma assign_gpus_spec numas cap numagroup :
  numagroup_ok numas numagroup -> cap < 2 ^ 31 ->
  forall devs c t,
    devs_ok numas devs -> tables_wf numas cap c t ->
    0 <= c -> c + count_gpus devs <= cap ->
    exists t',
      assign_gpus devs numagroup c t = Ok (c + count_gpus devs, t') /\
      tables_wf numas cap (c + count_gpus devs) t' /\
      (some_numa_has_gpu t \/ 1 <= count_gpus devs -> some_numa_has_gpu t').
Proof.
  intros [Hgl Hgr] Hcap. induction devs as [|obj devs IH]; intros c t Hd Hwf Hc Hle.
  - exists t. unfold count_gpus. cbn. rewrite Z.add_0_r.
    split; [done|]. split; [done|]. intros [?|?]; [done|lia].
  - rewrite count_gpus_cons in *. apply Forall_cons in Hd as [Hobj Hd].
    pose proof (count_gpus_nonneg devs) as Hnn.
    cbn [assign_gpus]. destruct (is_render_gpu obj) eqn:Hr.
    2:{ rewrite Z.add_0_l. destruct (IH c t Hd Hwf Hc ltac:(lia)) as (t' & H1 & H2 & H3).
        exists t'. split; [done|]. split; [done|].
        intros [?|?]; apply H3; [by left|right; lia]. }
    destruct (Hobj eq_refl) as (anc & -> & Ha).
    destruct Hwf as [L1 L2 L3 L4 R1 R2 C1 C2].
    (* the cells that are read *)
    destruct (lookup_lt_is_Some_2 (gpus_per_numa t) (Z.to_nat (os_index anc)) ltac:(lia)) as [n Hn].
    destruct (lookup_lt_is_Some_2 (gpus_in_numa t) (Z.to_nat (os_index anc)) ltac:(lia)) as [row Hrow].
    destruct (lookup_lt_is_Some_2 numagroup (Z.to_nat (os_index anc)) ltac:(lia)) as [g Hg].
    pose proof (Forall_lookup_1 _ _ _ _ Hgr Hg) as Hgb. cbn in Hgb.
    destruct (lookup_lt_is_Some_2 (gpus_per_group t) (Z.to_nat g) ltac:(lia)) as [ng Hng].
    destruct (lookup_lt_is_Some_2 (gpus_in_group t) (Z.to_nat g) ltac:(lia)) as [grow Hgrow].
    pose proof (Forall_lookup_1 _ _ _ _ C1 Hn) as Hnb.
    pose proof (Forall_lookup_1 _ _ _ _ C2 Hng) as Hngb.
    pose proof (Forall_lookup_1 _ _ _ _ R1 Hrow) as Hrl.
    pose proof (Forall_lookup_1 _ _ _ _ R2 Hgrow) as Hgrl.
    cbn in Hnb, Hngb, Hrl, Hgrl.
    rewrite (zget_Ok _ _ _ (proj1 Ha) Hn). cbn.
    rewrite (set2_Ok _ _ _ _ row) by (done || lia). cbn.
    rewrite (zget_Ok _ _ _ (proj1 Ha) Hg). cbn.
    rewrite (zget_Ok _ _ _ (proj1 Hgb) Hng). cbn.
    rewrite (set2_Ok _ _ _ _ grow) by (done || lia). cbn.
    rewrite !zset_Ok by lia. cbn.
    rewrite !wrapu32_id by (unfold in_uint32; lia).
    rewrite wrap32_id by (unfold in_int32; lia).
    match goal with |- context [assign_gpus devs numagroup (c + 1) ?t1] =>
      destruct (IH (c + 1) t1) as (t' & H1 & H2 & H3) end.
    + done.
    + split; cbn; rewrite ?length_insert; try done.
      * apply Forall_insert; [done|]. by rewrite length_insert.
      * apply Forall_insert; [done|]. by rewrite length_insert.
      * apply Forall_insert; [|lia].
        eapply Forall_impl; [exact C1|]. intros ? ?. cbn in *. lia.
      * apply Forall_insert; [|lia].
        eapply Forall_impl; [exact C2|]. intros ? ?. cbn in *. lia.
    + lia.
    + lia.
    + exists t'. replace (c + (1 + count_gpus devs)) with (c + 1 + count_gpus devs) by lia.
      split; [done|]. split; [done|]. intros _. apply H3. left.
      exists (Z.to_nat (os_index anc)), (n + 1). cbn.
      split; [|lia]. apply list_lookup_insert_eq. lia.
Qed.

End GpuOwnership.

Section GpuFallback.
Import Topology Gpu GpuInv.

Lemma copy_row_spec src : forall n j dst,
  0 <= j -> j + Z.of_nat n <= Z.of_nat (length src) ->
  j + Z.of_nat n <= Z.of_nat (length dst) ->
  exists dst',
    copy_row n j src dst = Ok dst' /\ length dst' = length dst /\
    (forall k, (Z.to_nat j <= k < Z.to_nat j + n)%nat -> dst' !! k = src !! k) /\
    (forall k, (k < Z.to_nat j)%nat -> dst' !! k = dst !! k).
Proof.
  induction n as [|n IH]; intros j dst Hj Hs Hd.
  - exists dst. split; [done|]. split; [done|]. split; [intros; lia|done].
  - cbn [copy_row].
    destruct (zget_lt src j ltac:(lia)) as [v Hv]. rewrite Hv. cbn.
    rewrite zset_Ok by lia. cbn.
    destruct (IH (j + 1) (<[Z.to_nat j := v]> dst) ltac:(lia) ltac:(lia))
      as (dst' & H1 & H2 & H3 & H4).
    { rewrite length_insert. lia. }
    exists dst'. rewrite length_insert in H2.
    split; [done|]. split; [done|]. split.
    + intros k Hk. destruct (decide (k = Z.to_nat j)) as [->|Hne].
      * rewrite H4 by lia. rewrite list_lookup_insert_eq by lia.
        apply zget_inv in Hv as [_ Hv]. done.
      * apply H3. lia.
    + intros k Hk. rewrite H4 by lia. apply list_lookup_insert_ne. lia.
Qed.

Lemma copy_row_take src dst n :
  Z.of_nat n <= Z.of_nat (length src) -> Z.of_nat n <= Z.of_nat (length dst) ->
  exists dst',
    copy_row n 0 src dst = Ok dst' /\ length dst' = length dst /\
    take n dst' = take n src.
Proof.
  intros Hs Hd.
  destruct (copy_row_spec src n 0 dst ltac:(lia) ltac:(lia) ltac:(lia))
    as (dst' & H1 & H2 & H3 & _).
  exists dst'. split; [done|]. split; [done|].
  apply list_eq. intros k. destruct (decide (k < n)%nat).
  - rewrite !lookup_take_lt by done. apply H3. lia.
  - rewrite !lookup_take_ge by lia. done.
Qed.

(** The search ends at the first domain with a device, when there is
    one. *)
Lemma first_with_gpus_spec numas per_numa a na :
  per_numa !! Z.to_nat a = Some na -> na <> 0 -> 0 <= a < numas ->
  forall fuel k,
    0 <= k <= a -> (Z.to_nat a - Z.to_nat k < fuel)%nat ->
    (forall j, 0 <= j < k -> per_numa !! Z.to_nat j = Some 0) ->
    exists k' n,
      first_with_gpus fuel numas per_numa k = Ok k' /\ k <= k' <= a /\
      per_numa !! Z.to_nat k' = Some n /\ n <> 0 /\
      forall j, 0 <= j < k' -> per_numa !! Z.to_nat j = Some 0.
Proof.
  intros Ha Hna Har. induction fuel as [|fuel IH]; intros k Hk Hf Hz; [lia|].
  cbn [first_with_gpus].
  destruct (lookup_lt_is_Some_2 per_numa (Z.to_nat k)) as [n Hn].
  { apply lookup_lt_Some in Ha. lia. }
  rewrite (zget_Ok _ _ _ (proj1 Hk) Hn). cbn.
  destruct (Z.eqb_spec n 0) as [->|Hne]; cbn [andb].
  - destruct (Z.ltb_spec k numas); [|lia].
    assert (k <> a) by (intros ->; congruence).
    destruct (IH (k + 1) ltac:(lia) ltac:(lia)) as (k' & n' & H1 & H2 & H3).
    { intros j Hj. destruct (Z.eq_dec j k) as [->|]; [done|]. apply Hz. lia. }
    exists k', n'. split; [done|]. split; [lia|done].
  - exists k, n. repeat split; try done; lia.
Qed.

Lemma owned_kept_refl t : owned_kept t t.
Proof. by repeat split. Qed.

Lemma owned_kept_trans t1 t2 t3 :
  owned_kept t1 t2 -> owned_kept t2 t3 -> owned_kept t1 t3.
Proof.
  intros (A1 & B1 & C1) (A2 & B2 & C2). split; [congruence|]. split; [congruence|].
  intros j n Hn Hne. destruct (C1 j n Hn Hne) as [D1 D2].
  destruct (C2 j n D1 Hne) as [E1 E2]. split; [done|congruence].
Qed.

End GpuFallback.

Section GpuFallbackStep.
Import Topology Gpu GpuInv.

Lemma numa_gpus_lookup t i n row :
  gpus_per_numa t !! Z.to_nat i = Some n ->
  gpus_in_numa t !! Z.to_nat i = Some row ->
  numa_gpus t i = take (Z.to_nat n) row.
Proof. intros H1 H2. unfold numa_gpus. by rewrite H1, H2. Qed.

Lemma group_gpus_lookup t g n row :
  gpus_per_group t !! Z.to_nat g = Some n ->
  gpus_in_group t !! Z.to_nat g = Some row ->
  group_gpus t g = take (Z.to_nat n) row.
Proof. intros H1 H2. unfold group_gpus. by rewrite H1, H2. Qed.

(** Writing row [i] and its counter, [i] being a domain without device,
    keeps what the other domains own. *)
Lemma owned_kept_write t i n row :
  gpus_per_numa t !! Z.to_nat i = Some 0 ->
  owned_kept t
    {| gpus_in_numa := <[Z.to_nat i := row]> (gpus_in_numa t);
       gpus_in_group := gpus_in_group t;
       gpus_per_numa := <[Z.to_nat i := n]> (gpus_per_numa t);
       gpus_per_group := gpus_per_group t |}.
Proof.
  intros Hi. split; [done|]. split; [done|]. cbn. intros j m Hm Hne.
  assert (Z.to_nat i <> j) by (intros <-; congruence).
  by rewrite !list_lookup_insert_ne.
Qed.

Lemma tables_wf_write numas cap t i n row :
  tables_wf numas cap cap t -> length row = Z.to_nat cap -> 0 <= n <= cap ->
  tables_wf numas cap cap
    {| gpus_in_numa := <[Z.to_nat i := row]> (gpus_in_numa t);
       gpus_in_group := gpus_in_group t;
       gpus_per_numa := <[Z.to_nat i := n]> (gpus_per_numa t);
       gpus_per_group := gpus_per_group t |}.
Proof.
  intros [L1 L2 L3 L4 R1 R2 C1 C2] Hrow Hn.
  split; cbn; rewrite ?length_insert; try done.
  - by apply Forall_insert.
  - by apply Forall_insert.
Qed.

(** One step of the fallback, for NUMA domain [i]. *)
Lemma fallback_step_spec numas cap numagroup i t :
  numagroup_ok numas numagroup -> tables_wf numas cap cap t ->
  some_numa_has_gpu t -> 0 <= i < numas ->
  exists t',
    fallback_step numas numagroup i t = Ok t' /\
    tables_wf numas cap cap t' /\ owned_kept t t' /\
    (exists n, gpus_per_numa t' !! Z.to_nat i = Some n /\ 1 <= n) /\
    (gpus_per_numa t !! Z.to_nat i = Some 0 ->
     exists g, numagroup !! Z.to_nat i = Some g /\
       ((exists ng, gpus_per_group t !! Z.to_nat g = Some ng /\ 1 <= ng /\
                    numa_gpus t' i = group_gpus t g) \/
        (gpus_per_group t !! Z.to_nat g = Some 0 /\
         exists k, first_numa_with_gpu t k /\ k < numas /\
                   numa_gpus t' i = numa_gpus t k))).
Proof.
  intros [Hgl Hgr] Hwf (a & na & Ha & Hna) Hi.
  pose proof Hwf as [L1 L2 L3 L4 R1 R2 C1 C2].
  unfold fallback_step.
  destruct (lookup_lt_is_Some_2 (gpus_per_numa t) (Z.to_nat i) ltac:(lia)) as [n Hn].
  pose proof (Forall_lookup_1 _ _ _ _ C1 Hn) as Hnb. cbn in Hnb.
  rewrite (zget_Ok _ _ _ (proj1 Hi) Hn). osimpl.
  destruct (Z.eqb_spec n 0) as [->|Hne].
  2:{ exists t. split; [done|]. split; [done|]. split; [apply owned_kept_refl|].
      split; [exists n; split; [done|lia]|]. intros ?. congruence. }
  destruct (lookup_lt_is_Some_2 numagroup (Z.to_nat i) ltac:(lia)) as [g Hg].
  pose proof (Forall_lookup_1 _ _ _ _ Hgr Hg) as Hgb. cbn in Hgb.
  destruct (lookup_lt_is_Some_2 (gpus_per_group t) (Z.to_nat g) ltac:(lia)) as [ng Hng].
  pose proof (Forall_lookup_1 _ _ _ _ C2 Hng) as Hngb. cbn in Hngb.
  destruct (lookup_lt_is_Some_2 (gpus_in_numa t) (Z.to_nat i) ltac:(lia)) as [dst Hdst].
  pose proof (Forall_lookup_1 _ _ _ _ R1 Hdst) as Hdl. cbn in Hdl.
  rewrite (zget_Ok _ _ _ (proj1 Hi) Hg). osimpl.
  rewrite (zget_Ok _ _ _ (proj1 Hgb) Hng). osimpl.
  destruct (Z.ltb_spec 0 ng) as [Hpos|Hzero].
  - (* the group has devices *)
    destruct (lookup_lt_is_Some_2 (gpus_in_group t) (Z.to_nat g) ltac:(lia)) as [src Hsrc].
    pose proof (Forall_lookup_1 _ _ _ _ R2 Hsrc) as Hsl. cbn in Hsl.
    rewrite zset_Ok by lia. osimpl.
    rewrite (zget_Ok _ _ _ (proj1 Hgb) Hsrc). osimpl.
    rewrite (zget_Ok _ _ _ (proj1 Hi) Hdst). osimpl.
    destruct (copy_row_take src dst (Z.to_nat ng) ltac:(lia) ltac:(lia))
      as (dst' & Hcp & Hlen & Htake).
    rewrite Hcp. cbn. rewrite zset_Ok by lia. osimpl.
    eexists. split; [reflexivity|].
    split; [apply tables_wf_write; (done || lia)|].
    split; [by apply owned_kept_write|].
    split.
    { exists ng. cbn. split; [|lia]. apply list_lookup_insert_eq. lia. }
    intros _. exists g. split; [done|]. left. exists ng.
    split; [done|]. split; [lia|].
    rewrite (group_gpus_lookup _ _ _ _ Hng Hsrc).
    erewrite numa_gpus_lookup; [exact Htake| |]; cbn.
    + apply list_lookup_insert_eq. lia.
    + apply list_lookup_insert_eq. lia.
  - (* the group has none: the first domain that has some *)
    assert (ng = 0) as -> by lia.
    assert (Hab : 0 <= Z.of_nat a < numas).
    { apply lookup_lt_Some in Ha. lia. }
    destruct (first_with_gpus_spec numas (gpus_per_numa t) (Z.of_nat a) na
                ltac:(by rewrite Nat2Z.id) ltac:(lia) Hab
                (S (length (gpus_per_numa t))) 0 ltac:(lia) ltac:(lia) ltac:(intros; lia))
      as (k & nk & Hk & Hkr & Hnk & Hnk0 & Hbefore).
    rewrite Hk. osimpl.
    pose proof (Forall_lookup_1 _ _ _ _ C1 Hnk) as Hnkb. cbn in Hnkb.
    destruct (lookup_lt_is_Some_2 (gpus_in_numa t) (Z.to_nat k) ltac:(lia)) as [src Hsrc].
    pose proof (Forall_lookup_1 _ _ _ _ R1 Hsrc) as Hsl. cbn in Hsl.
    rewrite (zget_Ok _ _ _ (proj1 Hkr) Hnk). osimpl.
    rewrite zset_Ok by lia. osimpl.
    rewrite (zget_Ok _ _ _ (proj1 Hkr) Hsrc). osimpl.
    rewrite (zget_Ok _ _ _ (proj1 Hi) Hdst). osimpl.
    destruct (copy_row_take src dst (Z.to_nat nk) ltac:(lia) ltac:(lia))
      as (dst' & Hcp & Hlen & Htake).
    rewrite Hcp. cbn. rewrite zset_Ok by lia. osimpl.
    eexists. split; [reflexivity|].
    split; [apply tables_wf_write; (done || lia)|].
    split; [by apply owned_kept_write|].
    split.
    { exists nk. cbn. split; [|lia]. apply list_lookup_insert_eq. lia. }
    intros _. exists g. split; [done|]. right. split; [done|].
    exists k. split.
    { split; [lia|]. split; [exists nk; split; [done|lia]|done]. }
    split; [lia|].
    rewrite (numa_gpus_lookup t k _ _ Hnk Hsrc).
    erewrite numa_gpus_lookup; [exact Htake| |]; cbn.
    + apply list_lookup_insert_eq. lia.
    + apply list_lookup_insert_eq. lia.
Qed.

End GpuFallbackStep.

Section GpuFallbackLoop.
Import Topology Gpu GpuInv.

Lemma owned_kept_some t t' :
  owned_kept t t' -> some_numa_has_gpu t -> some_numa_has_gpu t'.
Proof.
  intros (_ & _ & H) (a & n & Ha & Hn). exists a, n.
  split; [|done]. apply (H a n Ha). lia.
Qed.

Lemma owned_kept_numa_gpus t t' j n :
  owned_kept t t' -> gpus_per_numa t !! Z.to_nat j = Some n -> n <> 0 ->
  numa_gpus t' j = numa_gpus t j.
Proof.
  intros (_ & _ & H) Hn Hne. destruct (H _ _ Hn Hne) as [H1 H2].
  unfold numa_gpus. by rewrite H1, H2, Hn.
Qed.

Lemma owned_kept_group_gpus t t' g :
  owned_kept t t' -> group_gpus t' g = group_gpus t g.
Proof. intros (H1 & H2 & _). unfold group_gpus. by rewrite H1, H2. Qed.

(** A step writes nothing but row [i] and its counter. *)
Lemma fallback_step_others numas numagroup i t t' :
  fallback_step numas numagroup i t = Ok t' ->
  forall j : nat, j <> Z.to_nat i ->
    gpus_per_numa t' !! j = gpus_per_numa t !! j /\
    gpus_in_numa t' !! j = gpus_in_numa t !! j.
Proof.
  unfold fallback_step. intros H j Hj.
  apply obind_inv in H as (n & _ & H).
  destruct (n =? 0); [|by injection H as <-].
  apply obind_inv in H as (g & _ & H).
  apply obind_inv in H as (ng & _ & H).
  destruct (0 <? ng).
  - apply obind_inv in H as (pn & Hpn & H).
    apply obind_inv in H as (src & _ & H).
    apply obind_inv in H as (dst & _ & H).
    apply obind_inv in H as (dst' & _ & H).
    apply obind_inv in H as (inn & Hinn & H).
    injection H as <-. cbn.
    apply zset_inv in Hpn as [_ ->]. apply zset_inv in Hinn as [_ ->].
    by rewrite !list_lookup_insert_ne.
  - apply obind_inv in H as (k & _ & H).
    apply obind_inv in H as (nk & _ & H).
    apply obind_inv in H as (pn & Hpn & H).
    apply obind_inv in H as (src & _ & H).
    apply obind_inv in H as (dst & _ & H).
    apply obind_inv in H as (dst' & _ & H).
    apply obind_inv in H as (inn & Hinn & H).
    injection H as <-. cbn.
    apply zset_inv in Hpn as [_ ->]. apply zset_inv in Hinn as [_ ->].
    by rewrite !list_lookup_insert_ne.
Qed.



(** The loop over the domains [i .. i + n - 1]: it returns, keeps what
    is owned, and leaves every domain below [i + n] with a device. *)
Lemma fallback_loop_spec numas cap numagroup :
  numagroup_ok numas numagroup ->
  forall n i t,
    0 <= i -> i + Z.of_nat n <= numas ->
    tables_wf numas cap cap t -> some_numa_has_gpu t ->
    (forall j, 0 <= j < i ->
       exists m, gpus_per_numa t !! Z.to_nat j = Some m /\ 1 <= m) ->
    exists t',
      fallback_loop n numas numagroup i t = Ok t' /\
      tables_wf numas cap cap t' /\ owned_kept t t' /\
      forall j, 0 <= j < i + Z.of_nat n ->
        exists m, gpus_per_numa t' !! Z.to_nat j = Some m /\ 1 <= m.
Proof.
  intros Hng. induction n as [|n IH]; intros i t Hi Hn Hwf Hsome Hbelow.
  - exists t. split; [done|]. split; [done|]. split; [apply owned_kept_refl|].
    intros j Hj. apply Hbelow. lia.
  - cbn [fallback_loop].
    destruct (fallback_step_spec numas cap numagroup i t Hng Hwf Hsome ltac:(lia))
      as (t1 & H1 & Hwf1 & Hk1 & (m & Hm & Hm1) & _).
    rewrite H1. osimpl.
    destruct (IH (i + 1) t1 ltac:(lia) ltac:(lia) Hwf1 (owned_kept_some _ _ Hk1 Hsome))
      as (t' & H2 & Hwf2 & Hk2 & Hall).
    { intros j Hj. destruct (Z.eq_dec j i) as [->|Hne]; [by exists m|].
      destruct (Hbelow j ltac:(lia)) as (m' & Hm' & ?). exists m'.
      split; [|done]. destruct Hk1 as (_ & _ & Hk1). apply (Hk1 _ _ Hm'). lia. }
    exists t'. split; [done|]. split; [done|].
    split; [by eapply owned_kept_trans|].
    intros j Hj. apply Hall. lia.
Qed.

End GpuFallbackLoop.

Section GpuClaims.
Import Topology Gpu GpuInv.

Lemma devs_ok_numas numas devs :
  devs_ok numas devs -> 1 <= count_gpus devs -> 0 < numas.
Proof.
  induction devs as [|obj devs IH]; intros Hd Hc.
  - unfold count_gpus in Hc. cbn in Hc. lia.
  - apply Forall_cons in Hd as [Hobj Hd]. rewrite count_gpus_cons in Hc.
    destruct (is_render_gpu obj).
    + destruct (Hobj eq_refl) as (a & _ & Ha). lia.
    + apply IH; [done|lia].
Qed.

(** C7: when the topology has at least one GPU (and every GPU lies
    below a NUMA domain of the node, every domain in a group of the
    node), direct ownership and fallback return, and then every NUMA
    domain has a device count of at least 1. *)
Theorem fallback_leaves_no_numa_empty (devs : list Topology.osdev)
    (gpus numas : Z) (numagroup : list Z) :
  numagroup_ok numas numagroup -> devs_ok numas devs ->
  gpus = count_gpus devs -> 1 <= gpus < 2 ^ 31 ->
  exists t,
    gpu_ownership devs gpus numas numagroup = Ok t /\
    forall i, 0 <= i < numas ->
      exists n, gpus_per_numa t !! Z.to_nat i = Some n /\ 1 <= n.
Proof.
  intros Hng Hd -> Hg. unfold gpu_ownership.
  pose proof (devs_ok_numas _ _ Hd ltac:(lia)) as Hnumas.
  destruct (assign_gpus_spec numas (count_gpus devs) numagroup Hng ltac:(lia)
              devs 0 (alloc_tables (count_gpus devs) numas) Hd
              (alloc_tables_wf (count_gpus devs) numas ltac:(lia))
              ltac:(lia) ltac:(lia))
    as (t1 & H1 & Hwf1 & Hsome).
  rewrite H1. osimpl. rewrite Z.add_0_l in Hwf1.
  destruct (fallback_loop_spec numas (count_gpus devs) numagroup Hng
              (Z.to_nat numas) 0 t1 ltac:(lia) ltac:(lia) Hwf1
              (Hsome ltac:(right; lia)) ltac:(intros; lia))
    as (t2 & H2 & _ & _ & Hall).
  exists t2. split; [done|]. intros i Hi. apply Hall. lia.
Qed.

Lemma fallback_leaves_no_numa_empty_witness :
  (numagroup_ok 4 Scenario.own_groups /\ devs_ok 4 Scenario.two_gpus /\
   2 = count_gpus Scenario.two_gpus /\ 1 <= 2 < 2 ^ 31) /\
  exists t,
    gpu_ownership Scenario.two_gpus 2 4 Scenario.own_groups = Ok t /\
    forall i, 0 <= i < 4 ->
      exists n, gpus_per_numa t !! Z.to_nat i = Some n /\ 1 <= n.
Proof.
  assert (H1 : numagroup_ok 4 Scenario.own_groups).
  { split; [reflexivity|]. repeat constructor; lia. }
  assert (H2 : devs_ok 4 Scenario.two_gpus).
  { repeat constructor; cbn; intros E; try discriminate E;
      eexists; (split; [reflexivity|cbn; lia]). }
  split; [split; [exact H1|split; [exact H2|split; [reflexivity|lia]]]|].
  exact (fallback_leaves_no_numa_empty Scenario.two_gpus 2 4 Scenario.own_groups
           H1 H2 eq_refl ltac:(lia)).
Defined.

End GpuClaims.

Section GpuFallbackClaim.
Import Topology Gpu GpuInv.



End GpuFallbackClaim.

Section GpuReconciliation.
Import Topology Gpu.

(** C3 (the code at an input where it departs from the claim): three
    GPUs below the only NUMA domain, two tasks.  Device 2 alone is owned
    by task 1, devices 0 and 1 by task 0; [get_gpustring] nevertheless
    gives both tasks the string of all three devices, because its inner
    loop (lines 616-622) writes the whole row of the domain, not the
    device [i] that matched. *)
Lemma get_gpustring_lists_whole_domain :
  owner_of 0 3 2 = Some 0 /\ owner_of 1 3 2 = Some 0 /\ owner_of 2 3 2 = Some 1 /\
  join_commas (spec_owned_gpus [0; 1; 2] 2 1) = "2"%string /\
  join_commas (spec_owned_gpus [0; 1; 2] 2 0) = "0,1"%string /\
  get_gpustring Scenario.three_gpus 3 1 [0] 1 2 = Ok "0,1,2"%string /\
  get_gpustring Scenario.three_gpus 3 1 [0] 0 2 = Ok "0,1,2"%string.
Proof. repeat split; vm_compute; reflexivity. Qed.

End GpuReconciliation.

(** ** Verbosity of the tasks *)

Section Verbosity.
Import Plugin Options Node.

(** Without [MPIBIND] in the environment, [get_remote_env] leaves a task
    whose global rank is not 0 with verbosity 0, whatever the options
    have set before. *)
Lemma get_remote_env_silences sp g rc g' r :
  get_remote_env sp g = Parsed rc g' -> disabled g = 0 ->
  sp_task_id sp = Some r -> r <> 0 ->
  spank_getenv (sp_env sp) "MPIBIND" 64 = None ->
  verbose g' = 0.
Proof.
  unfold get_remote_env. intros H Hd Hr Hr0 Hm.
  rewrite Hd, Hr, Hm in H. cbn [Z.eqb negb] in H.
  destruct (Z.eqb_spec r 0) as [|_]; [done|]. cbn [negb] in H.
  destruct (match spank_getenv (sp_env sp) "OMPI_COMM_WORLD_LOCAL_RANK" 64 with
            | Some v => Some v
            | None => spank_getenv (sp_env sp) "SLURM_LOCALID" 64
            end) as [v|]; [|by injection H as _ <-].
  destruct (sp_local_task_count sp) as [n|]; [|by injection H as _ <-].
  destruct (spank_getenv (sp_env sp) "OMP_NUM_THREADS" 64);
    by injection H as _ <-.
Qed.

(** C10 (the code at an input where it departs from the claim): task 1
    of a step started with [--mpibind=vv] is silenced by
    [get_remote_env]; the same task with [MPIBIND=vv] in its
    environment is not: its verbosity is set to 0 and then set to 3
    again when [MPIBIND] is parsed at the end of the function. *)
Lemma get_remote_env_mpibind_verbose :
  (exists g', get_remote_env (task 1 "1" []) (set_verbose 3 initial_globals)
                = Parsed 0 g' /\ rank g' = 1 /\ verbose g' = 0) /\
  (exists g', get_remote_env (task 1 "1" [("MPIBIND", "vv")]) initial_globals
                = Parsed 0 g' /\ rank g' = 1 /\ verbose g' = 3).
Proof. split; eexists; (split; [vm_compute; reflexivity|split; reflexivity]). Qed.

End Verbosity.

(** ** The export of [OMP_NUM_THREADS] *)

Section OmpFacts.
Import Hwloc Topology Plugin Options TaskInit.

Lemma spank_setenv_other e var val ow var' :
  var <> var' -> spank_setenv e var val ow !! var' = e !! var'.
Proof.
  intros Hne. unfold spank_setenv.
  destruct (e !! var); [destruct (ow =? 0); [done|]|]; by rewrite lookup_insert_ne.
Qed.

Lemma spank_setenv_kept e var val v :
  e !! var = Some v -> spank_setenv e var val 0 = e.
Proof. intros H. unfold spank_setenv. by rewrite H. Qed.

Lemma spank_setenv_fresh e var val ow :
  e !! var = None -> spank_setenv e var val ow !! var = Some val.
Proof. intros H. unfold spank_setenv. rewrite H. apply lookup_insert_eq. Qed.

Lemma spank_getenv_unset e var len :
  e !! var = None -> spank_getenv e var len = None.
Proof. intros H. unfold spank_getenv. by rewrite H. Qed.

(** Parsing options leaves the thread count alone. *)
Lemma parse_option_num_threads coreobjs opt remote g rc g' :
  parse_option coreobjs opt remote g = Parsed rc g' ->
  num_threads g' = num_threads g.
Proof.
  unfold parse_option. intros H.
  repeat match type of H with
         | (if ?b then _ else _) = _ => destruct b
         | Parsed _ _ = Parsed _ _ => injection H as _ <-
         | match ?x with _ => _ end = _ => destruct x as [[[? ?] ?]|]
         end; done.
Qed.

Lemma parse_tokens_num_threads coreobjs remote : forall tokens g rc g',
  parse_tokens coreobjs tokens remote g = Parsed rc g' ->
  num_threads g' = num_threads g.
Proof.
  induction tokens as [|opt rest IH]; intros g rc g' H; cbn [parse_tokens] in H.
  - by injection H as _ <-.
  - destruct (parse_option coreobjs opt remote g) as [rc1 g1| |] eqn:E; [|done|done].
    apply parse_option_num_threads in E.
    destruct (rc1 =? 0).
    + apply IH in H. congruence.
    + injection H as _ <-. done.
Qed.

Lemma get_remote_env_unset sp g rc g' :
  get_remote_env sp g = Parsed rc g' ->
  sp_env sp !! "OMP_NUM_THREADS" = None -> num_threads g = 0 ->
  num_threads g' = 0.
Proof.
  unfold get_remote_env. intros H Hu Hg.
  rewrite (spank_getenv_unset _ _ _ Hu) in H.
  destruct (negb (disabled g =? 0)); [by injection H as _ <-|].
  destruct (sp_task_id sp) as [r|]; [|by injection H as _ <-].
  destruct (match spank_getenv (sp_env sp) "OMPI_COMM_WORLD_LOCAL_RANK" 64 with
            | Some v => Some v
            | None => spank_getenv (sp_env sp) "SLURM_LOCALID" 64
            end) as [v|].
  2:{ injection H as _ <-. by destruct (negb (r =? 0)). }
  destruct (sp_local_task_count sp) as [n|].
  2:{ injection H as _ <-. by destruct (negb (r =? 0)). }
  destruct (spank_getenv (sp_env sp) "MPIBIND" 64) as [m|].
  - apply parse_tokens_num_threads in H. by rewrite H.
  - by injection H as _ <-.
Qed.

(** The cores an explicit list selects, counted from index [i]. *)
Lemma pick_cores_count bits lsize : forall cores i cpusets n cpusets' n',
  pick_cores cores (Z.of_nat i) bits lsize cpusets n = Ok (cpusets', n') ->
  0 <= n -> n + Z.of_nat (length cores) < 2 ^ 32 ->
  n' = n + Z.of_nat (length (List.filter
                               (fun k => hwloc_bitmap_isset bits (Z.of_nat k))
                               (seq i (length cores)))).
Proof.
  induction cores as [|obj cores IH]; intros i cpusets n cpusets' n' H Hn Hlen.
  - injection H as _ <-. cbn. lia.
  - cbn [pick_cores length seq List.filter] in *.
    replace (Z.of_nat i + 1) with (Z.of_nat (S i)) in H by lia.
    destruct (hwloc_bitmap_isset bits (Z.of_nat i)).
    + destruct obj as [c|]; [|done]. destruct (n <? lsize); [|done].
      rewrite wrapu32_id in H by (unfold in_uint32; lia).
      apply IH in H; [|lia|lia]. cbn [length]. lia.
    + apply IH in H; [done|lia|lia].
Qed.

(** The pool selection sets [num_cores] to the cores available and
    leaves the task counts and the explicit list as they are. *)
Lemma unit_pool_num_cores topo g g1 cpusets :
  unit_pool topo g = Ok (g1, cpusets) ->
  Z.of_nat (length (topo_cores topo)) < 2 ^ 32 ->
  num_cores g1 = cores_available topo g /\
  local_size g1 = local_size g /\ num_threads g1 = num_threads g /\
  cpubits g1 = cpubits g.
Proof.
  unfold unit_pool, cores_available. intros H Hlen.
  destruct (explicit_cores g) as [bits|].
  - unfold select_cores in H. apply obind_inv in H as ([cs n] & Hp & H).
    apply (pick_cores_count bits (level_size g) (topo_cores topo) 0) in Hp; [|lia|lia].
    rewrite Z.add_0_l in Hp. subst n. fold (selected_cores topo bits) in H.
    injection H as <- _.
    by destruct (selected_cores topo bits <? _).
  - unfold select_by_depth in H.
    destruct (find_depth _ _ _ _) as [depth lsize].
    apply obind_inv in H as (cs & _ & H). by injection H as <- _.
Qed.

End OmpFacts.

Section OmpClaim.
Import Hwloc Topology Plugin Options TaskInit Node.

(** What [bind_task] does to [OMP_NUM_THREADS]. *)
Lemma bind_task_omp sp topo g r :
  bind_task sp topo g = Ok r ->
  Z.of_nat (length (topo_cores topo)) < 2 ^ 32 ->
  local_size (tr_globals r) = local_size g /\
  cpubits (tr_globals r) = cpubits g /\
  match sp_env sp !! "OMP_NUM_THREADS" with
  | Some v => tr_env r !! "OMP_NUM_THREADS" = Some v
  | None =>
      num_threads g = 0 ->
      tr_env r !! "OMP_NUM_THREADS" =
        Some (pretty (let n := cores_available topo g / local_size g in
                      if n =? 0 then 1 else n))
  end.
Proof.
  unfold bind_task. intros H Hlen.
  apply obind_inv in H as ([g1 cpusets] & Hpool & H).
  apply unit_pool_num_cores in Hpool as (Hnc & Hls & Hnt & Hcb); [|done].
  cbn [local_size num_threads cpubits set_local_threads] in Hls, Hnt, Hcb.
  apply obind_inv in H as ([numagroup gpus] & _ & H).
  apply obind_inv in H as (gpustr & _ & H).
  apply obind_inv in H as ([g2 e] & Hexp & H).
  apply obind_inv in H as (raw & _ & H).
  apply obind_inv in H as (cpuset & _ & H).
  injection H as <-. cbn [tr_globals tr_env].
  assert (Hother : forall e0 : gmap string string,
    (match gpustr with
     | Some str => spank_setenv
         (match Gomp.get_gomp_str (num_threads g2) cpuset with
          | Some str0 => spank_setenv e0 "GOMP_CPU_AFFINITY" str0 1
          | None => e0
          end) "CUDA_VISIBLE_DEVICES" str 1
     | None =>
         match Gomp.get_gomp_str (num_threads g2) cpuset with
         | Some str0 => spank_setenv e0 "GOMP_CPU_AFFINITY" str0 1
         | None => e0
         end
     end) !! "OMP_NUM_THREADS" = e0 !! "OMP_NUM_THREADS").
  { intros e0. destruct gpustr; destruct (Gomp.get_gomp_str _ _);
      rewrite ?spank_setenv_other by done; done. }
  rewrite Hother. unfold export_omp_num_threads in Hexp.
  rewrite Hnt, Hls in Hexp.
  destruct (Z.eqb_spec (num_threads g) 0) as [Hz|Hnz].
  - destruct (local_size g =? 0); [done|]. injection Hexp as <- <-.
    cbn [local_size cpubits set_num_threads].
    split; [done|]. split; [done|].
    destruct (sp_env sp !! "OMP_NUM_THREADS") as [v|] eqn:E.
    + by rewrite (spank_setenv_kept _ _ _ _ E).
    + intros _. rewrite spank_setenv_fresh by done. by rewrite Hnc.
  - injection Hexp as <- <-. split; [done|]. split; [done|].
    destruct (sp_env sp !! "OMP_NUM_THREADS") as [v|] eqn:E; done.
Qed.

(** C9 (as the code has it): when a task is bound (the thread count
    of the plugin being 0 before the call, as it is when the plugin is
    loaded and after the options are parsed) and [OMP_NUM_THREADS] is
    not set on entry, the variable is exported as
    [max 1 (cores / localTaskCount)], where [cores] is the number of
    cores of the node when no explicit list of cores was given, and the
    number of cores that list selects otherwise; a variable that is set
    on entry keeps its value.  With the variable unset, 4 local tasks
    and 16 cores, "4" is exported. *)
Theorem omp_num_threads_export (sp : Plugin.spank) (topo : Topology.topology)
    (g : Plugin.globals) (r : TaskInit.task_result) (c : Hwloc.hwloc_bitmap_t) :
  slurm_spank_task_init sp topo g = Ok r -> tr_cpubind r = Some c ->
  num_threads g = 0 -> 0 <= local_size (tr_globals r) ->
  Z.of_nat (length (topo_cores topo)) < 2 ^ 32 ->
  match sp_env sp !! "OMP_NUM_THREADS" with
  | Some v => tr_env r !! "OMP_NUM_THREADS" = Some v
  | None =>
      tr_env r !! "OMP_NUM_THREADS" =
        Some (pretty (Z.max 1 (cores_available topo (tr_globals r)
                               / local_size (tr_globals r))))
  end /\
  (exists r4,
      slurm_spank_task_init (task 0 "0" []) topo16 initial_globals = Ok r4 /\
      tr_env r4 !! "OMP_NUM_THREADS" = Some "4"%string).
Proof.
  intros H Hb Hnt Hls Hlen.
  split; [|eexists; split; vm_compute; reflexivity].
  unfold slurm_spank_task_init in H.
  destruct (sp_remote sp); cbn [negb] in H.
  2:{ injection H as <-. done. }
  destruct (get_remote_env sp g) as [rc g1| |] eqn:Henv; [|done|done].
  destruct (_ || _).
  { injection H as <-. done. }
  apply bind_task_omp in H as (H1 & H2 & H3); [|done].
  destruct (sp_env sp !! "OMP_NUM_THREADS") as [v|] eqn:E; [done|].
  rewrite H3 by (eapply get_remote_env_unset; eauto).
  assert (Hca : cores_available topo (tr_globals r) = cores_available topo g1).
  { unfold cores_available, explicit_cores. by rewrite H2. }
  rewrite Hca, H1. rewrite H1 in Hls. do 2 f_equal. cbv zeta.
  assert (0 <= cores_available topo g1).
  { unfold cores_available, selected_cores. destruct (explicit_cores g1); lia. }
  assert (0 <= cores_available topo g1 / local_size g1)
    by (apply Z_div_nonneg_nonneg; lia).
  destruct (Z.eqb_spec (cores_available topo g1 / local_size g1) 0); lia.
Qed.

End OmpClaim.

Section OmpWitness.
Import Hwloc Topology Plugin Options TaskInit Node.

Lemma omp_num_threads_export_witness :
  (slurm_spank_task_init (task 0 "0" []) topo16 initial_globals = Ok task0_result /\
   tr_cpubind task0_result = Some 15 /\
   num_threads initial_globals = 0 /\
   0 <= local_size (tr_globals task0_result) /\
   Z.of_nat (length (topo_cores topo16)) < 2 ^ 32) /\
  tr_env task0_result !! "OMP_NUM_THREADS" =
    Some (pretty (Z.max 1 (cores_available topo16 (tr_globals task0_result)
                           / local_size (tr_globals task0_result)))).
Proof.
  assert (H1 : slurm_spank_task_init (task 0 "0" []) topo16 initial_globals
               = Ok task0_result) by (vm_compute; reflexivity).
  assert (H2 : tr_cpubind task0_result = Some 15) by reflexivity.
  assert (H3 : num_threads initial_globals = 0) by reflexivity.
  assert (H4 : 0 <= local_size (tr_globals task0_result))
    by (vm_compute; discriminate).
  assert (H5 : Z.of_nat (length (topo_cores topo16)) < 2 ^ 32)
    by (vm_compute; reflexivity).
  split; [repeat split; assumption|].
  exact (proj1 (omp_num_threads_export (task 0 "0" []) topo16 initial_globals
                  task0_result 15 H1 H2 H3 H4 H5)).
Defined.

(** C9 as worded fails when the step is started with an explicit
    list of cores: with [MPIBIND=0-3], 16 cores on the node and 4 local
    tasks, [num_cores] counts the 4 cores of the list and "1" is
    exported, not "4". *)
Lemma omp_num_threads_explicit_cores :
  sp_env (task 0 "0" [("MPIBIND", "0-3")]) !! "OMP_NUM_THREADS" = None /\
  length (topo_cores topo16) = 16%nat /\
  spec_omp_num_threads 16 4 = "4"%string /\
  exists r,
    slurm_spank_task_init (task 0 "0" [("MPIBIND", "0-3")]) topo16 initial_globals
      = Ok r /\
    tr_cpubind r = Some 1 /\
    tr_env r !! "OMP_NUM_THREADS" = Some "1"%string /\
    tr_env r !! "OMP_NUM_THREADS" <> Some (spec_omp_num_threads 16 4).
Proof.
  split; [vm_compute; reflexivity|]. split; [reflexivity|].
  split; [vm_compute; reflexivity|].
  eexists. split; [vm_compute; reflexivity|].
  split; [reflexivity|]. split; [vm_compute; reflexivity|].
  vm_compute. discriminate.
Qed.

End OmpWitness.

(** ** The option parser returns *)

Section ParserFacts.
Import Libc Plugin Options.

Lemma skip_spaces_length s : (String.length (skip_spaces s) <= String.length s)%nat.
Proof.
  induction s as [|c s IH]; cbn [skip_spaces String.length]; [lia|].
  destruct (isspace c); cbn [String.length]; lia.
Qed.

Lemma read_digits_length s : forall acc,
  (String.length (snd (read_digits s acc)) <= String.length s)%nat.
Proof.
  induction s as [|c s IH]; intros acc; cbn [read_digits String.length snd]; [lia|].
  destruct (isdigit c); cbn [snd String.length]; [|lia].
  specialize (IH (10 * acc + digit_value c)). lia.
Qed.

Lemma convert_digits_length neg u s :
  (String.length u <= String.length s)%nat ->
  (String.length (snd (convert_digits neg u s)) <= String.length s)%nat.
Proof.
  intros Hu. unfold convert_digits. destruct u as [|c u']; [done|].
  destruct (isdigit c); [|done].
  pose proof (read_digits_length (String c u') 0) as Hr.
  destruct (read_digits (String c u') 0) as [v rest]. cbn [snd] in *. lia.
Qed.

(** [endptr] points into the string that was given. *)
Lemma strtol_length s : (String.length (snd (strtol s)) <= String.length s)%nat.
Proof.
  unfold strtol. pose proof (skip_spaces_length s) as Hs.
  destruct (skip_spaces s) as [|c t'].
  - by apply convert_digits_length.
  - cbn [String.length] in Hs.
    destruct c as [[] [] [] [] [] [] [] []];
      apply convert_digits_length; cbn [String.length]; lia.
Qed.

(** Every turn of the loop over a list of cores drops a character: the
    fuel [parse_option] gives it suffices. *)
Lemma parse_ranges_fuel coreobjs : forall fuel opt bits lsize,
  (String.length opt < fuel)%nat ->
  parse_ranges fuel coreobjs opt bits lsize <> None.
Proof.
  induction fuel as [|fuel IH]; intros opt bits lsize Hf; [lia|].
  cbn [parse_ranges]. destruct opt as [|c0 opt0]; [done|].
  pose proof (strtol_length (String c0 opt0)) as Hl.
  destruct (strtol (String c0 opt0)) as [start endptr]. cbn [snd] in Hl.
  destruct (start <? 0); [done|]. destruct (coreobjs <? start); [done|].
  destruct endptr as [|c endptr']; [done|]. cbn [String.length] in *.
  destruct c as [[] [] [] [] [] [] [] []]; try done; try (apply IH; lia).
  (* a range: [start-end] *)
  destruct endptr' as [|c1 e1]; [done|].
  pose proof (strtol_length (String c1 e1)) as Hl2.
  destruct (strtol (String c1 e1)) as [end_ endptr2]. cbn [snd String.length] in Hl2.
  destruct (end_ <? 0); [done|]. destruct (coreobjs <? end_); [done|].
  destruct (end_ <? start); [done|]. cbv zeta.
  apply IH. destruct endptr2; cbn [String.length] in *; lia.
Qed.

Lemma parse_option_remote coreobjs opt g :
  exists rc g', parse_option coreobjs opt 1 g = Parsed rc g'.
Proof.
  unfold parse_option.
  destruct (String.eqb opt "on"); [eauto|].
  destruct (String.eqb opt "off"); [eauto|].
  destruct (String.eqb opt "vv"); [eauto|].
  destruct (String.eqb opt "v" || String.eqb opt "verbose"); [eauto|].
  destruct (String.eqb opt "w"); [eauto|].
  destruct (starts_with_digit opt).
  - pose proof (parse_ranges_fuel coreobjs (S (String.length opt)) opt
                  Hwloc.hwloc_bitmap_alloc 0 ltac:(lia)) as H.
    destruct (parse_ranges _ _ _ _ _) as [[[rc bits] lsize]|]; [eauto|done].
  - rewrite andb_false_r. eauto.
Qed.

Lemma parse_tokens_remote coreobjs : forall tokens g,
  exists rc g', parse_tokens coreobjs tokens 1 g = Parsed rc g'.
Proof.
  induction tokens as [|opt rest IH]; intros g; cbn [parse_tokens]; [eauto|].
  destruct (parse_option_remote coreobjs opt g) as (rc & g' & ->).
  destruct (rc =? 0); eauto.
Qed.

(** In a remote context [get_remote_env] returns, whatever the
    environment holds. *)
Lemma get_remote_env_returns sp g :
  exists rc g', get_remote_env sp g = Parsed rc g'.
Proof.
  unfold get_remote_env.
  destruct (negb (disabled g =? 0)); [eauto|].
  destruct (sp_task_id sp); [|eauto].
  destruct (match spank_getenv (sp_env sp) "OMPI_COMM_WORLD_LOCAL_RANK" 64 with
            | Some v => Some v
            | None => spank_getenv (sp_env sp) "SLURM_LOCALID" 64
            end); [|eauto].
  destruct (sp_local_task_count sp); [|eauto].
  destruct (spank_getenv (sp_env sp) "MPIBIND" 64); [|eauto].
  apply parse_tokens_remote.
Qed.

End ParserFacts.

(** ** The group table the caller builds *)

Section GroupTable.
Import Topology TaskInit.

(** [slurm_spank_task_init] enters a group only for the NUMA domains
    that are the ancestor of a GPU: the entry of every other domain is
    the 0 that [calloc] left. *)
Lemma group_numas_untouched : forall devs numagroup gpus numagroup' gpus' (i : nat),
  group_numas devs numagroup gpus = Ok (numagroup', gpus') ->
  (forall obj a, obj ∈ devs -> is_render_gpu obj = true ->
                 gpu_ancestor obj = Some a -> Z.to_nat (os_index a) <> i) ->
  numagroup' !! i = numagroup !! i.
Proof.
  induction devs as [|obj devs IH]; intros numagroup gpus numagroup' gpus' i H Hi.
  - by injection H as <- _.
  - cbn [group_numas] in H.
    assert (Hrest : forall obj' a, obj' ∈ devs -> is_render_gpu obj' = true ->
              gpu_ancestor obj' = Some a -> Z.to_nat (os_index a) <> i).
    { intros obj' a Hin. apply Hi. by right. }
    destruct (is_render_gpu obj) eqn:Hr; [|by eapply IH].
    destruct (gpu_ancestor obj) as [anc|] eqn:Ha; [|done].
    destruct (match group_ancestor anc with
              | Some i0 => Some i0
              | None => machine_ancestor anc
              end) as [i2|]; [|done].
    apply obind_inv in H as (ng & Hset & H).
    apply zset_inv in Hset as [_ ->].
    rewrite (IH _ _ _ _ i H Hrest).
    apply list_lookup_insert_ne. apply (Hi obj anc); [by left|done|done].
Qed.

End GroupTable.

(* ================================================================== *)
(** * Part III: further properties of the code *)
(* ================================================================== *)

(** ** The partitioner as a mapping *)

Section PartitionMapping.
Import Partition.

Lemma bucket_start_total total ndoms :
  0 < ndoms -> bucket_start total ndoms ndoms = total.
Proof. intros Hn. exact (zsum_bucket_sizes total ndoms Hn). Qed.

Lemma bucket_end_le_total total ndoms d :
  0 <= total -> 0 < ndoms -> 0 <= d < ndoms ->
  bucket_start total ndoms d + bucket_size total ndoms d <= total.
Proof.
  intros Ht Hn Hd. rewrite <- bucket_start_succ by lia.
  rewrite <- (bucket_start_total total ndoms Hn) at 2.
  apply bucket_start_mono; lia.
Qed.

(** What [map_to_domains] returns for a valid index, with the position
    as a difference. *)
Lemma map_to_domains_valid rank np ndoms o :
  0 <= rank < np -> np < 2 ^ 31 -> 0 < ndoms < 2 ^ 31 ->
  exists d,
    0 <= d < ndoms /\
    bucket_start np ndoms d <= rank < bucket_start np ndoms d + bucket_size np ndoms d /\
    map_to_domains rank np ndoms o =
      Ok (0, {| mapi := d; np_in_dom := bucket_size np ndoms d;
                id_in_dom := rank - bucket_start np ndoms d |}).
Proof.
  intros Hr Hnp Hnd.
  pose proof (map_to_domains_spec rank np ndoms o ltac:(lia) Hnd ltac:(lia)) as H.
  destruct (Z.ltb_spec rank np); [|lia].
  destruct H as (d & Hd & Hrange & Heq). exists d.
  split; [done|]. split; [done|].
  rewrite Heq. by rewrite Z.mod_small by lia.
Qed.

(** X1: every position of every domain is taken: for a domain [d] and a
    position [p] below the size of [d], the index [bucket_start d + p]
    is mapped to domain [d] at position [p], so domain [d] receives
    exactly [bucket_size d] indices, numbered 0, 1, ... in index order. *)
Theorem map_to_domains_fills (total ndoms d p : Z) (o : dom_out) :
  0 <= total < 2 ^ 31 -> 0 < ndoms < 2 ^ 31 -> 0 <= d < ndoms ->
  0 <= p < bucket_size total ndoms d ->
  map_to_domains (bucket_start total ndoms d + p) total ndoms o =
    Ok (0, {| mapi := d; np_in_dom := bucket_size total ndoms d; id_in_dom := p |}).
Proof.
  intros Ht Hn Hd Hp.
  pose proof (bucket_end_le_total total ndoms d ltac:(lia) ltac:(lia) Hd) as Hend.
  pose proof (bucket_start_mono total ndoms 0 d ltac:(lia) ltac:(lia) ltac:(lia)) as H0.
  change (bucket_start total ndoms 0) with 0 in H0.
  destruct (map_to_domains_valid (bucket_start total ndoms d + p) total ndoms o
              ltac:(lia) ltac:(lia) Hn) as (d' & Hd' & Hr & ->).
  assert (d' = d) as ->.
  { apply (bucket_range_unique total ndoms (bucket_start total ndoms d + p));
      try lia; done. }
  do 3 f_equal. lia.
Qed.

Lemma map_to_domains_fills_witness :
  (0 <= 10 < 2 ^ 31 /\ 0 < 3 < 2 ^ 31 /\ 0 <= 1 < 3 /\ 0 <= 2 < bucket_size 10 3 1) /\
  map_to_domains (bucket_start 10 3 1 + 2) 10 3 (DomOut 0 0 0) =
    Ok (0, {| mapi := 1; np_in_dom := bucket_size 10 3 1; id_in_dom := 2 |}).
Proof.
  split; [repeat split; (lia || (vm_compute; reflexivity) || (vm_compute; discriminate))|].
  apply (map_to_domains_fills 10 3 1 2 (DomOut 0 0 0)); try lia.
  split; [lia|vm_compute; reflexivity].
Defined.

(** X2: two valid indices that are given the same domain and the same
    position in it are the same index. *)
Theorem map_to_domains_injective (i j total ndoms : Z) (o oi oj : dom_out) :
  0 <= i < total -> 0 <= j < total -> total < 2 ^ 31 -> 0 < ndoms < 2 ^ 31 ->
  map_to_domains i total ndoms o = Ok (0, oi) ->
  map_to_domains j total ndoms o = Ok (0, oj) ->
  mapi oi = mapi oj -> id_in_dom oi = id_in_dom oj ->
  i = j.
Proof.
  intros Hi Hj Ht Hn Ei Ej Hm Hp.
  destruct (map_to_domains_valid i total ndoms o Hi Ht Hn) as (di & _ & _ & Ei').
  destruct (map_to_domains_valid j total ndoms o Hj Ht Hn) as (dj & _ & _ & Ej').
  rewrite Ei in Ei'. rewrite Ej in Ej'.
  injection Ei' as ->. injection Ej' as ->. cbn in Hm, Hp. subst dj. lia.
Qed.

Lemma map_to_domains_injective_witness :
  (0 <= 7 < 10 /\ 0 <= 7 < 10 /\ 10 < 2 ^ 31 /\ 0 < 3 < 2 ^ 31 /\
   map_to_domains 7 10 3 (DomOut 0 0 0) = Ok (0, DomOut 2 3 0)) /\ 7 = 7.
Proof.
  assert (E : map_to_domains 7 10 3 (DomOut 0 0 0) = Ok (0, DomOut 2 3 0))
    by (vm_compute; reflexivity).
  split; [repeat split; (lia || exact E)|].
  exact (map_to_domains_injective 7 7 10 3 (DomOut 0 0 0) (DomOut 2 3 0) (DomOut 2 3 0)
           ltac:(lia) ltac:(lia) ltac:(lia) ltac:(lia) E E eq_refl eq_refl).
Defined.

(** X3: the mapping keeps the order: of two valid indices the larger
    one is never given a smaller domain. *)
Theorem map_to_domains_monotone (i j total ndoms : Z) (o oi oj : dom_out) :
  0 <= i -> i <= j -> j < total -> total < 2 ^ 31 -> 0 < ndoms < 2 ^ 31 ->
  map_to_domains i total ndoms o = Ok (0, oi) ->
  map_to_domains j total ndoms o = Ok (0, oj) ->
  mapi oi <= mapi oj.
Proof.
  intros Hi Hij Hj Ht Hn Ei Ej.
  destruct (map_to_domains_valid i total ndoms o ltac:(lia) Ht Hn) as (di & Hdi & Hri & Ei').
  destruct (map_to_domains_valid j total ndoms o ltac:(lia) Ht Hn) as (dj & Hdj & Hrj & Ej').
  rewrite Ei in Ei'. rewrite Ej in Ej'.
  injection Ei' as ->. injection Ej' as ->. cbn.
  destruct (Z.le_gt_cases di dj) as [|Hgt]; [done|].
  pose proof (bucket_start_mono total ndoms (dj + 1) di ltac:(lia) ltac:(lia) ltac:(lia)) as Hm.
  rewrite bucket_start_succ in Hm by lia. lia.
Qed.

Lemma map_to_domains_monotone_witness :
  (0 <= 3 /\ 3 <= 4 /\ 4 < 10 /\ 10 < 2 ^ 31 /\ 0 < 3 < 2 ^ 31 /\
   map_to_domains 3 10 3 (DomOut 0 0 0) = Ok (0, DomOut 0 4 3) /\
   map_to_domains 4 10 3 (DomOut 0 0 0) = Ok (0, DomOut 1 3 0)) /\
  mapi (DomOut 0 4 3) <= mapi (DomOut 1 3 0).
Proof.
  assert (E3 : map_to_domains 3 10 3 (DomOut 0 0 0) = Ok (0, DomOut 0 4 3))
    by (vm_compute; reflexivity).
  assert (E4 : map_to_domains 4 10 3 (DomOut 0 0 0) = Ok (0, DomOut 1 3 0))
    by (vm_compute; reflexivity).
  split; [repeat split; (lia || exact E3 || exact E4)|].
  exact (map_to_domains_monotone 3 4 10 3 (DomOut 0 0 0) (DomOut 0 4 3) (DomOut 1 3 0)
           ltac:(lia) ltac:(lia) ltac:(lia) ltac:(lia) ltac:(lia) E3 E4).
Defined.

(** X4: a negative index is not reported as an error.  With at least
    one item the function returns 0, domain 0 and a position that is
    not positive; with no item at all it divides by zero. *)
Theorem map_to_domains_negative_index (rank np ndoms : Z) (o : dom_out) :
  - 2 ^ 31 <= rank < 0 -> 0 <= np < 2 ^ 31 -> 0 < ndoms < 2 ^ 31 ->
  if np =? 0 then map_to_domains rank np ndoms o = Undef
  else exists pos,
      map_to_domains rank np ndoms o =
        Ok (0, {| mapi := 0; np_in_dom := bucket_size np ndoms 0; id_in_dom := pos |}) /\
      - bucket_size np ndoms 0 < pos <= 0.
Proof.
  intros Hr Hnp Hn. unfold map_to_domains.
  destruct (Z.eqb_spec ndoms 0) as [|Hnz]; [lia|].
  destruct (Z.eqb_spec ndoms (-1)) as [|_]; [lia|]. rewrite andb_false_r.
  rewrite Z.quot_div_nonneg, Z.rem_mod_nonneg by lia.
  pose proof (Z.mod_pos_bound np ndoms ltac:(lia)) as Hm.
  pose proof (Z.div_pos np ndoms ltac:(lia) ltac:(lia)) as Hq.
  pose proof (Z.div_mod np ndoms ltac:(lia)) as Hdm.
  assert (np / ndoms <= ndoms * (np / ndoms)) by nia.
  rewrite wrap32_id by (unfold in_int32; lia).
  destruct (Z.to_nat ndoms) as [|n] eqn:En; [lia|]. cbn [map_loop].
  assert (Htmp : dom_tmp 0 (np / ndoms) (np mod ndoms) = bucket_size np ndoms 0).
  { unfold dom_tmp, bucket_size. destruct (Z.ltb_spec 0 (np mod ndoms)); [|lia].
    apply wrap32_id. unfold in_int32. lia. }
  rewrite Htmp.
  assert (Hsz : 0 <= bucket_size np ndoms 0 <= np).
  { unfold bucket_size. destruct (Z.ltb_spec 0 (np mod ndoms)); nia. }
  rewrite Z.add_0_l, Z.sub_0_r, !wrap32_id by (unfold in_int32; lia).
  destruct (Z.eqb_spec np 0) as [->|Hne].
  - change (bucket_size 0 ndoms 0) with (0 / ndoms + (if 0 <? 0 mod ndoms then 1 else 0)).
    rewrite Z.mod_0_l, Z.div_0_l by lia. cbn.
    rewrite Z.add_0_l. destruct (Z.ltb_spec rank 0); [done|lia].
  - assert (1 <= bucket_size np ndoms 0).
    { unfold bucket_size. destruct (Z.ltb_spec 0 (np mod ndoms)); [lia|].
      assert (np mod ndoms = 0) by lia. nia. }
    destruct (Z.ltb_spec rank (bucket_size np ndoms 0)); [|lia].
    destruct (Z.eqb_spec (bucket_size np ndoms 0) 0); [lia|].
    destruct (Z.eqb_spec (bucket_size np ndoms 0) (-1)) as [|_]; [lia|]. rewrite andb_false_r.
    eexists. split; [reflexivity|].
    pose proof (Z.rem_bound_pos_neg rank (bucket_size np ndoms 0) ltac:(lia) ltac:(lia)).
    lia.
Qed.

Lemma map_to_domains_negative_index_witness :
  (- 2 ^ 31 <= -5 < 0 /\ 0 <= 10 < 2 ^ 31 /\ 0 < 3 < 2 ^ 31) /\
  exists pos,
    map_to_domains (-5) 10 3 (DomOut 0 0 0) =
      Ok (0, {| mapi := 0; np_in_dom := bucket_size 10 3 0; id_in_dom := pos |}) /\
    - bucket_size 10 3 0 < pos <= 0.
Proof.
  split; [lia|].
  exact (map_to_domains_negative_index (-5) 10 3 (DomOut 0 0 0)
           ltac:(lia) ltac:(lia) ltac:(lia)).
Defined.

End PartitionMapping.

(** ** Comma-separated lists *)

Section RenderFacts.
Import Render.

Lemma string_app_assoc (a b c : string) : (a +:+ b) +:+ c = a +:+ (b +:+ c).
Proof.
  induction a as [|x a IH]; [done|].
  change (String x ((a +:+ b) +:+ c) = String x (a +:+ b +:+ c)). by f_equal.
Qed.

Lemma concat_comma_merge (a b : string) (rest : list string) :
  String.concat "," ((a +:+ "," +:+ b) :: rest) = String.concat "," (a :: b :: rest).
Proof.
  destruct rest as [|r rs]; [done|].
  cbn [String.concat]. by rewrite !string_app_assoc.
Qed.

Lemma fold_commas (P : Z -> string) : forall (ds : list Z) (s0 : string),
  fold_left (fun s v => s +:+ "," +:+ P v) ds s0 = String.concat "," (s0 :: map P ds).
Proof.
  induction ds as [|d ds IH]; intros s0; [done|].
  cbn [fold_left map]. rewrite IH. apply concat_comma_merge.
Qed.

Lemma fold_add_item_Some : forall (l : list Z) (s : string),
  fold_left add_item l (Some s) =
    Some (fold_left (fun s v => s +:+ "," +:+ Gpu.print_d v) l s).
Proof.
  induction l as [|d l IH]; intros s; [done|].
  change (fold_left add_item (d :: l) (Some s))
    with (fold_left add_item l (Some (s +:+ "," +:+ Gpu.print_d d))).
  apply IH.
Qed.

Lemma fold_add_item (l : list Z) : fold_left add_item l None = comma_list l.
Proof.
  destruct l as [|d ds]; [done|].
  change (fold_left add_item (d :: ds) None)
    with (fold_left add_item ds (Some (Gpu.print_d d))).
  rewrite fold_add_item_Some, fold_commas. done.
Qed.

Lemma join_commas_concat (l : list Z) :
  Gpu.join_commas l = String.concat "," (map Gpu.print_d l).
Proof. destruct l as [|d ds]; [done|]. cbn [Gpu.join_commas]. apply fold_commas. Qed.

End RenderFacts.

(** ** [decimate_cpuset] and [get_gomp_str] on bitmaps *)

Section ReduceMore.
Import Hwloc Reduce Gomp Render.

Lemma members_from_nonneg b i j : j ∈ members_from i b -> i <= j.
Proof. destruct b; cbn; try by intros ?%elem_of_nil. apply Pmembers_lower. Qed.

(** What [reduce_cpuset] returns on a finite bitmap. *)
Lemma reduce_cpuset_spec num_threads cpuset :
  0 <= cpuset -> 0 <= num_threads < 2 ^ 32 -> hwloc_bitmap_weight cpuset < 2 ^ 31 ->
  exists final,
    reduce_cpuset num_threads cpuset = Ok final /\ 0 <= final /\
    members final = take (Z.to_nat num_threads) (members cpuset).
Proof.
  intros Hc Ht Hw. destruct cpuset as [|p|p]; [| |lia].
  - exists 0. change (members 0) with (@nil Z). rewrite take_nil.
    unfold reduce_cpuset, decimate_cpuset.
    destruct (num_threads =? 1); [done|].
    cbn [hwloc_bitmap_weight]. rewrite wrap32_id, wrapu32_id by (cbv; split; congruence).
    destruct (Z.leb_spec 0 num_threads); [done|lia].
  - cbn [hwloc_bitmap_weight] in Hw. unfold reduce_cpuset.
    destruct (Z.eqb_spec num_threads 1) as [->|Hne].
    + exists (2 ^ Pfirst p). rewrite singlify_spec.
      pose proof (Pfirst_nonneg p) as Hf.
      split; [done|]. split; [apply Z.pow_nonneg; lia|].
      rewrite <- (Z2Nat.id (Pfirst p)) by done.
      unfold members. rewrite members_from_pow2. cbn [members_from].
      pose proof (Pmembers_head p 0) as Hh.
      destruct (Pmembers 0 p) as [|x l]; [done|].
      cbn in Hh. injection Hh as ->. cbn. rewrite Z2Nat.id by done. done.
    + exists (Pkeep num_threads p). rewrite decimate_cpuset_spec by (done || lia).
      split; [done|]. split; [apply Pkeep_nonneg|].
      unfold members. rewrite members_Pkeep by lia. done.
Qed.

(** X5: on a finite bitmap (the empty one included) the reduction only
    clears units, and reducing its result again changes nothing. *)
Theorem reduce_cpuset_idempotent (num_threads : Z) (cpuset : Hwloc.hwloc_bitmap_t) :
  0 <= cpuset -> 0 <= num_threads < 2 ^ 32 -> hwloc_bitmap_weight cpuset < 2 ^ 31 ->
  exists final,
    reduce_cpuset num_threads cpuset = Ok final /\
    (forall u, hwloc_bitmap_isset final u = true -> hwloc_bitmap_isset cpuset u = true) /\
    reduce_cpuset num_threads final = Ok final.
Proof.
  intros Hc Ht Hw.
  destruct (reduce_cpuset_spec num_threads cpuset Hc Ht Hw) as (final & H1 & Hf & Hm).
  exists final. split; [done|]. split.
  - intros u Hu. apply members_spec; [done|]. apply members_spec in Hu; [|done].
    rewrite Hm in Hu. by apply elem_of_take in Hu as (i & ?%list_elem_of_lookup_2 & _).
  - assert (Hlen : hwloc_bitmap_weight final <= hwloc_bitmap_weight cpuset).
    { rewrite <- !length_members by done. rewrite Hm, length_take. lia. }
    destruct (reduce_cpuset_spec num_threads final Hf Ht ltac:(lia)) as (final' & H2 & Hf' & Hm').
    rewrite H2. f_equal.
    assert (Hmm : members final' = members final).
    { rewrite Hm', Hm. rewrite take_take. f_equal. lia. }
    apply Z.bits_inj'. intros u Hu.
    apply eq_true_iff_eq. change (hwloc_bitmap_isset final' u = true <->
                                  hwloc_bitmap_isset final u = true).
    rewrite <- !members_spec by done. by rewrite Hmm.
Qed.

Lemma reduce_cpuset_idempotent_witness :
  (0 <= 182 /\ 0 <= 3 < 2 ^ 32 /\ hwloc_bitmap_weight 182 < 2 ^ 31) /\
  exists final,
    reduce_cpuset 3 182 = Ok final /\ reduce_cpuset 3 final = Ok final.
Proof.
  split; [repeat split; (lia || reflexivity)|].
  destruct (reduce_cpuset_idempotent 3 182 ltac:(lia) ltac:(lia) ltac:(reflexivity))
    as (final & H1 & _ & H2).
  exists final. split; assumption.
Defined.

End ReduceMore.

Section GompFacts.
Import Hwloc Gomp Render.

Lemma gomp_loop_end j cpuset str : gomp_loop j cpuset (-1) str = str.
Proof. by destruct j. Qed.

(** The loop started at the first index of the part [p] of the bitmap
    that lies at and above position [k]. *)
Lemma gomp_loop_spec p : forall lo k j str,
  0 <= k -> 0 <= lo < 2 ^ k ->
  gomp_loop j (lo + 2 ^ k * Zpos p) (k + Pfirst p) str =
    fold_left add_item (take j (Pmembers k p)) str.
Proof.
  induction p as [q IH|q IH|]; intros lo k j str Hk Hlo;
    assert (Hpow : 2 ^ (k + 1) = 2 * 2 ^ k) by (rewrite Z.pow_add_r; lia).
  - cbn [Pfirst Pmembers]. rewrite Z.add_0_r.
    destruct j as [|j]; [done|]. cbn [gomp_loop take fold_left].
    destruct (Z.eqb_spec k (-1)); [lia|].
    change (Z.pos q~1) with (2 * Z.pos q + 1).
    replace (lo + 2 ^ k * (2 * Z.pos q + 1))
      with ((lo + 2 ^ k) + 2 ^ (k + 1) * Z.pos q) by lia.
    unfold hwloc_bitmap_next. rewrite shiftr_split by lia.
    cbn [Z.eqb hwloc_bitmap_first]. rewrite IH by lia. done.
  - cbn [Pfirst Pmembers]. change (Z.pos q~0) with (2 * Z.pos q).
    replace (lo + 2 ^ k * (2 * Z.pos q)) with (lo + 2 ^ (k + 1) * Z.pos q) by lia.
    replace (k + (1 + Pfirst q)) with (k + 1 + Pfirst q) by lia.
    apply IH; lia.
  - cbn [Pfirst Pmembers]. rewrite Z.add_0_r.
    destruct j as [|j]; [done|]. cbn [gomp_loop take fold_left].
    destruct (Z.eqb_spec k (-1)); [lia|].
    replace (lo + 2 ^ k * 1) with ((lo + 2 ^ k) + 2 ^ (k + 1) * 0) by lia.
    unfold hwloc_bitmap_next. rewrite shiftr_split by lia.
    cbn [Z.eqb]. rewrite gomp_loop_end, take_nil. done.
Qed.

(** X6: for a finite bitmap [get_gomp_str] returns the first
    [num_threads] indices of the bitmap, in ascending order, in decimal
    and separated by commas; it returns [NULL] exactly when there is no
    such index (an empty bitmap, or a thread count that is not
    positive as an [int32_t]). *)
Theorem get_gomp_str_lists (num_threads : Z) (cpuset : Hwloc.hwloc_bitmap_t) :
  0 <= cpuset ->
  get_gomp_str num_threads cpuset =
    comma_list (take (Z.to_nat (wrap32 num_threads)) (members cpuset)) /\
  (get_gomp_str num_threads cpuset = None <->
   cpuset = 0 \/ wrap32 num_threads <= 0).
Proof.
  intros Hc.
  assert (E : get_gomp_str num_threads cpuset =
              comma_list (take (Z.to_nat (wrap32 num_threads)) (members cpuset))).
  { unfold get_gomp_str. destruct cpuset as [|p|p]; [| |lia].
    - cbn [hwloc_bitmap_first]. rewrite gomp_loop_end.
      change (members 0) with (@nil Z). by rewrite take_nil.
    - pose proof (gomp_loop_spec p 0 0 (Z.to_nat (wrap32 num_threads)) None
                    ltac:(lia) ltac:(lia)) as H.
      rewrite Z.pow_0_r, !Z.add_0_l, Z.mul_1_l in H.
      cbn [hwloc_bitmap_first]. rewrite H. apply fold_add_item. }
  split; [done|]. rewrite E. split.
  - intros H. destruct cpuset as [|p|p]; [by left| |lia]. right.
    unfold members in H. cbn [members_from] in H.
    pose proof (Pmembers_head p 0) as Hh.
    destruct (Pmembers 0 p) as [|x l]; [done|].
    destruct (Z.to_nat (wrap32 num_threads)) eqn:En; [lia|done].
  - intros [->|Hn].
    + change (members 0) with (@nil Z). by rewrite take_nil.
    + by replace (Z.to_nat (wrap32 num_threads)) with 0%nat by lia.
Qed.

Lemma get_gomp_str_lists_witness :
  0 <= 182 /\ get_gomp_str 3 182 = Some "1,2,4"%string.
Proof.
  split; [lia|].
  rewrite (proj1 (get_gomp_str_lists 3 182 ltac:(lia))). reflexivity.
Defined.

End GompFacts.

(** ** The pool of units *)

Section PoolFacts.
Import Hwloc Topology Plugin TaskInit.

(** The cores an explicit list picks: [pre] are the cores before index
    [length pre], already looked at. *)
Lemma pick_cores_spec bits lsize : forall cores pre acc n cpusets n',
  pick_cores cores (Z.of_nat (length pre)) bits lsize acc n = Ok (cpusets, n') ->
  0 <= n -> n + Z.of_nat (length cores) < 2 ^ 32 ->
  exists new,
    cpusets = acc ++ new /\ n' = n + Z.of_nat (length new) /\
    (new <> [] -> n' <= lsize) /\
    Forall2 (fun c i => (pre ++ cores) !! i = Some (Some c)) new
      (List.filter (fun i => hwloc_bitmap_isset bits (Z.of_nat i))
                   (seq (length pre) (length cores))).
Proof.
  induction cores as [|obj cores IH]; intros pre acc n cpusets n' H Hn Hlen.
  - injection H as <- <-. exists []. rewrite app_nil_r. cbn.
    repeat split; [lia|done|constructor].
  - cbn [pick_cores length seq List.filter] in *.
    replace (Z.of_nat (length pre) + 1) with (Z.of_nat (length (pre ++ [obj]))) in H
      by (rewrite length_app; cbn; lia).
    assert (Hcons : pre ++ obj :: cores = (pre ++ [obj]) ++ cores)
      by (by rewrite <- app_assoc).
    assert (Hseq : S (length pre) = length (pre ++ [obj]))
      by (rewrite length_app; cbn; lia).
    destruct (hwloc_bitmap_isset bits (Z.of_nat (length pre))).
    + destruct obj as [c|]; [|done].
      destruct (Z.ltb_spec n lsize); [|done].
      rewrite wrapu32_id in H by (unfold in_uint32; lia).
      apply IH in H as (new & -> & -> & Hle & Hall); [|lia|lia].
      exists (c :: new). rewrite <- app_assoc. cbn [app length].
      split; [done|]. split; [lia|]. split.
      * intros _. destruct new; [cbn; lia|]. apply Hle. done.
      * constructor.
        -- rewrite lookup_app_r by lia. by rewrite Nat.sub_diag.
        -- rewrite Hcons, Hseq. exact Hall.
    + apply IH in H as (new & -> & -> & Hle & Hall); [|lia|lia].
      exists new. split; [done|]. split; [done|]. split; [done|].
      rewrite Hcons, Hseq. exact Hall.
Qed.

(** The search for a depth: either it stops at the first level with
    enough objects, or no level has enough and it ends with the size of
    the last one. *)
Lemma find_depth_spec threads : forall levels d0 ls0 d ls,
  find_depth levels d0 threads ls0 = (d, ls) ->
  (exists k level,
      levels !! k = Some level /\ d = d0 + Z.of_nat k /\
      ls = Z.of_nat (length level) /\ threads <= ls /\
      forall k' l', (k' < k)%nat -> levels !! k' = Some l' ->
                    Z.of_nat (length l') < threads) \/
  (d = d0 + Z.of_nat (length levels) /\
   ls = from_option (fun l => Z.of_nat (length l)) ls0 (last levels) /\
   forall k' l', levels !! k' = Some l' -> Z.of_nat (length l') < threads).
Proof.
  induction levels as [|level levels IH]; intros d0 ls0 d ls H; cbn [find_depth] in H.
  - injection H as <- <-. right. cbn. repeat split; [lia|]. by intros k' l' ?.
  - destruct (Z.leb_spec threads (Z.of_nat (length level))) as [Hle|Hlt].
    + injection H as <- <-. left. exists 0%nat, level.
      repeat split; try done; [lia|]. intros; lia.
    + apply IH in H as [(k & lv & Hk & -> & -> & Hth & Hbefore)|(-> & -> & Hall)].
      * left. exists (S k), lv. repeat split; try done; [lia|].
        intros [|k'] l' Hk' Hl'; cbn in Hl'; [by injection Hl' as <-|].
        apply (Hbefore k'); [lia|done].
      * right. split; [cbn [length]; lia|]. split.
        -- destruct levels as [|l2 ls2]; [done|].
           change (last (level :: l2 :: ls2)) with (last (l2 :: ls2)).
           by destruct (last (l2 :: ls2)) eqn:El; [|apply last_None in El].
        -- intros [|k'] l' Hl'; cbn in Hl'; [by injection Hl' as <-|]. by eapply Hall.
Qed.

Lemma collect_level_spec level : forall n i acc cpusets,
  collect_level n (Z.of_nat i) level acc = Ok cpusets ->
  exists new,
    cpusets = acc ++ new /\ length new = n /\
    Some <$> new = take n (drop i level).
Proof.
  induction n as [|n IH]; intros i acc cpusets H; cbn [collect_level] in H.
  - injection H as <-. exists []. by rewrite app_nil_r.
  - rewrite Nat2Z.id in H.
    destruct (level !! i) as [[c|]|] eqn:E; [|done|done].
    replace (Z.of_nat i + 1) with (Z.of_nat (S i)) in H by lia.
    apply IH in H as (new & -> & Hlen & Htake).
    exists (c :: new). rewrite <- app_assoc. split; [done|]. split; [cbn; lia|].
    rewrite (drop_S _ _ _ E). cbn. by rewrite Htake.
Qed.

End PoolFacts.

Section PoolClaims.
Import Hwloc Topology Plugin TaskInit Node.

(** X7: with an explicit list of cores the pool holds the cpusets of
    exactly the cores of the node whose index is in the list, in
    ascending index order; [num_cores] is their number and
    [level_size] shrinks to it when fewer cores were found than the
    list asked for. *)
Theorem unit_pool_explicit (topo : Topology.topology) (g g' : Plugin.globals)
    (bits : Hwloc.hwloc_bitmap_t) (cpusets : list Hwloc.hwloc_bitmap_t) :
  explicit_cores g = Some bits ->
  Z.of_nat (length (topo_cores topo)) < 2 ^ 32 ->
  unit_pool topo g = Ok (g', cpusets) ->
  Forall2 (fun c i => topo_cores topo !! i = Some (Some c)) cpusets
    (List.filter (fun i => hwloc_bitmap_isset bits (Z.of_nat i))
                 (seq 0 (length (topo_cores topo)))) /\
  num_cores g' = Z.of_nat (length cpusets) /\
  level_size g' = Z.min (level_size g) (Z.of_nat (length cpusets)).
Proof.
  intros He Hlen H. unfold unit_pool in H. rewrite He in H.
  unfold select_cores in H. apply obind_inv in H as ([cs n] & Hp & H).
  apply (pick_cores_spec bits (level_size g) (topo_cores topo) []) in Hp
    as (new & -> & -> & Hle & Hall); [|lia|lia].
  cbn [app length] in *. rewrite Z.add_0_l in *.
  injection H as <- <-. split; [exact Hall|].
  cbn [level_size set_num_cores].
  destruct (Z.ltb_spec (Z.of_nat (length new)) (level_size g));
    cbn [num_cores level_size set_num_cores set_level_size]; split; try done; try lia.
Qed.

Lemma unit_pool_explicit_witness :
  (explicit_cores (set_level_size 4 (set_cpubits (Some 15) initial_globals)) = Some 15 /\
   Z.of_nat (length (topo_cores topo16)) < 2 ^ 32 /\
   unit_pool topo16 (set_level_size 4 (set_cpubits (Some 15) initial_globals)) =
     Ok (set_num_cores 4 (set_level_size 4 (set_cpubits (Some 15) initial_globals)),
         [1; 2; 4; 8])) /\
  num_cores (set_num_cores 4 (set_level_size 4 (set_cpubits (Some 15) initial_globals)))
    = Z.of_nat (length [1; 2; 4; 8]).
Proof.
  assert (H1 : explicit_cores (set_level_size 4 (set_cpubits (Some 15) initial_globals))
               = Some 15) by reflexivity.
  assert (H2 : Z.of_nat (length (topo_cores topo16)) < 2 ^ 32) by (vm_compute; reflexivity).
  assert (H3 : unit_pool topo16 (set_level_size 4 (set_cpubits (Some 15) initial_globals)) =
     Ok (set_num_cores 4 (set_level_size 4 (set_cpubits (Some 15) initial_globals)),
         [1; 2; 4; 8])) by (vm_compute; reflexivity).
  split; [repeat split; assumption|].
  exact (proj1 (proj2 (unit_pool_explicit topo16 _ _ 15 [1; 2; 4; 8] H1 H2 H3))).
Defined.

(** X8: without an explicit list the pool is one whole level of the
    topology, objects in enumeration order: the shallowest level with at
    least [local_threads] objects, or the deepest level when no level
    has that many; [level_size] is its size and [num_cores] the number
    of cores of the node. *)
Theorem unit_pool_by_depth (topo : Topology.topology) (g g' : Plugin.globals)
    (cpusets : list Hwloc.hwloc_bitmap_t) :
  explicit_cores g = None -> topo_levels topo <> [] ->
  Z.of_nat (length (topo_levels topo)) < 2 ^ 32 ->
  unit_pool topo g = Ok (g', cpusets) ->
  exists (d : nat) level,
    topo_levels topo !! d = Some level /\ level = Some <$> cpusets /\
    level_size g' = Z.of_nat (length cpusets) /\
    num_cores g' = Z.of_nat (length (topo_cores topo)) /\
    ((local_threads g <= Z.of_nat (length level) /\
      forall d' l', (d' < d)%nat -> topo_levels topo !! d' = Some l' ->
                    Z.of_nat (length l') < local_threads g) \/
     (S d = length (topo_levels topo) /\
      forall d' l', topo_levels topo !! d' = Some l' ->
                    Z.of_nat (length l') < local_threads g)).
Proof.
  intros He Hne Hlen H. unfold unit_pool in H. rewrite He in H.
  unfold select_by_depth in H.
  cbn [local_threads level_size set_num_cores] in H.
  destruct (find_depth (topo_levels topo) 0 (local_threads g) (level_size g))
    as [depth lsize] eqn:Ef.
  apply obind_inv in H as (cs & Hc & H). injection H as <- <-.
  cbn [level_size num_cores set_level_size set_num_cores].
  apply find_depth_spec in Ef
    as [(k & level & Hk & -> & -> & Hth & Hbefore)|(-> & -> & Hall)].
  - (* a level with enough objects *)
    pose proof (lookup_lt_Some _ _ _ Hk) as Hkl.
    destruct (Z.eqb_spec (0 + Z.of_nat k) (Z.of_nat (length (topo_levels topo)))); [lia|].
    rewrite Z.add_0_l, !Nat2Z.id, Hk in Hc. cbn [default from_option] in Hc.
    apply (collect_level_spec level _ 0%nat) in Hc as (new & -> & Hn & Htake).
    rewrite drop_0, take_ge in Htake by lia. cbn [app].
    exists k, level. repeat split; try done; try lia. by left.
  - (* no level has enough: the deepest one *)
    destruct (topo_levels topo) as [|l0 ls] eqn:El using rev_ind; [done|].
    clear IHls. rewrite last_snoc in Hc |- *. cbn [from_option] in Hc |- *.
    rewrite length_app in Hc, Hlen |- *. cbn [length] in Hc, Hlen |- *.
    rewrite Z.add_0_l, Z.eqb_refl in Hc.
    rewrite wrapu32_id in Hc by (unfold in_uint32; lia).
    replace (Z.to_nat (Z.of_nat (length ls + 1) - 1)) with (length ls + 0)%nat in Hc by lia.
    rewrite lookup_app_r, Nat.add_comm, Nat.add_sub in Hc by lia.
    cbn [lookup list_lookup default from_option] in Hc. rewrite Nat2Z.id in Hc.
    apply (collect_level_spec l0 _ 0%nat) in Hc as (new & -> & Hn & Htake).
    rewrite drop_0, take_ge in Htake by lia. cbn [app].
    exists (length ls), l0. split.
    { rewrite lookup_app_r by lia. by rewrite Nat.sub_diag. }
    repeat split; try done; try lia. right. split; [lia|done].
Qed.

Lemma unit_pool_by_depth_witness :
  (explicit_cores (set_local_threads 4 initial_globals) = None /\
   topo_levels topo16 <> [] /\
   Z.of_nat (length (topo_levels topo16)) < 2 ^ 32 /\
   unit_pool topo16 (set_local_threads 4 initial_globals) =
     Ok (set_level_size 16 (set_num_cores 16 (set_local_threads 4 initial_globals)),
         map (fun i => 2 ^ Z.of_nat i) (seq 0 16))) /\
  exists (d : nat) level,
    topo_levels topo16 !! d = Some level /\
    level = Some <$> map (fun i => 2 ^ Z.of_nat i) (seq 0 16).
Proof.
  assert (H1 : explicit_cores (set_local_threads 4 initial_globals) = None) by reflexivity.
  assert (H2 : topo_levels topo16 <> []) by discriminate.
  assert (H3 : Z.of_nat (length (topo_levels topo16)) < 2 ^ 32) by (vm_compute; reflexivity).
  assert (H4 : unit_pool topo16 (set_local_threads 4 initial_globals) =
     Ok (set_level_size 16 (set_num_cores 16 (set_local_threads 4 initial_globals)),
         map (fun i => 2 ^ Z.of_nat i) (seq 0 16))) by (vm_compute; reflexivity).
  split; [repeat split; assumption|].
  destruct (unit_pool_by_depth topo16 _ _ _ H1 H2 H3 H4) as (d & level & Hd & Hl & _).
  exists d, level. split; assumption.
Defined.

End PoolClaims.

(** ** The device string of a task *)

Section GpuStringFacts.
Import Partition Topology Gpu GpuInv Render.

Lemma bucket_size_bounds total ndoms d :
  0 <= total -> 0 < ndoms -> 0 <= bucket_size total ndoms d <= total / ndoms + 1.
Proof.
  intros Ht Hn. unfold bucket_size.
  pose proof (Z.div_pos total ndoms Ht Hn).
  destruct (d <? total mod ndoms); lia.
Qed.

Lemma bucket_size_pos total ndoms d :
  0 < ndoms <= total -> 1 <= bucket_size total ndoms d.
Proof.
  intros Hn. unfold bucket_size.
  assert (1 <= total / ndoms) by (apply Z.div_le_lower_bound; lia).
  destruct (d <? total mod ndoms); lia.
Qed.

Lemma bucket_start_nonneg total ndoms d :
  0 <= total -> 0 < ndoms -> 0 <= d -> 0 <= bucket_start total ndoms d.
Proof.
  intros Ht Hn Hd.
  pose proof (bucket_start_mono total ndoms 0 d Ht Hn ltac:(lia)) as H.
  by change (bucket_start total ndoms 0) with 0 in H.
Qed.

(** An index inside the range of bucket [d] is mapped to [d]. *)
Lemma map_to_domains_in_bucket rank np ndoms d o :
  0 <= np < 2 ^ 31 -> 0 < ndoms < 2 ^ 31 -> 0 <= d < ndoms ->
  bucket_start np ndoms d <= rank < bucket_start np ndoms d + bucket_size np ndoms d ->
  map_to_domains rank np ndoms o =
    Ok (0, {| mapi := d; np_in_dom := bucket_size np ndoms d;
              id_in_dom := rank - bucket_start np ndoms d |}).
Proof.
  intros Hnp Hn Hd Hr.
  pose proof (bucket_end_le_total np ndoms d ltac:(lia) ltac:(lia) Hd) as Hend.
  pose proof (bucket_start_nonneg np ndoms d ltac:(lia) ltac:(lia) ltac:(lia)) as H0.
  destruct (map_to_domains_valid rank np ndoms o ltac:(lia) ltac:(lia) Hn)
    as (d' & Hd' & Hr' & ->).
  assert (d' = d) as ->; [|done].
  apply (bucket_range_unique np ndoms rank); try lia; done.
Qed.

(** What a successful call tells about the domain it returns. *)
Lemma map_to_domains_result rank np ndoms o out :
  0 <= rank < np -> np < 2 ^ 31 -> 0 < ndoms < 2 ^ 31 ->
  map_to_domains rank np ndoms o = Ok (0, out) ->
  0 <= mapi out < ndoms /\
  np_in_dom out = bucket_size np ndoms (mapi out) /\
  id_in_dom out = rank - bucket_start np ndoms (mapi out) /\
  bucket_start np ndoms (mapi out) <= rank
    < bucket_start np ndoms (mapi out) + bucket_size np ndoms (mapi out).
Proof.
  intros Hr Hnp Hn H.
  destruct (map_to_domains_valid rank np ndoms o Hr Hnp Hn) as (d & Hd & Hrange & E).
  rewrite H in E. injection E as ->. by cbn.
Qed.

(** The inner loop of case 2 from a cell [j] after the first one. *)
Lemma list_gpus_from row : forall n j s,
  0 < j -> j + Z.of_nat n <= Z.of_nat (length row) ->
  list_gpus n j row (Some s) =
    Ok (fold_left add_item (take n (drop (Z.to_nat j) row)) (Some s)).
Proof.
  induction n as [|n IH]; intros j s Hj Hn; [done|].
  cbn [list_gpus].
  destruct (lookup_lt_is_Some_2 row (Z.to_nat j) ltac:(lia)) as [v Hv].
  rewrite (zget_Ok row j v ltac:(lia) Hv). osimpl.
  destruct (Z.eqb_spec j 0); [lia|]. rewrite IH by lia.
  rewrite (drop_S _ _ _ Hv). replace (Z.to_nat (j + 1)) with (S (Z.to_nat j)) by lia.
  done.
Qed.

(** The inner loop of case 2 writes the first [n] cells of the row,
    whatever the string held before. *)
Lemma list_gpus_all row n str :
  (0 < n <= length row)%nat ->
  list_gpus n 0 row str = Ok (Some (String.concat "," (map print_d (take n row)))).
Proof.
  intros Hn. destruct n as [|n]; [lia|]. destruct row as [|v row]; [cbn in Hn; lia|].
  cbn [list_gpus]. rewrite (zget_Ok (v :: row) 0 v ltac:(lia) eq_refl). osimpl.
  change (0 =? 0) with true. cbv iota.
  rewrite list_gpus_from by (cbn [length] in *; lia).
  change (Z.to_nat (0 + 1)) with 1%nat. cbn [drop take].
  rewrite fold_add_item_Some, fold_commas. done.
Qed.

(** The outer loop of case 2: the string is written as soon as one of
    the devices [i .. ngpus - 1] belongs to the task, and each time with
    the same list. *)
Lemma gpus_of_task_spec ngpus np id row full :
  0 < np -> np <= ngpus -> ngpus < 2 ^ 31 -> 0 <= id < np ->
  (forall str, list_gpus (Z.to_nat ngpus) 0 row str = Ok (Some full)) ->
  forall n i str,
    0 <= i -> i + Z.of_nat n = ngpus ->
    gpus_of_task n i ngpus np id row str =
      Ok (if i <? bucket_start ngpus np id + bucket_size ngpus np id
          then Some full else str).
Proof.
  intros Hnp Hle Hng Hid Hlist.
  pose proof (bucket_size_pos ngpus np id ltac:(lia)) as Hsz.
  pose proof (bucket_end_le_total ngpus np id ltac:(lia) ltac:(lia) Hid) as Hend.
  induction n as [|n IH]; intros i str Hi Hn.
  - cbn [gpus_of_task].
    destruct (Z.ltb_spec i (bucket_start ngpus np id + bucket_size ngpus np id)); [lia|done].
  - cbn [gpus_of_task]. rewrite !wrap32_id by (unfold in_int32; lia).
    destruct (map_to_domains_valid i ngpus np (DomOut 0 0 0) ltac:(lia) Hng ltac:(lia))
      as (d & Hd & Hr & ->).
    osimpl. change (negb (0 =? 0)) with false. cbv iota. cbn [mapi].
    destruct (Z.eqb_spec id d) as [<-|Hne].
    + rewrite Hlist. osimpl. rewrite IH by lia.
      destruct (Z.ltb_spec i (bucket_start ngpus np id + bucket_size ngpus np id)); [|lia].
      by destruct (_ <? _).
    + osimpl. rewrite IH by lia.
      destruct (Z.ltb_spec i (bucket_start ngpus np id + bucket_size ngpus np id)) as [Hlt|Hge];
        destruct (Z.ltb_spec (i + 1) (bucket_start ngpus np id + bucket_size ngpus np id));
        try done; try lia.
      (* [i] would be the last device of the task *)
      exfalso. apply Hne.
      apply (bucket_range_unique ngpus np i); try lia; done.
Qed.

(** Case 1 of [gpu_string]: the task at position [p] of domain [d] is
    given the device of the bucket [g] its position falls in. *)
Lemma gpu_string_case1 t numas cap rank size d m g v :
  tables_wf numas cap cap t -> cap < 2 ^ 31 ->
  0 <= size < 2 ^ 31 -> 0 < numas < 2 ^ 31 -> 0 <= d < numas ->
  bucket_start size numas d <= rank
    < bucket_start size numas d + bucket_size size numas d ->
  gpus_per_numa t !! Z.to_nat d = Some m -> 1 <= m <= bucket_size size numas d ->
  0 <= g < m ->
  bucket_start (bucket_size size numas d) m g <= rank - bucket_start size numas d
    < bucket_start (bucket_size size numas d) m g + bucket_size (bucket_size size numas d) m g ->
  numa_gpus t d !! Z.to_nat g = Some v ->
  gpu_string t numas rank size = Ok (print_d v).
Proof.
  intros Hwf Hcap Hsize Hnumas Hd Hr Hm Hm1 Hg Hp Hv.
  pose proof (bucket_end_le_total size numas d ltac:(lia) ltac:(lia) Hd) as Hend.
  pose proof (bucket_start_nonneg size numas d ltac:(lia) ltac:(lia) ltac:(lia)) as H0.
  unfold gpu_string. rewrite !wrap32_id by (unfold in_int32; lia).
  rewrite (map_to_domains_in_bucket rank size numas d _ Hsize Hnumas Hd Hr).
  osimpl. change (negb (0 =? 0)) with false. cbv iota.
  cbn [mapi np_in_dom id_in_dom].
  rewrite (zget_Ok (gpus_per_numa t) d m ltac:(lia) Hm). osimpl.
  rewrite wrapu32_id by (unfold in_uint32; lia).
  destruct (Z.leb_spec m (bucket_size size numas d)); [|lia].
  rewrite wrap32_id by (unfold in_int32; lia).
  rewrite (map_to_domains_in_bucket _ (bucket_size size numas d) m g _
             ltac:(lia) ltac:(lia) Hg Hp).
  osimpl. change (negb (0 =? 0)) with false. cbv iota. cbn [mapi].
  unfold numa_gpus in Hv. rewrite Hm in Hv.
  destruct (gpus_in_numa t !! Z.to_nat d) as [row|] eqn:Hrow; [|done].
  apply lookup_take_Some in Hv as [Hv _].
  unfold get2. rewrite (zget_Ok (gpus_in_numa t) d row ltac:(lia) Hrow). osimpl.
  rewrite (zget_Ok row g v ltac:(lia) Hv). done.
Qed.

(** Case 2 of [gpu_string]: the whole list of the domain. *)
Lemma gpu_string_case2 t numas cap rank size d m :
  tables_wf numas cap cap t -> cap < 2 ^ 31 ->
  0 <= size < 2 ^ 31 -> 0 < numas < 2 ^ 31 -> 0 <= d < numas ->
  bucket_start size numas d <= rank
    < bucket_start size numas d + bucket_size size numas d ->
  gpus_per_numa t !! Z.to_nat d = Some m -> bucket_size size numas d < m ->
  gpu_string t numas rank size =
    Ok (String.concat "," (map print_d (numa_gpus t d))).
Proof.
  intros Hwf Hcap Hsize Hnumas Hd Hr Hm Hm1.
  pose proof (bucket_end_le_total size numas d ltac:(lia) ltac:(lia) Hd) as Hend.
  pose proof (bucket_start_nonneg size numas d ltac:(lia) ltac:(lia) ltac:(lia)) as H0.
  pose proof (Forall_lookup_1 _ _ _ _ (wf_cnt_numa _ _ _ _ Hwf) Hm) as Hmc. cbn in Hmc.
  destruct (lookup_lt_is_Some_2 (gpus_in_numa t) (Z.to_nat d)) as [row Hrow].
  { rewrite (wf_len_in_numa _ _ _ _ Hwf). lia. }
  pose proof (Forall_lookup_1 _ _ _ _ (wf_rows_numa _ _ _ _ Hwf) Hrow) as Hlen. cbn in Hlen.
  unfold gpu_string. rewrite !wrap32_id by (unfold in_int32; lia).
  rewrite (map_to_domains_in_bucket rank size numas d _ Hsize Hnumas Hd Hr).
  osimpl. change (negb (0 =? 0)) with false. cbv iota.
  cbn [mapi np_in_dom id_in_dom].
  rewrite (zget_Ok (gpus_per_numa t) d m ltac:(lia) Hm). osimpl.
  rewrite wrapu32_id by (unfold in_uint32; lia).
  destruct (Z.leb_spec m (bucket_size size numas d)); [lia|].
  rewrite (zget_Ok (gpus_in_numa t) d row ltac:(lia) Hrow). osimpl.
  rewrite (gpus_of_task_spec m (bucket_size size numas d)
             (rank - bucket_start size numas d) row
             (String.concat "," (map print_d (take (Z.to_nat m) row))));
    try lia.
  - pose proof (bucket_size_pos m (bucket_size size numas d)
                  (rank - bucket_start size numas d) ltac:(lia)).
    pose proof (bucket_start_nonneg m (bucket_size size numas d)
                  (rank - bucket_start size numas d) ltac:(lia) ltac:(lia) ltac:(lia)).
    destruct (Z.ltb_spec 0 (bucket_start m (bucket_size size numas d)
                              (rank - bucket_start size numas d)
                            + bucket_size m (bucket_size size numas d)
                                (rank - bucket_start size numas d))); [|lia].
    osimpl. by rewrite (numa_gpus_lookup _ _ _ _ Hm Hrow).
  - intros str. apply list_gpus_all. lia.
Qed.

(** Case 1 for a task in the range of domain [d]. *)
Lemma gpu_string_single t numas cap rank size d m :
  tables_wf numas cap cap t -> cap < 2 ^ 31 ->
  0 <= size < 2 ^ 31 -> 0 < numas < 2 ^ 31 -> 0 <= d < numas ->
  bucket_start size numas d <= rank
    < bucket_start size numas d + bucket_size size numas d ->
  gpus_per_numa t !! Z.to_nat d = Some m -> 1 <= m <= bucket_size size numas d ->
  exists g v,
    (0 <= g < m /\
     bucket_start (bucket_size size numas d) m g <= rank - bucket_start size numas d
       < bucket_start (bucket_size size numas d) m (g + 1)) /\
    numa_gpus t d !! Z.to_nat g = Some v /\
    gpu_string t numas rank size = Ok (print_d v).
Proof.
  intros Hwf Hcap Hsize Hnumas Hd Hrange Hm Hm1.
  pose proof (bucket_end_le_total size numas d ltac:(lia) ltac:(lia) Hd) as Hend.
  pose proof (bucket_start_nonneg size numas d ltac:(lia) ltac:(lia) ltac:(lia)) as H0.
  destruct (map_to_domains_valid (rank - bucket_start size numas d)
              (bucket_size size numas d) m (DomOut 0 0 0)
              ltac:(lia) ltac:(lia) ltac:(lia)) as (g & Hg & Hp & _).
  pose proof (Forall_lookup_1 _ _ _ _ (wf_cnt_numa _ _ _ _ Hwf) Hm) as Hmc. cbn in Hmc.
  destruct (lookup_lt_is_Some_2 (gpus_in_numa t) (Z.to_nat d)) as [row Hrow].
  { rewrite (wf_len_in_numa _ _ _ _ Hwf). lia. }
  pose proof (Forall_lookup_1 _ _ _ _ (wf_rows_numa _ _ _ _ Hwf) Hrow) as Hlen. cbn in Hlen.
  destruct (lookup_lt_is_Some_2 (numa_gpus t d) (Z.to_nat g)) as [v Hv].
  { rewrite (numa_gpus_lookup _ _ _ _ Hm Hrow), length_take. lia. }
  exists g, v. split; [split; [done|by rewrite bucket_start_succ by lia]|].
  split; [done|].
  apply (gpu_string_case1 t numas cap rank size d m g v); try done; lia.
Qed.

End GpuStringFacts.

Section GpuStringClaims.
Import Partition Topology Gpu GpuInv Devices.

Lemma shared_tables_wf : tables_wf 2 2 2 shared_tables.
Proof. split; cbn; repeat (constructor || lia). Qed.

(** X9: when the NUMA domain of a task has at least as many tasks as
    devices, the task is given exactly one device of the list of its
    domain: the tasks of the domain are dealt out over the devices by
    [map_to_domains], and the task whose position falls into bucket
    [g] gets the device at index [g] of the list. *)
Theorem gpu_string_one_device (t : Gpu.gpu_tables) (numas cap rank size : Z)
    (numa : Partition.dom_out) (m : Z) :
  tables_wf numas cap cap t -> cap < 2 ^ 31 ->
  0 <= rank < size -> size < 2 ^ 31 -> 0 < numas < 2 ^ 31 ->
  map_to_domains rank size numas (DomOut 0 0 0) = Ok (0, numa) ->
  gpus_per_numa t !! Z.to_nat (mapi numa) = Some m -> 1 <= m <= np_in_dom numa ->
  exists g v,
    0 <= g < m /\
    bucket_start (np_in_dom numa) m g <= id_in_dom numa
      < bucket_start (np_in_dom numa) m (g + 1) /\
    numa_gpus t (mapi numa) !! Z.to_nat g = Some v /\
    gpu_string t numas rank size = Ok (print_d v).
Proof.
  intros Hwf Hcap Hr Hsize Hnumas Hmap Hm Hm1.
  destruct (map_to_domains_result rank size numas _ numa Hr Hsize Hnumas Hmap)
    as (Hd & Hnp & Hid & Hrange).
  rewrite Hnp, Hid in *.
  destruct (gpu_string_single t numas cap rank size (mapi numa) m
              Hwf Hcap ltac:(lia) Hnumas Hd Hrange Hm Hm1)
    as (g & v & [Hg Hp] & Hv & E).
  by exists g, v.
Qed.

Lemma gpu_string_one_device_witness :
  (tables_wf 2 2 2 shared_tables /\ 2 < 2 ^ 31 /\ 0 <= 5 < 8 /\ 8 < 2 ^ 31 /\
   0 < 2 < 2 ^ 31 /\
   map_to_domains 5 8 2 (DomOut 0 0 0) = Ok (0, DomOut 1 4 1) /\
   gpus_per_numa shared_tables !! Z.to_nat (mapi (DomOut 1 4 1)) = Some 2 /\
   1 <= 2 <= np_in_dom (DomOut 1 4 1)) /\
  exists g v,
    0 <= g < 2 /\
    bucket_start (np_in_dom (DomOut 1 4 1)) 2 g <= id_in_dom (DomOut 1 4 1)
      < bucket_start (np_in_dom (DomOut 1 4 1)) 2 (g + 1) /\
    numa_gpus shared_tables (mapi (DomOut 1 4 1)) !! Z.to_nat g = Some v /\
    gpu_string shared_tables 2 5 8 = Ok (print_d v).
Proof.
  assert (E : map_to_domains 5 8 2 (DomOut 0 0 0) = Ok (0, DomOut 1 4 1))
    by (vm_compute; reflexivity).
  assert (Em : gpus_per_numa shared_tables !! Z.to_nat (mapi (DomOut 1 4 1)) = Some 2)
    by reflexivity.
  assert (Hm : 1 <= 2 <= np_in_dom (DomOut 1 4 1)) by (cbn; lia).
  split; [split; [exact shared_tables_wf|repeat split; (lia || exact E || exact Em || apply Hm)]|].
  exact (gpu_string_one_device shared_tables 2 2 5 8 (DomOut 1 4 1) 2
           shared_tables_wf ltac:(lia) ltac:(lia) ltac:(lia) ltac:(lia) E Em Hm).
Defined.

(** X10: when a NUMA domain has at least as many tasks as devices,
    every device of its list is given to some task of the domain. *)
Theorem gpu_string_covers_devices (t : Gpu.gpu_tables) (numas cap size d m v : Z) :
  tables_wf numas cap cap t -> cap < 2 ^ 31 ->
  0 <= size < 2 ^ 31 -> 0 < numas < 2 ^ 31 -> 0 <= d < numas ->
  gpus_per_numa t !! Z.to_nat d = Some m -> 1 <= m <= bucket_size size numas d ->
  v ∈ numa_gpus t d ->
  exists rank numa,
    0 <= rank < size /\
    map_to_domains rank size numas (DomOut 0 0 0) = Ok (0, numa) /\ mapi numa = d /\
    gpu_string t numas rank size = Ok (print_d v).
Proof.
  intros Hwf Hcap Hsize Hnumas Hd Hm Hm1 Hv.
  apply list_elem_of_lookup in Hv as [k Hk].
  pose proof (lookup_lt_Some _ _ _ Hk) as Hklt.
  assert (Z.of_nat k < m) as Hkm.
  { unfold numa_gpus in Hklt. rewrite Hm in Hklt.
    destruct (gpus_in_numa t !! Z.to_nat d); [|cbn in Hklt; lia].
    rewrite length_take in Hklt. lia. }
  set (n := bucket_size size numas d) in *.
  set (g := Z.of_nat k).
  pose proof (bucket_end_le_total size numas d ltac:(lia) ltac:(lia) Hd) as Hend.
  pose proof (bucket_start_nonneg size numas d ltac:(lia) ltac:(lia) ltac:(lia)) as H0.
  pose proof (bucket_end_le_total n m g ltac:(lia) ltac:(lia) ltac:(lia)) as Hend'.
  pose proof (bucket_start_nonneg n m g ltac:(lia) ltac:(lia) ltac:(lia)) as H0'.
  pose proof (bucket_size_pos n m g ltac:(lia)) as Hsz.
  fold n in Hend.
  set (rank := bucket_start size numas d + bucket_start n m g).
  assert (Hrange : bucket_start size numas d <= rank < bucket_start size numas d + n)
    by (unfold rank; lia).
  exists rank, {| mapi := d; np_in_dom := n; id_in_dom := rank - bucket_start size numas d |}.
  split; [lia|]. split.
  { by apply map_to_domains_in_bucket. }
  split; [done|].
  apply (gpu_string_case1 t numas cap rank size d m g v); try done; try lia.
  - fold n. unfold rank. lia.
  - unfold g. by rewrite Nat2Z.id.
Qed.

Lemma gpu_string_covers_devices_witness :
  (tables_wf 2 2 2 shared_tables /\ 2 < 2 ^ 31 /\ 0 <= 8 < 2 ^ 31 /\ 0 < 2 < 2 ^ 31 /\
   0 <= 1 < 2 /\ gpus_per_numa shared_tables !! Z.to_nat 1 = Some 2 /\
   1 <= 2 <= bucket_size 8 2 1 /\ 1 ∈ numa_gpus shared_tables 1) /\
  exists rank numa,
    0 <= rank < 8 /\
    map_to_domains rank 8 2 (DomOut 0 0 0) = Ok (0, numa) /\ mapi numa = 1 /\
    gpu_string shared_tables 2 rank 8 = Ok (print_d 1).
Proof.
  assert (Em : gpus_per_numa shared_tables !! Z.to_nat 1 = Some 2) by reflexivity.
  assert (Hm : 1 <= 2 <= bucket_size 8 2 1) by (vm_compute; split; discriminate).
  assert (Hv : 1 ∈ numa_gpus shared_tables 1).
  { change (numa_gpus shared_tables 1) with [0; 1]. apply list_elem_of_lookup. by exists 1%nat. }
  split; [split; [exact shared_tables_wf|repeat split; (lia || exact Em || exact Hv || apply Hm)]|].
  exact (gpu_string_covers_devices shared_tables 2 2 8 1 2 1
           shared_tables_wf ltac:(lia) ltac:(lia) ltac:(lia) ltac:(lia) Em Hm Hv).
Defined.

(** X11: when the NUMA domain of a task has more devices than tasks,
    the string of the task is the comma-separated list of all the
    devices of the domain, the same for every task of the domain. *)
Theorem gpu_string_whole_domain (t : Gpu.gpu_tables) (numas cap rank size : Z)
    (numa : Partition.dom_out) (m : Z) :
  tables_wf numas cap cap t -> cap < 2 ^ 31 ->
  0 <= rank < size -> size < 2 ^ 31 -> 0 < numas < 2 ^ 31 ->
  map_to_domains rank size numas (DomOut 0 0 0) = Ok (0, numa) ->
  gpus_per_numa t !! Z.to_nat (mapi numa) = Some m -> np_in_dom numa < m ->
  gpu_string t numas rank size =
    Ok (String.concat "," (map print_d (numa_gpus t (mapi numa)))).
Proof.
  intros Hwf Hcap Hr Hsize Hnumas Hmap Hm Hm1.
  destruct (map_to_domains_result rank size numas _ numa Hr Hsize Hnumas Hmap)
    as (Hd & Hnp & Hid & Hrange).
  rewrite Hnp in Hm1.
  apply (gpu_string_case2 t numas cap rank size (mapi numa) m); try done; lia.
Qed.

Lemma gpu_string_whole_domain_witness :
  (tables_wf 2 2 2 shared_tables /\ 2 < 2 ^ 31 /\ 0 <= 1 < 2 /\ 2 < 2 ^ 31 /\
   0 < 2 < 2 ^ 31 /\
   map_to_domains 1 2 2 (DomOut 0 0 0) = Ok (0, DomOut 1 1 0) /\
   gpus_per_numa shared_tables !! Z.to_nat (mapi (DomOut 1 1 0)) = Some 2 /\
   np_in_dom (DomOut 1 1 0) < 2) /\
  gpu_string shared_tables 2 1 2 = Ok "0,1"%string.
Proof.
  assert (E : map_to_domains 1 2 2 (DomOut 0 0 0) = Ok (0, DomOut 1 1 0))
    by (vm_compute; reflexivity).
  assert (Em : gpus_per_numa shared_tables !! Z.to_nat (mapi (DomOut 1 1 0)) = Some 2)
    by reflexivity.
  assert (Hm : np_in_dom (DomOut 1 1 0) < 2) by (cbn; lia).
  split; [split; [exact shared_tables_wf|repeat split; (lia || exact E || exact Em || apply Hm)]|].
  exact (gpu_string_whole_domain shared_tables 2 2 1 2 (DomOut 1 1 0) 2
           shared_tables_wf ltac:(lia) ltac:(lia) ltac:(lia) ltac:(lia) E Em Hm).
Defined.

End GpuStringClaims.

Section GpuStringTotal.
Import Partition Topology Gpu GpuInv.

(** The tables after direct ownership and fallback, on a node with a
    GPU: well formed, and no NUMA domain without device. *)
Lemma gpu_ownership_wf devs gpus numas numagroup :
  numagroup_ok numas numagroup -> devs_ok numas devs ->
  gpus = count_gpus devs -> 1 <= gpus < 2 ^ 31 ->
  exists t,
    gpu_ownership devs gpus numas numagroup = Ok t /\
    tables_wf numas gpus gpus t /\
    forall i, 0 <= i < numas ->
      exists n, gpus_per_numa t !! Z.to_nat i = Some n /\ 1 <= n.
Proof.
  intros Hng Hd -> Hg. unfold gpu_ownership.
  pose proof (devs_ok_numas _ _ Hd ltac:(lia)) as Hnumas.
  destruct (assign_gpus_spec numas (count_gpus devs) numagroup Hng ltac:(lia)
              devs 0 (alloc_tables (count_gpus devs) numas) Hd
              (alloc_tables_wf (count_gpus devs) numas ltac:(lia))
              ltac:(lia) ltac:(lia))
    as (t1 & H1 & Hwf1 & Hsome).
  rewrite H1. osimpl. rewrite Z.add_0_l in Hwf1.
  destruct (fallback_loop_spec numas (count_gpus devs) numagroup Hng
              (Z.to_nat numas) 0 t1 ltac:(lia) ltac:(lia) Hwf1
              (Hsome ltac:(right; lia)) ltac:(intros; lia))
    as (t2 & H2 & Hwf2 & _ & Hall).
  exists t2. split; [done|]. split; [done|]. intros i Hi. apply Hall. lia.
Qed.

(** X12: on a node with at least one GPU (every GPU below a NUMA domain
    of the node, every domain in a group of the node) [get_gpustring]
    returns a string for every local task: the comma-separated list of
    a non-empty part [l] of the device list of the NUMA domain of the
    task.  It does not return [NULL] and reads no array out of
    bounds. *)
Theorem get_gpustring_returns (devs : list Topology.osdev) (gpus numas : Z)
    (numagroup : list Z) (local_rank local_size : Z) :
  numagroup_ok numas numagroup -> devs_ok numas devs ->
  gpus = count_gpus devs -> 1 <= gpus < 2 ^ 31 -> numas < 2 ^ 31 ->
  0 <= local_rank < local_size -> local_size < 2 ^ 31 ->
  exists t numa l,
    gpu_ownership devs gpus numas numagroup = Ok t /\
    map_to_domains local_rank local_size numas (DomOut 0 0 0) = Ok (0, numa) /\
    l <> [] /\ l ⊆ numa_gpus t (mapi numa) /\
    get_gpustring devs gpus numas numagroup local_rank local_size =
      Ok (String.concat "," (map print_d l)).
Proof.
  intros Hng Hd Hgc Hg Hnumas Hr Hsize.
  pose proof Hd as Hpos. rewrite Hgc in Hg. apply devs_ok_numas in Hpos; [|lia].
  rewrite <- Hgc in Hg.
  destruct (gpu_ownership_wf devs gpus numas numagroup Hng Hd Hgc Hg)
    as (t & Ht & Hwf & Hall).
  destruct (map_to_domains_valid local_rank local_size numas (DomOut 0 0 0)
              Hr Hsize ltac:(lia)) as (d & Hdr & Hrange & Hmap).
  destruct (Hall d Hdr) as (m & Hm & Hm1).
  unfold get_gpustring. rewrite Ht. osimpl.
  exists t. eexists. 
  destruct (Z.le_gt_cases m (bucket_size local_size numas d)) as [Hle|Hgt].
  - (* at least as many tasks as devices *)
    destruct (gpu_string_single t numas gpus local_rank local_size d m
                Hwf ltac:(lia) ltac:(lia) ltac:(lia) Hdr Hrange Hm ltac:(lia))
      as (g & v & Hgm & Hv & ->).
    exists [v]. split; [done|]. split; [exact Hmap|]. split; [done|].
    split; [|done]. intros x ->%list_elem_of_singleton. cbn [mapi].
    by eapply list_elem_of_lookup_2.
  - (* more devices than tasks *)
    exists (numa_gpus t d). split; [done|]. split; [exact Hmap|].
    pose proof (Forall_lookup_1 _ _ _ _ (wf_cnt_numa _ _ _ _ Hwf) Hm) as Hmc. cbn in Hmc.
    destruct (lookup_lt_is_Some_2 (gpus_in_numa t) (Z.to_nat d)) as [row Hrow].
    { rewrite (wf_len_in_numa _ _ _ _ Hwf). lia. }
    pose proof (Forall_lookup_1 _ _ _ _ (wf_rows_numa _ _ _ _ Hwf) Hrow) as Hlen.
    cbn in Hlen.
    split.
    { intros E. apply (f_equal length) in E.
      rewrite (numa_gpus_lookup _ _ _ _ Hm Hrow), length_take in E. cbn in E. lia. }
    split; [done|]. cbn [mapi].
    apply (gpu_string_case2 t numas gpus local_rank local_size d m); try done; lia.
Qed.

Lemma get_gpustring_returns_witness :
  (numagroup_ok 4 Scenario.own_groups /\ devs_ok 4 Scenario.two_gpus /\
   2 = count_gpus Scenario.two_gpus /\ 1 <= 2 < 2 ^ 31 /\ 4 < 2 ^ 31 /\
   0 <= 5 < 8 /\ 8 < 2 ^ 31) /\
  exists s, get_gpustring Scenario.two_gpus 2 4 Scenario.own_groups 5 8 = Ok s.
Proof.
  assert (H1 : numagroup_ok 4 Scenario.own_groups).
  { split; [reflexivity|]. repeat constructor; lia. }
  assert (H2 : devs_ok 4 Scenario.two_gpus).
  { repeat constructor; cbn; intros E; try discriminate E;
      eexists; (split; [reflexivity|cbn; lia]). }
  split; [split; [exact H1|split; [exact H2|split; [reflexivity|lia]]]|].
  destruct (get_gpustring_returns Scenario.two_gpus 2 4 Scenario.own_groups 5 8
              H1 H2 eq_refl ltac:(lia) ltac:(lia) ltac:(lia) ltac:(lia))
    as (t & numa & l & _ & _ & _ & _ & E).
  eexists. exact E.
Defined.

End GpuStringTotal.

(** ** Direct ownership *)

Section DirectOwnership.
Import Topology Gpu GpuInv Ownership.

(** Entering device [c] at the end of the list of domain [a]. *)
Lemma numa_gpus_push t t1 a n row c :
  gpus_per_numa t !! Z.to_nat a = Some n -> gpus_in_numa t !! Z.to_nat a = Some row ->
  0 <= a -> 0 <= n < Z.of_nat (length row) ->
  gpus_in_numa t1 = <[Z.to_nat a := <[Z.to_nat n := c]> row]> (gpus_in_numa t) ->
  gpus_per_numa t1 = <[Z.to_nat a := n + 1]> (gpus_per_numa t) ->
  forall i, 0 <= i ->
    numa_gpus t1 i = numa_gpus t i ++ (if decide (a = i) then [c] else []).
Proof.
  intros Hn Hrow Ha Hnb E1 E2 i Hi. unfold numa_gpus. rewrite E1, E2.
  destruct (decide (a = i)) as [<-|Hne].
  - rewrite !list_lookup_insert_eq by (eapply lookup_lt_Some; eauto).
    rewrite Hn, Hrow. replace (Z.to_nat (n + 1)) with (S (Z.to_nat n)) by lia.
    rewrite (take_S_r _ _ c) by (apply list_lookup_insert_eq; lia).
    by rewrite take_insert_ge by lia.
  - rewrite !list_lookup_insert_ne by lia. by rewrite app_nil_r.
Qed.

Lemma group_gpus_push t t1 a n row c :
  gpus_per_group t !! Z.to_nat a = Some n -> gpus_in_group t !! Z.to_nat a = Some row ->
  0 <= a -> 0 <= n < Z.of_nat (length row) ->
  gpus_in_group t1 = <[Z.to_nat a := <[Z.to_nat n := c]> row]> (gpus_in_group t) ->
  gpus_per_group t1 = <[Z.to_nat a := n + 1]> (gpus_per_group t) ->
  forall i, 0 <= i ->
    group_gpus t1 i = group_gpus t i ++ (if decide (a = i) then [c] else []).
Proof.
  intros Hn Hrow Ha Hnb E1 E2 i Hi. unfold group_gpus. rewrite E1, E2.
  destruct (decide (a = i)) as [<-|Hne].
  - rewrite !list_lookup_insert_eq by (eapply lookup_lt_Some; eauto).
    rewrite Hn, Hrow. replace (Z.to_nat (n + 1)) with (S (Z.to_nat n)) by lia.
    rewrite (take_S_r _ _ c) by (apply list_lookup_insert_eq; lia).
    by rewrite take_insert_ge by lia.
  - rewrite !list_lookup_insert_ne by lia. by rewrite app_nil_r.
Qed.

(** The first loop of [get_gpustring], from device number [c] on: it
    returns, and appends to every list the numbers of the devices that
    belong there. *)
Lemma assign_gpus_lists numas cap numagroup :
  numagroup_ok numas numagroup -> cap < 2 ^ 31 ->
  forall devs c t,
    devs_ok numas devs -> tables_wf numas cap c t ->
    0 <= c -> c + count_gpus devs <= cap ->
    exists t',
      assign_gpus devs numagroup c t = Ok (c + count_gpus devs, t') /\
      tables_wf numas cap (c + count_gpus devs) t' /\
      forall i, 0 <= i < numas ->
        numa_gpus t' i = numa_gpus t i ++ (filter (below_numa i) (numbered devs c)).*1 /\
        group_gpus t' i =
          group_gpus t i ++ (filter (below_group numagroup i) (numbered devs c)).*1.
Proof.
  intros [Hgl Hgr] Hcap. induction devs as [|obj devs IH]; intros c t Hd Hwf Hc Hle.
  - exists t. unfold count_gpus. cbn. rewrite Z.add_0_r.
    split; [done|]. split; [done|]. intros i _. by rewrite !app_nil_r.
  - rewrite count_gpus_cons in *. apply Forall_cons in Hd as [Hobj Hd].
    pose proof (count_gpus_nonneg devs) as Hnn.
    cbn [assign_gpus numbered]. destruct (is_render_gpu obj) eqn:Hr.
    2:{ rewrite Z.add_0_l. apply IH; [done|done|done|lia]. }
    destruct (Hobj eq_refl) as (anc & Hanc & Ha). rewrite Hanc.
    destruct Hwf as [L1 L2 L3 L4 R1 R2 C1 C2].
    destruct (lookup_lt_is_Some_2 (gpus_per_numa t) (Z.to_nat (os_index anc)) ltac:(lia)) as [n Hn].
    destruct (lookup_lt_is_Some_2 (gpus_in_numa t) (Z.to_nat (os_index anc)) ltac:(lia)) as [row Hrow].
    destruct (lookup_lt_is_Some_2 numagroup (Z.to_nat (os_index anc)) ltac:(lia)) as [g Hg].
    pose proof (Forall_lookup_1 _ _ _ _ Hgr Hg) as Hgb. cbn in Hgb.
    destruct (lookup_lt_is_Some_2 (gpus_per_group t) (Z.to_nat g) ltac:(lia)) as [ng Hng].
    destruct (lookup_lt_is_Some_2 (gpus_in_group t) (Z.to_nat g) ltac:(lia)) as [grow Hgrow].
    pose proof (Forall_lookup_1 _ _ _ _ C1 Hn) as Hnb.
    pose proof (Forall_lookup_1 _ _ _ _ C2 Hng) as Hngb.
    pose proof (Forall_lookup_1 _ _ _ _ R1 Hrow) as Hrl.
    pose proof (Forall_lookup_1 _ _ _ _ R2 Hgrow) as Hgrl.
    cbn in Hnb, Hngb, Hrl, Hgrl.
    rewrite (zget_Ok _ _ _ (proj1 Ha) Hn). cbn.
    rewrite (set2_Ok _ _ _ _ row) by (done || lia). cbn.
    rewrite (zget_Ok _ _ _ (proj1 Ha) Hg). cbn.
    rewrite (zget_Ok _ _ _ (proj1 Hgb) Hng). cbn.
    rewrite (set2_Ok _ _ _ _ grow) by (done || lia). cbn.
    rewrite !zset_Ok by lia. cbn.
    rewrite !wrapu32_id by (unfold in_uint32; lia).
    rewrite wrap32_id by (unfold in_int32; lia).
    match goal with |- context [assign_gpus devs numagroup (c + 1) ?t1] =>
      set (tn := t1);
      destruct (IH (c + 1) tn) as (t' & H1 & H2 & H3) end.
    + done.
    + split; cbn; rewrite ?length_insert; try done.
      * apply Forall_insert; [done|]. by rewrite length_insert.
      * apply Forall_insert; [done|]. by rewrite length_insert.
      * apply Forall_insert; [|lia].
        eapply Forall_impl; [exact C1|]. intros ? ?. cbn in *. lia.
      * apply Forall_insert; [|lia].
        eapply Forall_impl; [exact C2|]. intros ? ?. cbn in *. lia.
    + lia.
    + lia.
    + exists t'. replace (c + (1 + count_gpus devs)) with (c + 1 + count_gpus devs) by lia.
      split; [done|]. split; [done|]. intros i Hi.
      destruct (H3 i Hi) as [-> ->].
      rewrite (numa_gpus_push t tn (os_index anc) n row c Hn Hrow ltac:(lia) ltac:(lia)
                 eq_refl eq_refl i ltac:(lia)).
      rewrite (group_gpus_push t tn g ng grow c Hng Hgrow ltac:(lia) ltac:(lia)
                 eq_refl eq_refl i ltac:(lia)).
      assert (Hbn : below_numa i (c, obj) <-> os_index anc = i).
      { unfold below_numa, ancestor_index. cbn [snd]. rewrite Hanc. cbn.
        split; [by intros [= ->]|by intros ->]. }
      assert (Hbg : below_group numagroup i (c, obj) <-> g = i).
      { unfold below_group, ancestor_index. cbn [snd]. rewrite Hanc. cbn.
        rewrite Hg. split; [by intros [= ->]|by intros ->]. }
      rewrite <- !app_assoc. split; f_equal.
      * destruct (decide (os_index anc = i)) as [He|Hne];
          destruct (decide (below_numa i (c, obj))) as [Hb|Hb]; try done.
        -- by apply Hbn in He.
        -- by apply Hbn in Hb.
      * destruct (decide (g = i)) as [He|Hne];
          destruct (decide (below_group numagroup i (c, obj))) as [Hb|Hb]; try done.
        -- by apply Hbg in He.
        -- by apply Hbg in Hb.
Qed.

(** The numbers of the selected devices ascend, and are the numbers
    given out from [k] on. *)
Lemma numbered_filter_sorted (P : Z * osdev -> Prop) `{!forall p, Decision (P p)} :
  forall devs k,
    StronglySorted Z.lt (filter P (numbered devs k)).*1 /\
    Forall (fun v => k <= v < k + count_gpus devs) (filter P (numbered devs k)).*1.
Proof.
  induction devs as [|obj devs IH]; intros k.
  - split; constructor.
  - rewrite count_gpus_cons. cbn [numbered].
    pose proof (count_gpus_nonneg devs) as Hnn.
    destruct (is_render_gpu obj).
    2:{ rewrite Z.add_0_l. apply IH. }
    destruct (IH (k + 1)) as [Hs Hr]. rewrite filter_cons.
    assert (Hr' : Forall (fun v => k < v < k + (1 + count_gpus devs))
                    (filter P (numbered devs (k + 1))).*1).
    { eapply Forall_impl; [exact Hr|]. intros v Hv. cbn in Hv. lia. }
    destruct (decide (P (k, obj))); cbn [fmap list_fmap fst].
    + split.
      * constructor; [done|]. eapply Forall_impl; [exact Hr'|]. intros v Hv. cbn in Hv. lia.
      * constructor; [lia|]. eapply Forall_impl; [exact Hr'|]. intros v Hv. cbn in Hv. lia.
    + split; [done|]. eapply Forall_impl; [exact Hr'|]. intros v Hv. cbn in Hv. lia.
Qed.

Lemma numa_gpus_alloc gpus numas i : numa_gpus (alloc_tables gpus numas) i = [].
Proof.
  unfold numa_gpus, alloc_tables. cbn.
  destruct (replicate (Z.to_nat numas) 0 !! Z.to_nat i) as [n|] eqn:E; [|done].
  apply lookup_replicate in E as [-> _].
  by destruct (replicate _ _ !! _).
Qed.

Lemma group_gpus_alloc gpus numas i : group_gpus (alloc_tables gpus numas) i = [].
Proof.
  unfold group_gpus, alloc_tables. cbn.
  destruct (replicate (Z.to_nat numas) 0 !! Z.to_nat i) as [n|] eqn:E; [|done].
  apply lookup_replicate in E as [-> _].
  by destruct (replicate _ _ !! _).
Qed.

(** One step of the fallback keeps a property that all lists have. *)
Lemma fallback_step_lists (Q : list Z -> Prop) numas cap numagroup i t t' :
  numagroup_ok numas numagroup -> tables_wf numas cap cap t ->
  some_numa_has_gpu t -> 0 <= i < numas ->
  (forall j, 0 <= j < numas -> Q (numa_gpus t j)) ->
  (forall g, 0 <= g < numas -> Q (group_gpus t g)) ->
  fallback_step numas numagroup i t = Ok t' ->
  (forall j, 0 <= j < numas -> Q (numa_gpus t' j)) /\
  (forall g, 0 <= g < numas -> Q (group_gpus t' g)).
Proof.
  intros Hng Hwf Hsome Hi Hn Hg Hstep.
  destruct (fallback_step_spec numas cap numagroup i t Hng Hwf Hsome Hi)
    as (t1 & H1 & Hwf1 & Hk & _ & Hcase).
  rewrite Hstep in H1. injection H1 as <-.
  split.
  2:{ intros g Hgr. rewrite (owned_kept_group_gpus _ _ _ Hk). by apply Hg. }
  intros j Hj.
  destruct (lookup_lt_is_Some_2 (gpus_per_numa t) (Z.to_nat j)) as [n Hnj].
  { rewrite (wf_len_per_numa _ _ _ _ Hwf). lia. }
  destruct (Z.eq_dec n 0) as [->|Hne].
  2:{ rewrite (owned_kept_numa_gpus _ _ _ _ Hk Hnj Hne). by apply Hn. }
  destruct (Z.eq_dec j i) as [->|Hji].
  - destruct (Hcase Hnj) as (g & Hgi & [(ng & _ & _ & ->)|(_ & k & Hk1 & Hk2 & ->)]).
    + destruct Hng as [_ Hgr]. pose proof (Forall_lookup_1 _ _ _ _ Hgr Hgi) as Hgb.
      by apply Hg.
    + destruct Hk1 as (Hk0 & _). apply Hn. lia.
  - destruct (fallback_step_others _ _ _ _ _ Hstep (Z.to_nat j) ltac:(lia)) as [E1 E2].
    unfold numa_gpus. rewrite E1, E2. by apply Hn.
Qed.

Lemma fallback_loop_lists (Q : list Z -> Prop) numas cap numagroup :
  numagroup_ok numas numagroup ->
  forall n i t t',
    0 <= i -> i + Z.of_nat n <= numas ->
    tables_wf numas cap cap t -> some_numa_has_gpu t ->
    (forall j, 0 <= j < numas -> Q (numa_gpus t j)) ->
    (forall g, 0 <= g < numas -> Q (group_gpus t g)) ->
    fallback_loop n numas numagroup i t = Ok t' ->
    forall j, 0 <= j < numas -> Q (numa_gpus t' j).
Proof.
  intros Hng. induction n as [|n IH]; intros i t t' Hi Hn Hwf Hsome Hnl Hgl Hloop.
  - by injection Hloop as <-.
  - cbn [fallback_loop] in Hloop. apply obind_inv in Hloop as (t1 & H1 & Hloop).
    destruct (fallback_step_spec numas cap numagroup i t Hng Hwf Hsome ltac:(lia))
      as (t1' & H1' & Hwf1 & Hk & _).
    rewrite H1 in H1'. injection H1' as <-.
    destruct (fallback_step_lists Q numas cap numagroup i t t1 Hng Hwf Hsome
                ltac:(lia) Hnl Hgl H1) as [Hnl1 Hgl1].
    apply (IH (i + 1) t1 t' ltac:(lia) ltac:(lia) Hwf1 (owned_kept_some _ _ Hk Hsome)
             Hnl1 Hgl1 Hloop).
Qed.

End DirectOwnership.

Section DirectOwnershipClaims.
Import Topology Gpu GpuInv Ownership.

(** X13: the first loop of [get_gpustring] numbers the GPUs 0, 1, ...
    in enumeration order and leaves, for every NUMA domain, the numbers
    of the GPUs below that domain and, for every group, the numbers of
    the GPUs below the domains of that group, both in enumeration
    order. *)
Theorem assign_gpus_direct (devs : list Topology.osdev) (gpus numas : Z)
    (numagroup : list Z) :
  numagroup_ok numas numagroup -> devs_ok numas devs ->
  gpus = count_gpus devs -> gpus < 2 ^ 31 ->
  exists t,
    assign_gpus devs numagroup 0 (alloc_tables gpus numas) = Ok (gpus, t) /\
    forall i, 0 <= i < numas ->
      numa_gpus t i = direct_gpus devs i /\
      group_gpus t i = grouped_gpus devs numagroup i.
Proof.
  intros Hng Hd -> Hg.
  pose proof (count_gpus_nonneg devs) as Hnn.
  destruct (assign_gpus_lists numas (count_gpus devs) numagroup Hng Hg devs 0
              (alloc_tables (count_gpus devs) numas) Hd
              (alloc_tables_wf (count_gpus devs) numas Hnn) ltac:(lia) ltac:(lia))
    as (t & Ht & _ & Hl).
  rewrite Z.add_0_l in Ht. exists t. split; [done|]. intros i Hi.
  destruct (Hl i Hi) as [-> ->].
  by rewrite numa_gpus_alloc, group_gpus_alloc.
Qed.

Lemma assign_gpus_direct_witness :
  (numagroup_ok 4 Scenario.own_groups /\ devs_ok 4 Scenario.two_gpus /\
   2 = count_gpus Scenario.two_gpus /\ 2 < 2 ^ 31) /\
  exists t,
    assign_gpus Scenario.two_gpus Scenario.own_groups 0 (alloc_tables 2 4) = Ok (2, t) /\
    numa_gpus t 1 = [1] /\ numa_gpus t 2 = [].
Proof.
  assert (H1 : numagroup_ok 4 Scenario.own_groups).
  { split; [reflexivity|]. repeat constructor; lia. }
  assert (H2 : devs_ok 4 Scenario.two_gpus).
  { repeat constructor; cbn; intros E; try discriminate E;
      eexists; (split; [reflexivity|cbn; lia]). }
  split; [split; [exact H1|split; [exact H2|split; [reflexivity|lia]]]|].
  destruct (assign_gpus_direct Scenario.two_gpus 2 4 Scenario.own_groups
              H1 H2 eq_refl ltac:(lia)) as (t & Ht & Hl).
  exists t. split; [exact Ht|].
  split; [exact (proj1 (Hl 1 ltac:(lia)))|exact (proj1 (Hl 2 ltac:(lia)))].
Defined.

(** X14: after direct ownership and fallback, a NUMA domain with GPUs
    below it lists exactly those GPUs; and the list of every domain,
    borrowed or not, is strictly ascending and holds only numbers of
    GPUs of the node. *)
Theorem gpu_ownership_lists (devs : list Topology.osdev) (gpus numas : Z)
    (numagroup : list Z) :
  numagroup_ok numas numagroup -> devs_ok numas devs ->
  gpus = count_gpus devs -> 1 <= gpus < 2 ^ 31 ->
  exists t,
    gpu_ownership devs gpus numas numagroup = Ok t /\
    forall i, 0 <= i < numas ->
      (direct_gpus devs i <> [] -> numa_gpus t i = direct_gpus devs i) /\
      StronglySorted Z.lt (numa_gpus t i) /\
      Forall (fun v => 0 <= v < gpus) (numa_gpus t i).
Proof.
  intros Hng Hd -> Hg.
  pose proof (devs_ok_numas _ _ Hd ltac:(lia)) as Hnumas.
  destruct (assign_gpus_lists numas (count_gpus devs) numagroup Hng ltac:(lia) devs 0
              (alloc_tables (count_gpus devs) numas) Hd
              (alloc_tables_wf (count_gpus devs) numas ltac:(lia)) ltac:(lia) ltac:(lia))
    as (t1 & H1 & Hwf1 & Hl).
  rewrite Z.add_0_l in H1, Hwf1.
  destruct (assign_gpus_spec numas (count_gpus devs) numagroup Hng ltac:(lia)
              devs 0 (alloc_tables (count_gpus devs) numas) Hd
              (alloc_tables_wf (count_gpus devs) numas ltac:(lia))
              ltac:(lia) ltac:(lia))
    as (t1' & H1' & _ & Hsome).
  rewrite Z.add_0_l in H1'. rewrite H1 in H1'. injection H1' as <-.
  specialize (Hsome ltac:(right; lia)).
  destruct (fallback_loop_spec numas (count_gpus devs) numagroup Hng
              (Z.to_nat numas) 0 t1 ltac:(lia) ltac:(lia) Hwf1 Hsome ltac:(intros; lia))
    as (t2 & H2 & _ & Hk & _).
  exists t2. split.
  { unfold gpu_ownership. rewrite H1. osimpl. exact H2. }
  set (Q := fun l : list Z =>
              StronglySorted Z.lt l /\ Forall (fun v => 0 <= v < count_gpus devs) l).
  assert (HQ : forall j, 0 <= j < numas -> Q (numa_gpus t2 j)).
  { apply (fallback_loop_lists Q numas (count_gpus devs) numagroup Hng
             (Z.to_nat numas) 0 t1 t2 ltac:(lia) ltac:(lia) Hwf1 Hsome); [| |exact H2].
    - intros j Hj. destruct (Hl j Hj) as [-> _]. rewrite numa_gpus_alloc. cbn [app].
      apply (numbered_filter_sorted (below_numa j) devs 0).
    - intros g Hgr. destruct (Hl g Hgr) as [_ ->]. rewrite group_gpus_alloc. cbn [app].
      apply (numbered_filter_sorted (below_group numagroup g) devs 0). }
  intros i Hi. split; [|exact (HQ i Hi)].
  intros Hne. destruct (Hl i Hi) as [E1 _].
  rewrite numa_gpus_alloc in E1. cbn [app] in E1. fold (direct_gpus devs i) in E1.
  rewrite <- E1 in Hne |- *.
  destruct (lookup_lt_is_Some_2 (gpus_per_numa t1) (Z.to_nat i)) as [n Hn].
  { rewrite (wf_len_per_numa _ _ _ _ Hwf1). lia. }
  apply (owned_kept_numa_gpus _ _ _ n Hk Hn).
  intros ->. apply Hne. unfold numa_gpus. rewrite Hn.
  by destruct (gpus_in_numa t1 !! Z.to_nat i).
Qed.

Lemma gpu_ownership_lists_witness :
  (numagroup_ok 4 Scenario.own_groups /\ devs_ok 4 Scenario.two_gpus /\
   2 = count_gpus Scenario.two_gpus /\ 1 <= 2 < 2 ^ 31) /\
  exists t,
    gpu_ownership Scenario.two_gpus 2 4 Scenario.own_groups = Ok t /\
    Forall (fun v => 0 <= v < 2) (numa_gpus t 3).
Proof.
  assert (H1 : numagroup_ok 4 Scenario.own_groups).
  { split; [reflexivity|]. repeat constructor; lia. }
  assert (H2 : devs_ok 4 Scenario.two_gpus).
  { repeat constructor; cbn; intros E; try discriminate E;
      eexists; (split; [reflexivity|cbn; lia]). }
  split; [split; [exact H1|split; [exact H2|split; [reflexivity|lia]]]|].
  destruct (gpu_ownership_lists Scenario.two_gpus 2 4 Scenario.own_groups
              H1 H2 eq_refl ltac:(lia)) as (t & Ht & Hl).
  exists t. split; [exact Ht|]. exact (proj2 (proj2 (Hl 3 ltac:(lia)))).
Defined.

End DirectOwnershipClaims.

(** ** Option strings *)

Section OptionFacts.
Import Hwloc Libc Plugin Options.

Lemma eqb_digit_first c s c' s' :
  isdigit c = true -> isdigit c' = false ->
  String.eqb (String c s) (String c' s') = false.
Proof.
  intros Hc Hc'. cbn [String.eqb].
  destruct (Ascii.eqb_spec c c') as [->|_]; [congruence|done].
Qed.

(** A bitmap of cores: finite, and no index above [c]. *)
Lemma setbit_cores c bits s :
  0 <= bits -> (forall j, Z.testbit bits j = true -> 0 <= j <= c) ->
  0 <= s <= c ->
  0 <= hwloc_bitmap_set bits s /\
  (forall j, Z.testbit (hwloc_bitmap_set bits s) j = true -> 0 <= j <= c) /\
  (forall j, Z.testbit bits j = true -> Z.testbit (hwloc_bitmap_set bits s) j = true) /\
  Z.testbit (hwloc_bitmap_set bits s) s = true.
Proof.
  intros Hb Hin Hs. unfold hwloc_bitmap_set.
  split; [|split; [|split]].
  - unfold Z.setbit. apply Z.lor_nonneg. split; [done|].
    apply Z.shiftl_nonneg. lia.
  - intros j Hj. rewrite Z.setbit_eqb in Hj by lia.
    apply orb_true_iff in Hj as [Hj|Hj]; [|by apply Hin].
    apply Z.eqb_eq in Hj. lia.
  - intros j Hj. rewrite Z.setbit_eqb by lia. rewrite Hj. apply orb_true_r.
  - rewrite Z.setbit_eqb by lia. by rewrite Z.eqb_refl.
Qed.

Lemma set_range_cores c bits s e :
  0 <= bits -> (forall j, Z.testbit bits j = true -> 0 <= j <= c) ->
  0 <= s -> s <= e -> e <= c ->
  0 <= hwloc_bitmap_set_range bits s e /\
  (forall j, Z.testbit (hwloc_bitmap_set_range bits s e) j = true -> 0 <= j <= c) /\
  (forall j, Z.testbit bits j = true ->
             Z.testbit (hwloc_bitmap_set_range bits s e) j = true) /\
  Z.testbit (hwloc_bitmap_set_range bits s e) s = true.
Proof.
  intros Hb Hin Hs Hse Hec. unfold hwloc_bitmap_set_range.
  assert (Hones : forall j, Z.testbit (Z.shiftl (Z.ones (e - s + 1)) s) j = true <->
                            s <= j <= e).
  { intros j. destruct (Z.lt_ge_cases j 0) as [Hneg|Hnn].
    { rewrite Z.testbit_neg_r by done. split; [done|lia]. }
    rewrite Z.shiftl_spec by done.
    destruct (Z.lt_ge_cases (j - s) 0) as [Hlt|Hge].
    { rewrite Z.testbit_neg_r by done. split; [done|lia]. }
    rewrite Z.testbit_ones_nonneg by lia. rewrite Z.ltb_lt. lia. }
  split; [|split; [|split]].
  - apply Z.lor_nonneg. split; [done|]. apply Z.shiftl_nonneg.
    rewrite Z.ones_equiv. pose proof (Z.pow_pos_nonneg 2 (e - s + 1) ltac:(lia) ltac:(lia)).
    lia.
  - intros j Hj. rewrite Z.lor_spec in Hj.
    apply orb_true_iff in Hj as [Hj|Hj]; [by apply Hin|].
    apply Hones in Hj. lia.
  - intros j Hj. rewrite Z.lor_spec, Hj. done.
  - rewrite Z.lor_spec. apply orb_true_iff. right. apply Hones. lia.
Qed.

(** The loop over a list of cores keeps the bitmap within the cores
    0 .. [coreobjs], clears nothing, and sets a bit whenever it ends
    well on a string that is not empty. *)
Lemma parse_ranges_cores coreobjs : forall fuel opt bits lsize rc bits' lsize',
  0 <= bits -> (forall j, Z.testbit bits j = true -> 0 <= j <= coreobjs) ->
  parse_ranges fuel coreobjs opt bits lsize = Some (rc, bits', lsize') ->
  0 <= bits' /\
  (forall j, Z.testbit bits' j = true -> 0 <= j <= coreobjs) /\
  (forall j, Z.testbit bits j = true -> Z.testbit bits' j = true) /\
  (rc = 0 -> opt <> EmptyString -> exists j, Z.testbit bits' j = true).
Proof.
  induction fuel as [|fuel IH]; intros opt bits lsize rc bits' lsize' Hb Hin H; [done|].
  cbn [parse_ranges] in H. destruct opt as [|c0 opt0].
  { injection H as <- <- <-. repeat split; try done. apply Hin. done. apply Hin. done. }
  destruct (strtol (String c0 opt0)) as [start endptr].
  destruct (Z.ltb_spec start 0).
  { injection H as <- <- <-. repeat split; try done; try (by apply Hin). }
  destruct (Z.ltb_spec coreobjs start).
  { injection H as <- <- <-. repeat split; try done; try (by apply Hin). }
  destruct (setbit_cores coreobjs bits start Hb Hin ltac:(lia)) as (S1 & S2 & S3 & S4).
  destruct endptr as [|c endptr'].
  { injection H as <- <- <-. split; [done|]. split; [done|]. split; [done|]. eauto. }
  destruct c as [[] [] [] [] [] [] [] []];
    try (injection H as <- <- <-; repeat split; try done; try (by apply Hin)).
  - (* a range: [start-end] *)
    destruct endptr' as [|c1 e1].
    { injection H as <- <- <-. repeat split; try done; try (by apply Hin). }
    destruct (strtol (String c1 e1)) as [end_ endptr2].
    destruct (Z.ltb_spec end_ 0).
    { injection H as <- <- <-. repeat split; try done; try (by apply Hin). }
    destruct (Z.ltb_spec coreobjs end_).
    { injection H as <- <- <-. repeat split; try done; try (by apply Hin). }
    destruct (Z.ltb_spec end_ start).
    { injection H as <- <- <-. repeat split; try done; try (by apply Hin). }
    cbv zeta in H.
    destruct (set_range_cores coreobjs bits start end_ Hb Hin ltac:(lia) ltac:(lia) ltac:(lia))
      as (R1 & R2 & R3 & R4).
    destruct (IH _ _ _ _ _ _ R1 R2 H) as (I1 & I2 & I3 & _).
    split; [done|]. split; [done|]. split; [by intros j Hj; apply I3, R3|].
    intros _ _. exists start. by apply I3.
  - (* a single core, followed by a comma *)
    destruct (IH _ _ _ _ _ _ S1 S2 H) as (I1 & I2 & I3 & _).
    split; [done|]. split; [done|]. split; [by intros j Hj; apply I3, S3|].
    intros _ _. exists start. by apply I3.
Qed.

(** An option is taken the same way in a local and in a remote
    context, but for [help]. *)
Lemma parse_option_contexts coreobjs opt g :
  match parse_option coreobjs opt 0 g with
  | Parsed rc g' => parse_option coreobjs opt 1 g = Parsed rc g'
  | Exits => parse_option coreobjs opt 1 g = Parsed (-1) g
  | Stuck => False
  end.
Proof.
  unfold parse_option.
  destruct (String.eqb opt "on"); [done|].
  destruct (String.eqb opt "off"); [done|].
  destruct (String.eqb opt "vv"); [done|].
  destruct (String.eqb opt "v" || String.eqb opt "verbose"); [done|].
  destruct (String.eqb opt "w"); [done|].
  destruct (starts_with_digit opt).
  - pose proof (parse_ranges_fuel coreobjs (S (String.length opt)) opt
                  hwloc_bitmap_alloc 0 ltac:(lia)) as H.
    by destruct (parse_ranges _ _ _ _ _) as [[[rc bits] lsize]|].
  - by destruct (String.eqb opt "help").
Qed.

Lemma parse_tokens_contexts coreobjs : forall tokens g,
  match parse_tokens coreobjs tokens 0 g with
  | Parsed rc g' => parse_tokens coreobjs tokens 1 g = Parsed rc g'
  | Exits => exists g', parse_tokens coreobjs tokens 1 g = Parsed (-1) g'
  | Stuck => False
  end.
Proof.
  induction tokens as [|opt rest IH]; intros g; cbn [parse_tokens]; [done|].
  pose proof (parse_option_contexts coreobjs opt g) as H.
  destruct (parse_option coreobjs opt 0 g) as [rc g1| |]; [|by rewrite H; eauto|done].
  rewrite H. destruct (rc =? 0); [apply IH|done].
Qed.

(** No option changes [enabled], or what the plugin has learnt of the
    job step. *)
Lemma parse_option_frame coreobjs opt remote g rc g' :
  parse_option coreobjs opt remote g = Parsed rc g' ->
  enabled g' = enabled g /\ local_rank g' = local_rank g /\
  local_size g' = local_size g /\ num_threads g' = num_threads g /\
  rank g' = rank g /\ local_threads g' = local_threads g /\
  num_cores g' = num_cores g.
Proof.
  unfold parse_option.
  destruct (String.eqb opt "on"); [by intros [= <- <-]|].
  destruct (String.eqb opt "off"); [by intros [= <- <-]|].
  destruct (String.eqb opt "vv"); [by intros [= <- <-]|].
  destruct (String.eqb opt "v" || String.eqb opt "verbose"); [by intros [= <- <-]|].
  destruct (String.eqb opt "w"); [by intros [= <- <-]|].
  destruct (starts_with_digit opt).
  - destruct (parse_ranges _ _ _ _ _) as [[[rc0 bits] lsize]|]; [|done].
    by intros [= <- <-].
  - destruct (String.eqb opt "help" && (remote =? 0)); [done|]. by intros [= <- <-].
Qed.

Lemma parse_tokens_frame coreobjs remote : forall tokens g rc g',
  parse_tokens coreobjs tokens remote g = Parsed rc g' ->
  enabled g' = enabled g /\ local_rank g' = local_rank g /\
  local_size g' = local_size g /\ num_threads g' = num_threads g /\
  rank g' = rank g /\ local_threads g' = local_threads g /\
  num_cores g' = num_cores g.
Proof.
  induction tokens as [|opt rest IH]; intros g rc g' H; cbn [parse_tokens] in H.
  - by injection H as <- <-.
  - destruct (parse_option coreobjs opt remote g) as [rc1 g1| |] eqn:E; [|done|done].
    apply parse_option_frame in E as (E1 & E2 & E3 & E4 & E5 & E6 & E7).
    destruct (rc1 =? 0).
    + apply IH in H as (F1 & F2 & F3 & F4 & F5 & F6 & F7).
      repeat split; congruence.
    + injection H as <- <-. done.
Qed.

Lemma get_remote_env_enabled sp g rc g' :
  get_remote_env sp g = Parsed rc g' -> enabled g' = enabled g.
Proof.
  unfold get_remote_env. intros H.
  destruct (negb (disabled g =? 0)); [by injection H as _ <-|].
  destruct (sp_task_id sp) as [r|]; [|by injection H as _ <-].
  destruct (match spank_getenv (sp_env sp) "OMPI_COMM_WORLD_LOCAL_RANK" 64 with
            | Some v => Some v
            | None => spank_getenv (sp_env sp) "SLURM_LOCALID" 64
            end) as [v|]; [|by injection H as _ <-; destruct (negb (r =? 0))].
  destruct (sp_local_task_count sp) as [n|];
    [|by injection H as _ <-; destruct (negb (r =? 0))].
  destruct (spank_getenv (sp_env sp) "MPIBIND" 64) as [m|].
  - apply parse_tokens_frame in H as (-> & _).
    by destruct (spank_getenv (sp_env sp) "OMP_NUM_THREADS" 64), (negb (r =? 0)).
  - injection H as _ <-.
    by destruct (spank_getenv (sp_env sp) "OMP_NUM_THREADS" 64), (negb (r =? 0)).
Qed.

End OptionFacts.

Section OptionClaims.
Import Hwloc Libc Plugin Options TaskInit Node.

(** X15: a list of cores that [parse_option] accepts leaves a finite,
    non-empty bitmap in [cpubits] whose indices all lie in
    0 .. [coreobjs] - the bound is inclusive, so the index [coreobjs]
    itself is accepted - and the binding step then takes its cores from
    that list. *)
Theorem parse_option_core_list (coreobjs : Z) (opt : string) (remote : Z)
    (g g' : Plugin.globals) :
  starts_with_digit opt = true ->
  parse_option coreobjs opt remote g = Parsed 0 g' ->
  exists bits,
    cpubits g' = Some bits /\ 0 < bits /\
    (forall j, hwloc_bitmap_isset bits j = true -> 0 <= j <= coreobjs) /\
    explicit_cores g' = Some bits.
Proof.
  intros Hd H. unfold parse_option in H.
  destruct opt as [|c opt']; [done|]. cbn [starts_with_digit] in Hd.
  rewrite (eqb_digit_first c opt' "o" "n" Hd eq_refl),
    (eqb_digit_first c opt' "o" "ff" Hd eq_refl),
    (eqb_digit_first c opt' "v" "v" Hd eq_refl),
    (eqb_digit_first c opt' "v" "" Hd eq_refl),
    (eqb_digit_first c opt' "v" "erbose" Hd eq_refl),
    (eqb_digit_first c opt' "w" "" Hd eq_refl) in H.
  cbn [orb] in H.
  cbn [starts_with_digit] in H. rewrite Hd in H.
  destruct (parse_ranges _ _ _ _ _) as [[[rc bits] lsize]|] eqn:E; [|done].
  injection H as -> <-.
  apply parse_ranges_cores in E as (H1 & H2 & _ & H4); [|done|].
  2:{ intros j Hj. unfold hwloc_bitmap_alloc in Hj. by rewrite Z.bits_0 in Hj. }
  destruct (H4 eq_refl ltac:(done)) as (j & Hj).
  assert (bits <> 0) by (intros ->; by rewrite Z.bits_0 in Hj).
  exists bits. split; [done|]. split; [lia|]. split; [exact H2|].
  unfold explicit_cores. cbn [cpubits set_level_size set_cpubits].
  unfold hwloc_bitmap_iszero. by destruct (Z.eqb_spec bits 0).
Qed.

Lemma parse_option_core_list_witness :
  (starts_with_digit "0-3,16" = true /\
   parse_option 16 "0-3,16" 1 initial_globals =
     Parsed 0 (set_level_size 5 (set_cpubits (Some 65551) initial_globals))) /\
  exists bits,
    cpubits (set_level_size 5 (set_cpubits (Some 65551) initial_globals)) = Some bits /\
    0 < bits.
Proof.
  assert (H1 : starts_with_digit "0-3,16" = true) by reflexivity.
  assert (H2 : parse_option 16 "0-3,16" 1 initial_globals =
     Parsed 0 (set_level_size 5 (set_cpubits (Some 65551) initial_globals)))
    by (vm_compute; reflexivity).
  split; [split; assumption|].
  destruct (parse_option_core_list 16 "0-3,16" 1 initial_globals _ H1 H2)
    as (bits & Hb & Hpos & _).
  exists bits. split; assumption.
Defined.

(** X16: what the front end finds when it validates an option string
    ([parse_user_option] in a local context) is what the remote side
    does with the same string: the same return code and the same
    settings.  The one exception is [help]: the local parse prints the
    help text and exits, the remote parse rejects the token with -1. *)
Theorem parse_user_option_contexts (coreobjs : Z) (arg : option string)
    (g : Plugin.globals) :
  match parse_user_option coreobjs arg 0 g with
  | Parsed rc g' => parse_user_option coreobjs arg 1 g = Parsed rc g'
  | Exits => exists g', parse_user_option coreobjs arg 1 g = Parsed (-1) g'
  | Stuck => False
  end.
Proof.
  unfold parse_user_option. destruct arg as [a|]; [|done].
  apply parse_tokens_contexts.
Qed.

(** X17: a task is left alone - its environment as it was, no CPU
    binding - when the callback does not run in a remote context, when
    the plugin is not enabled, or when it was disabled before the call;
    [MPIBIND] in the environment of the task cannot turn the plugin on
    again. *)
Theorem task_init_leaves_task_alone (sp : Plugin.spank) (topo : Topology.topology)
    (g : Plugin.globals) :
  sp_remote sp = false \/ enabled g = 0 \/ disabled g <> 0 ->
  exists g',
    slurm_spank_task_init sp topo g =
      Ok {| tr_globals := g'; tr_env := sp_env sp; tr_cpubind := None |}.
Proof.
  intros H. unfold slurm_spank_task_init.
  destruct (sp_remote sp); cbn [negb]; [|eauto].
  destruct H as [H|H]; [done|].
  destruct (get_remote_env_returns sp g) as (rc & g1 & E). rewrite E.
  assert (Hoff : (enabled g1 =? 0) || negb (disabled g1 =? 0) = true).
  { destruct H as [He|Hd].
    - rewrite (get_remote_env_enabled _ _ _ _ E), He. done.
    - unfold get_remote_env in E. destruct (Z.eqb_spec (disabled g) 0); [done|].
      cbn [negb] in E. injection E as _ <-.
      destruct (Z.eqb_spec (disabled g) 0); [done|]. apply orb_true_r. }
  rewrite Hoff. eauto.
Qed.

Lemma task_init_leaves_task_alone_witness :
  (sp_remote (task 0 "0" [("MPIBIND", "on")]) = false \/
   enabled (set_disabled 1 initial_globals) = 0 \/
   disabled (set_disabled 1 initial_globals) <> 0) /\
  exists g',
    slurm_spank_task_init (task 0 "0" [("MPIBIND", "on")]) topo16
        (set_disabled 1 initial_globals) =
      Ok {| tr_globals := g'; tr_env := sp_env (task 0 "0" [("MPIBIND", "on")]);
            tr_cpubind := None |}.
Proof.
  assert (H : sp_remote (task 0 "0" [("MPIBIND", "on")]) = false \/
              enabled (set_disabled 1 initial_globals) = 0 \/
              disabled (set_disabled 1 initial_globals) <> 0)
    by (right; right; discriminate).
  split; [exact H|].
  exact (task_init_leaves_task_alone (task 0 "0" [("MPIBIND", "on")]) topo16
           (set_disabled 1 initial_globals) H).
Defined.

(** What [group_numas] counts. *)
Lemma group_numas_count : forall devs numagroup gpus numagroup' gpus',
  group_numas devs numagroup gpus = Ok (numagroup', gpus') ->
  GpuInv.count_gpus devs = 0 -> gpus' = gpus.
Proof.
  induction devs as [|obj devs IH]; intros numagroup gpus numagroup' gpus' H Hc.
  - by injection H as _ <-.
  - rewrite count_gpus_cons in Hc. pose proof (count_gpus_nonneg devs).
    cbn [group_numas] in H. destruct (Topology.is_render_gpu obj); [lia|].
    eapply IH; [exact H|lia].
Qed.

(** X18: binding a task touches three variables of its environment at
    most: [OMP_NUM_THREADS], [GOMP_CPU_AFFINITY] and
    [CUDA_VISIBLE_DEVICES]; every other variable keeps its value, and
    [CUDA_VISIBLE_DEVICES] keeps its value too on a node without render
    GPU. *)
Theorem task_init_environment (sp : Plugin.spank) (topo : Topology.topology)
    (g : Plugin.globals) (r : TaskInit.task_result) :
  slurm_spank_task_init sp topo g = Ok r ->
  (forall var : string,
     var <> "OMP_NUM_THREADS"%string -> var <> "GOMP_CPU_AFFINITY"%string ->
     var <> "CUDA_VISIBLE_DEVICES"%string ->
     tr_env r !! var = sp_env sp !! var) /\
  (GpuInv.count_gpus (Topology.topo_osdevs topo) = 0 ->
   tr_env r !! "CUDA_VISIBLE_DEVICES" = sp_env sp !! "CUDA_VISIBLE_DEVICES").
Proof.
  intros H. unfold slurm_spank_task_init in H.
  destruct (sp_remote sp); cbn [negb] in H; [|by injection H as <-].
  destruct (get_remote_env sp g) as [rc g1| |]; [|done|done].
  destruct (_ || _); [by injection H as <-|].
  unfold bind_task in H.
  apply obind_inv in H as ([g2 cpusets] & _ & H).
  apply obind_inv in H as ([numagroup gpus] & Hgn & H).
  apply obind_inv in H as (gpustr & Hgs & H).
  apply obind_inv in H as ([g3 e] & Hexp & H).
  apply obind_inv in H as (raw & _ & H).
  apply obind_inv in H as (cpuset & _ & H).
  injection H as <-. cbn [tr_env].
  assert (He : forall var : string, var <> "OMP_NUM_THREADS"%string ->
                 e !! var = sp_env sp !! var).
  { intros var Hv. unfold export_omp_num_threads in Hexp.
    destruct (num_threads g2 =? 0); [|by injection Hexp as _ <-].
    destruct (local_size g2 =? 0); [done|]. injection Hexp as _ <-.
    by apply spank_setenv_other. }
  split.
  - intros var H1 H2 H3.
    destruct gpustr; destruct (Gomp.get_gomp_str _ _);
      rewrite ?spank_setenv_other by done; by apply He.
  - intros Hc. apply group_numas_count in Hgn; [|done]. subst gpus.
    cbn in Hgs. injection Hgs as <-.
    destruct (Gomp.get_gomp_str _ _);
      rewrite ?spank_setenv_other by done; by apply He.
Qed.

Lemma task_init_environment_witness :
  slurm_spank_task_init (task 0 "0" []) topo16 initial_globals = Ok task0_result /\
  tr_env task0_result !! "SLURM_LOCALID" = sp_env (task 0 "0" []) !! "SLURM_LOCALID".
Proof.
  assert (H : slurm_spank_task_init (task 0 "0" []) topo16 initial_globals
              = Ok task0_result) by (vm_compute; reflexivity).
  split; [exact H|].
  exact (proj1 (task_init_environment (task 0 "0" []) topo16 initial_globals
                  task0_result H)
           "SLURM_LOCALID"%string ltac:(discriminate) ltac:(discriminate)
           ltac:(discriminate)).
Defined.

End OptionClaims.

(** ** The callbacks before [slurm_spank_task_init] *)

Section CallbackFacts.
Import Libc Plugin Options Callbacks.

Lemma string_app_cons c (s t : string) : String c s +:+ t = String c (s +:+ t).
Proof. done. Qed.

Lemma string_app_nil (t : string) : "" +:+ t = t.
Proof. done. Qed.

Lemma isdigit_not_space c : isdigit c = true -> isspace c = false.
Proof. destruct c as [[] [] [] [] [] [] [] []]; by vm_compute. Qed.

Lemma digit_value_range c : isdigit c = true -> 0 <= digit_value c <= 9.
Proof. destruct c as [[] [] [] [] [] [] [] []]; vm_compute; (done || by split). Qed.

(** The digits of [d] are read, and what follows them is left. *)
Lemma read_digits_app d tail : forall acc,
  Forall (fun c => isdigit c = true) (list_ascii_of_string d) ->
  starts_with_digit tail = false ->
  read_digits (d +:+ tail) acc = (fst (read_digits d acc), tail).
Proof.
  induction d as [|c d IH]; intros acc Hd Ht.
  - rewrite string_app_nil. destruct tail as [|c t]; [done|].
    cbn [starts_with_digit] in Ht. cbn [read_digits]. by rewrite Ht.
  - cbn [list_ascii_of_string] in Hd. apply Forall_cons in Hd as [Hc Hd].
    rewrite string_app_cons. cbn [read_digits]. rewrite Hc. by apply IH.
Qed.

Lemma read_digits_nonneg d : forall acc,
  0 <= acc -> 0 <= fst (read_digits d acc).
Proof.
  induction d as [|c d IH]; intros acc Ha; cbn [read_digits]; [done|].
  destruct (isdigit c) eqn:Hc; [|done].
  apply IH. pose proof (digit_value_range c Hc). lia.
Qed.

(** [strtol] on a number followed by something that is not a digit. *)
Lemma strtol_digits d tail :
  Forall (fun c => isdigit c = true) (list_ascii_of_string d) ->
  d <> EmptyString -> starts_with_digit tail = false ->
  strtol (d +:+ tail) =
    (Z.max LONG_MIN (Z.min LONG_MAX (fst (read_digits d 0))), tail) /\
  strtol_erange (d +:+ tail) = (LONG_MAX <? fst (read_digits d 0)).
Proof.
  intros Hd Hne Ht. destruct d as [|c d]; [done|].
  pose proof Hd as Hd'. cbn [list_ascii_of_string] in Hd'.
  apply Forall_cons in Hd' as [Hc _].
  pose proof (read_digits_app (String c d) tail 0 Hd Ht) as Hr.
  pose proof (read_digits_nonneg (String c d) 0 ltac:(lia)) as Hnn.
  rewrite string_app_cons in *.
  unfold strtol, strtol_erange. cbn [skip_spaces].
  rewrite (isdigit_not_space c Hc).
  assert (Hconv : convert_digits false (String c (d +:+ tail)) (String c (d +:+ tail)) =
            (Z.max LONG_MIN (Z.min LONG_MAX (fst (read_digits (String c d) 0))), tail)).
  { unfold convert_digits. rewrite Hc, Hr. done. }
  assert (Hover : digits_overflow false (String c (d +:+ tail)) =
            (LONG_MAX <? fst (read_digits (String c d) 0))).
  { unfold digits_overflow. rewrite Hc, Hr. cbn [fst].
    destruct (Z.ltb_spec (fst (read_digits (String c d) 0)) LONG_MIN) as [Hlt|_]; [|done].
    unfold LONG_MIN in Hlt. lia. }
  destruct c as [[] [] [] [] [] [] [] []]; try discriminate Hc; by split.
Qed.

(** A value whose number is followed by a comma is rejected. *)
Lemma str2int_comma d rest :
  Forall (fun c => isdigit c = true) (list_ascii_of_string d) ->
  str2int (d +:+ String "," rest) = -1.
Proof.
  intros Hd. destruct d as [|c d]; [done|]. unfold str2int.
  destruct (strtol_digits (String c d) (String "," rest) Hd ltac:(done) eq_refl)
    as [-> _].
  cbn [negb]. by rewrite orb_true_r.
Qed.

(** A number, alone or followed by a parenthesis, is read as it
    stands. *)
Lemma str2int_number d tail :
  Forall (fun c => isdigit c = true) (list_ascii_of_string d) ->
  d <> EmptyString ->
  tail = EmptyString \/ (exists rest, tail = String "(" rest) ->
  fst (read_digits d 0) < 2 ^ 31 ->
  str2int (d +:+ tail) = fst (read_digits d 0).
Proof.
  intros Hd Hne Ht Hv.
  assert (Hs : starts_with_digit tail = false) by (by destruct Ht as [->|[rest ->]]).
  pose proof (read_digits_nonneg d 0 ltac:(lia)) as Hnn.
  unfold str2int. destruct (strtol_digits d tail Hd Hne Hs) as [-> ->].
  destruct (Z.ltb_spec LONG_MAX (fst (read_digits d 0))) as [Hlt|_].
  { unfold LONG_MAX in Hlt. lia. }
  assert (Hw : (match tail with
                | EmptyString => true
                | String "(" _ => true
                | String _ _ => false
                end) = true) by (by destruct Ht as [->|[rest ->]]).
  rewrite Hw. cbn [orb negb].
  unfold LONG_MIN, LONG_MAX. rewrite Z.min_r, Z.max_r by lia.
  apply wrap32_id. unfold in_int32. lia.
Qed.

Lemma job_is_exclusive_enabled sp v g :
  job_is_exclusive sp (set_enabled v g) = job_is_exclusive sp g.
Proof. done. Qed.

(** A task of a step that is not enabled is left alone. *)
Lemma task_init_not_enabled sp topo g :
  sp_remote sp = true -> enabled g = 0 ->
  exists g',
    TaskInit.slurm_spank_task_init sp topo g =
      Ok {| TaskInit.tr_globals := g'; TaskInit.tr_env := sp_env sp;
            TaskInit.tr_cpubind := None |}.
Proof.
  intros Hr He. unfold TaskInit.slurm_spank_task_init. rewrite Hr. cbn [negb].
  destruct (get_remote_env_returns sp g) as (rc & g1 & E). rewrite E.
  rewrite (get_remote_env_enabled _ _ _ _ E), He. cbn [Z.eqb orb]. eauto.
Qed.

(** The text after [mpibind=]. *)
Lemma substring_all s : String.substring 0 (String.length s) s = s.
Proof. induction s as [|c s IH]; [done|]. cbn. by rewrite IH. Qed.

Lemma prefix_split (p s : string) :
  String.prefix p s = true -> exists r, s = p +:+ r.
Proof.
  revert s. induction p as [|c p IH]; intros s H.
  - by exists s.
  - destruct s as [|c' s]; [done|]. cbn [String.prefix] in H.
    destruct (ascii_dec c c') as [->|]; [|done].
    destruct (IH s H) as [r ->]. by exists r.
Qed.

Lemma mpibind_arg_off a :
  String.prefix "mpibind=" a = true ->
  String.eqb (String.substring 8 (String.length a - 8) a) "off" =
  String.eqb a "mpibind=off".
Proof.
  intros [r ->]%prefix_split.
  change (String.substring 8 (String.length ("mpibind=" +:+ r) - 8) ("mpibind=" +:+ r))
    with (String.substring 0 (String.length r - 0) r).
  by rewrite Nat.sub_0_r, substring_all.
Qed.

End CallbackFacts.

Section CallbackClaims.
Import Libc Plugin Options Callbacks TaskInit Node.

(** X19: the tasks of a batch script step (step id [0xfffffffe]) are
    left alone: [slurm_spank_user_init] does not enable the plugin, and
    [slurm_spank_task_init] then changes nothing in the environment of
    the task and binds nothing, whatever options were given. *)
Theorem batch_step_left_alone (sp : Plugin.spank) (topo : Topology.topology)
    (g : Plugin.globals) :
  sp_remote sp = true ->
  exists g',
    slurm_spank_task_init sp topo (slurm_spank_user_init sp (Some 4294967294) g) =
      Ok {| tr_globals := g'; tr_env := sp_env sp; tr_cpubind := None |}.
Proof.
  intros Hr. unfold slurm_spank_user_init. rewrite Hr. cbn [negb].
  change (job_step_is_batch (Some 4294967294)) with 1. cbn [Z.eqb negb].
  by apply task_init_not_enabled.
Qed.

Lemma batch_step_left_alone_witness :
  sp_remote (task 0 "0" [("MPIBIND", "vv.0-3")]) = true /\
  exists g',
    slurm_spank_task_init (task 0 "0" [("MPIBIND", "vv.0-3")]) topo16
        (slurm_spank_user_init (task 0 "0" [("MPIBIND", "vv.0-3")])
           (Some 4294967294) initial_globals) =
      Ok {| tr_globals := g';
            tr_env := sp_env (task 0 "0" [("MPIBIND", "vv.0-3")]);
            tr_cpubind := None |}.
Proof.
  split; [reflexivity|].
  exact (batch_step_left_alone (task 0 "0" [("MPIBIND", "vv.0-3")]) topo16
           initial_globals eq_refl).
Defined.

(** X20: the tasks of a job that does not hold its node as a whole are
    left alone.  That is the case when [SLURM_JOB_CPUS_PER_NODE] is not
    set, when its value does not fit the 16 bytes [job_is_exclusive]
    reads it into, and when the value is a list: a number followed by a
    comma, as in [20,13,1(x2)]. *)
Theorem partial_allocation_left_alone (sp : Plugin.spank) (stepid : option Z)
    (topo : Topology.topology) (g : Plugin.globals) :
  sp_remote sp = true ->
  sp_env sp !! "SLURM_JOB_CPUS_PER_NODE" = None \/
  (exists v, sp_env sp !! "SLURM_JOB_CPUS_PER_NODE" = Some v /\
             (16 <= String.length v)%nat) \/
  (exists d rest,
      sp_env sp !! "SLURM_JOB_CPUS_PER_NODE" = Some (d +:+ String "," rest) /\
      Forall (fun c => isdigit c = true) (list_ascii_of_string d)) ->
  exists g',
    slurm_spank_task_init sp topo (slurm_spank_user_init sp stepid g) =
      Ok {| tr_globals := g'; tr_env := sp_env sp; tr_cpubind := None |}.
Proof.
  intros Hr Hv. unfold slurm_spank_user_init. rewrite Hr. cbn [negb].
  destruct (negb (job_step_is_batch stepid =? 0)); [by apply task_init_not_enabled|].
  assert (Hex : job_is_exclusive sp (set_enabled 0 g) = 0).
  { unfold job_is_exclusive, spank_getenv.
    destruct Hv as [->|[(v & -> & Hlen)|(d & rest & -> & Hd)]]; [done| |].
    - destruct (Z.ltb_spec (Z.of_nat (String.length v)) 16); [lia|done].
    - destruct (_ <? 16); [|done]. by rewrite (str2int_comma d rest Hd). }
  rewrite Hex. cbn [Z.eqb]. by apply task_init_not_enabled.
Qed.

Lemma partial_allocation_left_alone_witness :
  (sp_remote (task 0 "0" [("SLURM_JOB_CPUS_PER_NODE", "20,13,1(x2)")]) = true /\
   exists d rest,
     sp_env (task 0 "0" [("SLURM_JOB_CPUS_PER_NODE", "20,13,1(x2)")])
       !! "SLURM_JOB_CPUS_PER_NODE" = Some (d +:+ String "," rest) /\
     Forall (fun c => isdigit c = true) (list_ascii_of_string d)) /\
  exists g',
    slurm_spank_task_init (task 0 "0" [("SLURM_JOB_CPUS_PER_NODE", "20,13,1(x2)")])
        topo16
        (slurm_spank_user_init
           (task 0 "0" [("SLURM_JOB_CPUS_PER_NODE", "20,13,1(x2)")]) (Some 0)
           initial_globals) =
      Ok {| tr_globals := g';
            tr_env := sp_env (task 0 "0" [("SLURM_JOB_CPUS_PER_NODE", "20,13,1(x2)")]);
            tr_cpubind := None |}.
Proof.
  assert (H : exists d rest,
     sp_env (task 0 "0" [("SLURM_JOB_CPUS_PER_NODE", "20,13,1(x2)")])
       !! "SLURM_JOB_CPUS_PER_NODE" = Some (d +:+ String "," rest) /\
     Forall (fun c => isdigit c = true) (list_ascii_of_string d)).
  { exists "20"%string, "13,1(x2)"%string. split; [vm_compute; reflexivity|].
    repeat constructor. }
  split; [split; [reflexivity|exact H]|].
  exact (partial_allocation_left_alone
           (task 0 "0" [("SLURM_JOB_CPUS_PER_NODE", "20,13,1(x2)")]) (Some 0)
           topo16 initial_globals eq_refl (or_intror (or_intror H))).
Defined.

(** X21: a step that is not a batch script is enabled when
    [SLURM_JOB_CPUS_PER_NODE] is a number, alone or followed by a
    parenthesis as in [36(x2)], of fewer than 16 characters, and the
    number is not below [level_size] (the number of cores the user
    listed, 0 when none was listed). *)
Theorem exclusive_step_enabled (sp : Plugin.spank) (stepid : option Z)
    (g : Plugin.globals) (d tail : string) :
  sp_remote sp = true -> job_step_is_batch stepid = 0 ->
  sp_env sp !! "SLURM_JOB_CPUS_PER_NODE" = Some (d +:+ tail) ->
  Forall (fun c => isdigit c = true) (list_ascii_of_string d) ->
  d <> EmptyString ->
  tail = EmptyString \/ (exists rest, tail = String "(" rest) ->
  (String.length (d +:+ tail) < 16)%nat ->
  level_size g <= fst (read_digits d 0) < 2 ^ 31 ->
  enabled (slurm_spank_user_init sp stepid g) = 1.
Proof.
  intros Hr Hb Hv Hd Hne Ht Hlen Hn.
  pose proof (read_digits_nonneg d 0 ltac:(lia)) as Hnn.
  unfold slurm_spank_user_init. rewrite Hr, Hb. cbn [negb Z.eqb].
  assert (Hex : job_is_exclusive sp (set_enabled 0 g) = 1).
  { unfold job_is_exclusive, spank_getenv. rewrite Hv.
    destruct (Z.ltb_spec (Z.of_nat (String.length (d +:+ tail))) 16); [|lia].
    rewrite (str2int_number d tail Hd Hne Ht ltac:(lia)).
    destruct (Z.ltb_spec (fst (read_digits d 0)) 0); [lia|].
    rewrite wrapu32_id by (unfold in_uint32; lia).
    cbn [level_size set_enabled].
    destruct (Z.leb_spec (level_size g) (fst (read_digits d 0))); [done|lia]. }
  rewrite Hex. done.
Qed.

Lemma exclusive_step_enabled_witness :
  (sp_remote (task 0 "0" [("SLURM_JOB_CPUS_PER_NODE", "36(x2)")]) = true /\
   job_step_is_batch (Some 0) = 0 /\
   sp_env (task 0 "0" [("SLURM_JOB_CPUS_PER_NODE", "36(x2)")])
     !! "SLURM_JOB_CPUS_PER_NODE" = Some ("36" +:+ "(x2)") /\
   (String.length ("36" +:+ "(x2)") < 16)%nat /\
   level_size initial_globals <= fst (read_digits "36" 0) < 2 ^ 31) /\
  enabled (slurm_spank_user_init (task 0 "0" [("SLURM_JOB_CPUS_PER_NODE", "36(x2)")])
             (Some 0) initial_globals) = 1.
Proof.
  assert (H1 : sp_env (task 0 "0" [("SLURM_JOB_CPUS_PER_NODE", "36(x2)")])
     !! "SLURM_JOB_CPUS_PER_NODE" = Some ("36" +:+ "(x2)")) by (vm_compute; reflexivity).
  assert (H2 : (String.length ("36" +:+ "(x2)") < 16)%nat) by (vm_compute; lia).
  assert (H3 : level_size initial_globals <= fst (read_digits "36" 0) < 2 ^ 31)
    by (vm_compute; split; (discriminate || reflexivity)).
  split; [repeat split; (reflexivity || exact H1 || exact H2 || apply H3)|].
  apply (exclusive_step_enabled (task 0 "0" [("SLURM_JOB_CPUS_PER_NODE", "36(x2)")])
           (Some 0) initial_globals "36" "(x2)" eq_refl eq_refl H1).
  - repeat constructor.
  - discriminate.
  - right. by exists "x2)"%string.
  - exact H2.
  - exact H3.
Defined.

(** X22: of the arguments of the plugin, [slurm_spank_init] takes the
    first one that starts with [mpibind=] and nothing after it; it
    disables the plugin when that argument is [mpibind=off], and
    changes nothing otherwise ([mpibind=on] included) or in a local
    context. *)
Theorem slurm_spank_init_first_arg (sp : Plugin.spank) (av : list string)
    (g : Plugin.globals) :
  slurm_spank_init sp av g =
    match (if sp_remote sp then List.find (String.prefix "mpibind=") av else None) with
    | Some a => if String.eqb a "mpibind=off" then set_disabled 1 g else g
    | None => g
    end.
Proof.
  unfold slurm_spank_init. destruct (sp_remote sp); cbn [negb]; [|done].
  induction av as [|a av IH]; cbn [init_args List.find]; [done|].
  destruct (String.prefix "mpibind=" a) eqn:Hp; [|exact IH].
  cbv zeta. by rewrite (mpibind_arg_off a Hp).
Qed.

End CallbackClaims.

(** ** The binding and [GOMP_CPU_AFFINITY] *)

Section BindingFacts.
Import Hwloc Topology Plugin TaskInit Finite Render.

Lemma Pweight_le_log2 p : Pweight p <= Z.log2 (Zpos p) + 1.
Proof.
  induction p as [q IH|q IH|]; cbn [Pweight].
  - change (Z.pos q~1) with (2 * Z.pos q + 1).
    rewrite Z.log2_succ_double by lia. lia.
  - change (Z.pos q~0) with (2 * Z.pos q).
    rewrite Z.log2_double by lia. lia.
  - done.
Qed.

Lemma weight_below n c : 0 <= c < 2 ^ n -> hwloc_bitmap_weight c <= n.
Proof.
  intros Hc. destruct c as [|p|p]; [| |lia].
  - cbn. destruct (Z.lt_ge_cases n 0) as [Hn|Hn]; [|done].
    rewrite Z.pow_neg_r in Hc by done. lia.
  - cbn [hwloc_bitmap_weight]. pose proof (Pweight_le_log2 p).
    assert (Z.log2 (Z.pos p) < n) by (apply Z.log2_lt_pow2; lia). lia.
Qed.

Lemma lor_below n a b :
  0 <= a < 2 ^ n -> 0 <= b < 2 ^ n -> 0 <= Z.lor a b < 2 ^ n.
Proof.
  intros Ha Hb.
  assert (Hnn : 0 <= Z.lor a b) by (apply Z.lor_nonneg; lia).
  split; [done|].
  destruct (Z.eq_dec (Z.lor a b) 0) as [->|Hne]; [lia|].
  apply Z.log2_lt_pow2; [lia|]. rewrite Z.log2_lor by lia.
  assert (Hn : 0 < n).
  { destruct (Z.lt_ge_cases 0 n) as [|Hn]; [done|].
    assert (2 ^ n <= 1).
    { destruct (Z.eq_dec n 0) as [->|]; [done|]. rewrite Z.pow_neg_r by lia. lia. }
    assert (a = 0) by lia. assert (b = 0) by lia. subst. done. }
  assert (Z.log2 a < n).
  { destruct (Z.eq_dec a 0) as [->|]; [done|]. apply Z.log2_lt_pow2; lia. }
  assert (Z.log2 b < n).
  { destruct (Z.eq_dec b 0) as [->|]; [done|]. apply Z.log2_lt_pow2; lia. }
  lia.
Qed.

Lemma or_loop_below n0 cpusets :
  Forall (fun c => 0 <= c < 2 ^ n0) cpusets ->
  forall n i acc raw,
    0 <= acc < 2 ^ n0 -> Slice.or_loop n cpusets i acc = Ok raw ->
    0 <= raw < 2 ^ n0.
Proof.
  intros Hall. induction n as [|n IH]; intros i acc raw Ha H.
  - by injection H as <-.
  - cbn [Slice.or_loop] in H. apply obind_inv in H as (c & Hc & H).
    apply zget_inv in Hc as [_ Hc].
    pose proof (Forall_lookup_1 _ _ _ _ Hall Hc) as Hcb. cbn in Hcb.
    apply (IH _ _ _ (lor_below n0 acc c Ha Hcb) H).
Qed.

Lemma pick_cores_below n0 bits lsize : forall cores i acc n cpusets n',
  cpusets_below n0 cores -> Forall (fun c => 0 <= c < 2 ^ n0) acc ->
  pick_cores cores i bits lsize acc n = Ok (cpusets, n') ->
  Forall (fun c => 0 <= c < 2 ^ n0) cpusets.
Proof.
  induction cores as [|obj cores IH]; intros i acc n cpusets n' Hc Ha H.
  - by injection H as <- _.
  - apply Forall_cons in Hc as [Hobj Hc]. cbn [pick_cores] in H.
    destruct (hwloc_bitmap_isset bits i); [|by eapply IH].
    destruct obj as [c|]; [|done]. destruct (n <? lsize); [|done].
    eapply IH; [exact Hc| |exact H].
    apply Forall_app. split; [done|]. constructor; [by apply Hobj|constructor].
Qed.

Lemma collect_level_below n0 level :
  cpusets_below n0 level ->
  forall n i acc cpusets,
    Forall (fun c => 0 <= c < 2 ^ n0) acc ->
    collect_level n i level acc = Ok cpusets ->
    Forall (fun c => 0 <= c < 2 ^ n0) cpusets.
Proof.
  intros Hl. induction n as [|n IH]; intros i acc cpusets Ha H.
  - by injection H as <-.
  - cbn [collect_level] in H.
    destruct (level !! Z.to_nat i) as [[c|]|] eqn:E; [|done|done].
    pose proof (Forall_lookup_1 _ _ _ _ Hl E c eq_refl) as Hc.
    eapply IH; [|exact H].
    apply Forall_app. split; [done|]. constructor; [done|constructor].
Qed.

Lemma unit_pool_below n0 topo g g' cpusets :
  topology_below n0 topo -> unit_pool topo g = Ok (g', cpusets) ->
  Forall (fun c => 0 <= c < 2 ^ n0) cpusets.
Proof.
  intros [Hlev Hcores] H. unfold unit_pool in H.
  destruct (explicit_cores g) as [bits|].
  - unfold select_cores in H. apply obind_inv in H as ([cs n] & Hp & H).
    injection H as _ <-.
    by apply (pick_cores_below n0 _ _ _ _ _ _ _ _ Hcores (Forall_nil_2 _)) in Hp.
  - unfold select_by_depth in H.
    destruct (find_depth _ _ _ _) as [depth lsize].
    apply obind_inv in H as (cs & Hc & H). injection H as _ <-.
    eapply (collect_level_below n0); [|apply Forall_nil_2|exact Hc].
    destruct (topo_levels topo !! _) as [level|] eqn:E; cbn [default from_option].
    + apply (Forall_lookup_1 _ _ _ _ Hlev E).
    + apply Forall_nil_2.
Qed.

Lemma spank_setenv_set e var val ow :
  ow <> 0 -> spank_setenv e var val ow !! var = Some val.
Proof.
  intros Hne. unfold spank_setenv.
  destruct (e !! var); [destruct (Z.eqb_spec ow 0); [done|]|]; apply lookup_insert_eq.
Qed.

Lemma get_gomp_str_spec num_threads cpuset :
  0 <= cpuset ->
  Gomp.get_gomp_str num_threads cpuset =
    comma_list (take (Z.to_nat (wrap32 num_threads)) (members cpuset)).
Proof.
  intros Hc. unfold Gomp.get_gomp_str. destruct cpuset as [|p|p]; [| |lia].
  - cbn [hwloc_bitmap_first]. rewrite gomp_loop_end.
    change (members 0) with (@nil Z). by rewrite take_nil.
  - pose proof (gomp_loop_spec p 0 0 (Z.to_nat (wrap32 num_threads)) None
                  ltac:(lia) ltac:(lia)) as H.
    rewrite Z.pow_0_r, !Z.add_0_l, Z.mul_1_l in H.
    cbn [hwloc_bitmap_first]. rewrite H. apply fold_add_item.
Qed.

End BindingFacts.

Section BindingClaims.
Import Hwloc Topology Plugin Options TaskInit Finite Render Node.

(** X23: when a task is bound on a node with finite cpusets (no unit
    index of [n] or above, [n] below 2^31; [num_threads] a
    [uint32_t]), the cpuset it is bound to is finite and has
    [num_threads] units at most, and [GOMP_CPU_AFFINITY] is set to
    exactly the units of that cpuset, in ascending order - unless the
    cpuset is empty or [num_threads] is 2^31 or more (a negative count
    for the [int32_t] that [get_gomp_str] counts with): then the
    variable is left as it was on entry. *)
Theorem gomp_cpu_affinity_is_binding (sp : Plugin.spank) (topo : Topology.topology)
    (g : Plugin.globals) (r : TaskInit.task_result) (cpuset : Hwloc.hwloc_bitmap_t)
    (n : Z) :
  slurm_spank_task_init sp topo g = Ok r -> tr_cpubind r = Some cpuset ->
  topology_below n topo -> n < 2 ^ 31 ->
  0 <= num_threads (tr_globals r) < 2 ^ 32 ->
  0 <= cpuset /\
  Z.of_nat (length (members cpuset)) <= num_threads (tr_globals r) /\
  tr_env r !! "GOMP_CPU_AFFINITY" =
    if (cpuset =? 0) || (2 ^ 31 <=? num_threads (tr_globals r))
    then sp_env sp !! "GOMP_CPU_AFFINITY"
    else Some (String.concat "," (map Gpu.print_d (members cpuset))).
Proof.
  intros H Hb Htopo Hn Hnt. unfold slurm_spank_task_init in H.
  destruct (sp_remote sp); cbn [negb] in H; [|by injection H as <-].
  destruct (get_remote_env sp g) as [rc g1| |]; [|done|done].
  destruct (_ || _); [by injection H as <-|].
  unfold bind_task in H.
  apply obind_inv in H as ([g2 cpusets] & Hpool & H).
  apply obind_inv in H as ([numagroup gpus] & _ & H).
  apply obind_inv in H as (gpustr & _ & H).
  apply obind_inv in H as ([g3 e] & Hexp & H).
  apply obind_inv in H as (raw & Hraw & H).
  apply obind_inv in H as (final & Hred & H).
  injection H as <-. cbn [tr_cpubind tr_env tr_globals] in *.
  injection Hb as ->.
  (* the variable before it is set *)
  assert (He : e !! "GOMP_CPU_AFFINITY" = sp_env sp !! "GOMP_CPU_AFFINITY").
  { unfold export_omp_num_threads in Hexp.
    destruct (num_threads g2 =? 0); [|by injection Hexp as _ <-].
    destruct (local_size g2 =? 0); [done|]. injection Hexp as _ <-.
    by apply spank_setenv_other. }
  (* the raw unit-set is finite *)
  apply (unit_pool_below n) in Hpool; [|done].
  assert (Hpool' : Forall (fun c => 0 <= c < 2 ^ Z.max n 0) cpusets).
  { eapply Forall_impl; [exact Hpool|]. intros c Hc. cbn in Hc.
    destruct (Z.lt_ge_cases n 0) as [Hneg|Hpos].
    - rewrite Z.pow_neg_r in Hc by done. lia.
    - by rewrite Z.max_l by lia. }
  unfold Slice.raw_cpuset in Hraw.
  apply obind_inv in Hraw as (index & _ & Hraw).
  apply obind_inv in Hraw as (count & _ & Hraw).
  apply (or_loop_below (Z.max n 0) cpusets Hpool') in Hraw.
  2:{ unfold hwloc_bitmap_alloc. split; [done|]. apply Z.pow_pos_nonneg; lia. }
  pose proof (weight_below _ raw Hraw) as Hw.
  destruct (reduce_cpuset_spec (num_threads g3) raw ltac:(lia) Hnt ltac:(lia))
    as (f & Hf & Hf0 & Hm).
  rewrite Hf in Hred. injection Hred as ->.
  assert (Hlen : Z.of_nat (length (members cpuset)) <= num_threads g3).
  { rewrite Hm, length_take. lia. }
  split; [done|]. split; [done|].
  assert (Hset : forall e0 : gmap string string,
    (match gpustr with
     | Some str => spank_setenv e0 "CUDA_VISIBLE_DEVICES" str 1
     | None => e0
     end) !! "GOMP_CPU_AFFINITY" = e0 !! "GOMP_CPU_AFFINITY").
  { intros e0. destruct gpustr; [|done]. by apply spank_setenv_other. }
  rewrite Hset, get_gomp_str_spec by done.
  destruct (Z.eqb_spec cpuset 0) as [->|Hne]; cbn [orb].
  { change (members 0) with (@nil Z). by rewrite take_nil. }
  destruct (Z.leb_spec (2 ^ 31) (num_threads g3)) as [Hbig|Hsmall].
  - (* the count is negative as an [int32_t] *)
    assert (Hwrap : wrap32 (num_threads g3) = num_threads g3 - 2 ^ 32).
    { unfold wrap32.
      replace (num_threads g3 + 2 ^ 31)
        with (num_threads g3 - 2 ^ 31 + 1 * 2 ^ 32) by lia.
      rewrite Z.mod_add by lia. rewrite Z.mod_small by lia. lia. }
    rewrite Hwrap. replace (Z.to_nat (num_threads g3 - 2 ^ 32)) with 0%nat by lia.
    done.
  - rewrite wrap32_id by (unfold in_int32; lia).
    rewrite take_ge by lia.
    destruct cpuset as [|p|p]; [done| |lia].
    pose proof (Pmembers_head p 0) as Hh. unfold members. cbn [members_from].
    destruct (Pmembers 0 p) as [|x l] eqn:Ep; [done|].
    by apply spank_setenv_set.
Qed.

Lemma gomp_cpu_affinity_is_binding_witness :
  (slurm_spank_task_init (task 0 "0" []) topo16 initial_globals = Ok task0_result /\
   tr_cpubind task0_result = Some 15 /\
   topology_below 16 topo16 /\ 16 < 2 ^ 31 /\
   0 <= num_threads (tr_globals task0_result) < 2 ^ 32) /\
  tr_env task0_result !! "GOMP_CPU_AFFINITY" = Some "0,1,2,3"%string.
Proof.
  assert (H1 : slurm_spank_task_init (task 0 "0" []) topo16 initial_globals
               = Ok task0_result) by (vm_compute; reflexivity).
  assert (H2 : tr_cpubind task0_result = Some 15) by reflexivity.
  assert (H3 : topology_below 16 topo16).
  { unfold topology_below, cpusets_below, topo16. cbn [topo_levels topo_cores].
    let l := eval vm_compute in core_cpusets in change core_cpusets with l.
    split; repeat first
      [ apply Forall_nil_2
      | apply Forall_cons; split; [try (intros c [= <-]; vm_compute; split; congruence)|] ]. }
  assert (H4 : 0 <= num_threads (tr_globals task0_result) < 2 ^ 32)
    by (vm_compute; split; (discriminate || reflexivity)).
  split; [repeat split; (exact H1 || exact H2 || apply H3 || apply H4 || lia)|].
  exact (proj2 (proj2 (gomp_cpu_affinity_is_binding (task 0 "0" []) topo16
                         initial_globals task0_result 15 16 H1 H2 H3
                         ltac:(lia) H4))).
Defined.

(** The same step with [OMP_NUM_THREADS=3000000000]: the task is bound
    to the same four units, and [GOMP_CPU_AFFINITY] is not set. *)
Lemma gomp_cpu_affinity_large_count :
  exists r,
    slurm_spank_task_init (task 0 "0" [("OMP_NUM_THREADS", "3000000000")]) topo16
      initial_globals = Ok r /\
    tr_cpubind r = Some 15 /\ num_threads (tr_globals r) = 3000000000 /\
    tr_env r !! "GOMP_CPU_AFFINITY" = None.
Proof. eexists. repeat split; vm_compute; reflexivity. Qed.

End BindingClaims.

(** ** Validation on the front end *)

Section ValidationFacts.
Import Libc Plugin Options Callbacks.

(** Whether an option is accepted does not depend on the settings it
    is applied to. *)
Lemma parse_option_rc coreobjs opt remote g rc g1 g' :
  parse_option coreobjs opt remote g = Parsed rc g1 ->
  exists g1', parse_option coreobjs opt remote g' = Parsed rc g1'.
Proof.
  unfold parse_option.
  destruct (String.eqb opt "on"); [intros [= <- _]; eauto|].
  destruct (String.eqb opt "off"); [intros [= <- _]; eauto|].
  destruct (String.eqb opt "vv"); [intros [= <- _]; eauto|].
  destruct (String.eqb opt "v" || String.eqb opt "verbose"); [intros [= <- _]; eauto|].
  destruct (String.eqb opt "w"); [intros [= <- _]; eauto|].
  destruct (starts_with_digit opt).
  - destruct (parse_ranges _ _ _ _ _) as [[[rc0 bits] lsize]|]; [|done].
    intros [= <- _]. eauto.
  - destruct (String.eqb opt "help" && (remote =? 0)); [done|].
    intros [= <- _]. eauto.
Qed.

Lemma parse_tokens_rc coreobjs remote : forall tokens g rc g1 g',
  parse_tokens coreobjs tokens remote g = Parsed rc g1 ->
  exists g1', parse_tokens coreobjs tokens remote g' = Parsed rc g1'.
Proof.
  induction tokens as [|opt rest IH]; intros g rc g1 g' H; cbn [parse_tokens] in *.
  - injection H as <- _. eauto.
  - destruct (parse_option coreobjs opt remote g) as [rc1 g2| |] eqn:E; [|done|done].
    destruct (parse_option_rc _ _ _ _ _ _ g' E) as (g2' & ->).
    destruct (rc1 =? 0); [by eapply IH|]. injection H as <- _. eauto.
Qed.

(** What a local parse returns, a remote one returns too. *)
Lemma parse_user_option_remote_of_local coreobjs val g g' :
  parse_user_option coreobjs (Some val) 0 g = Parsed 0 g' ->
  parse_user_option coreobjs (Some val) 1 g = Parsed 0 g'.
Proof.
  cbn [parse_user_option]. intros H.
  pose proof (parse_tokens_contexts coreobjs (split_dots val) g) as Hc.
  by rewrite H in Hc.
Qed.

End ValidationFacts.

Section ValidationClaims.
Import Libc Plugin Options Callbacks Node.

(** X24: an [MPIBIND] value that the front end has validated
    ([get_local_env] returns 0, the plugin not being disabled there) is
    accepted on every node with the same number of processors:
    [get_remote_env] returns 0 for every task whose rank and local task
    count SLURM provides, whatever the settings of the plugin on that
    node. *)
Theorem validated_options_accepted (sp : Plugin.spank) (g g1 : Plugin.globals)
    (gr : Plugin.globals) (r n : Z) (lr : string) :
  disabled g = 0 ->
  get_local_env (sp_env sp) (sp_nprocessors_onln sp) g = Parsed 0 g1 ->
  sp_task_id sp = Some r -> sp_local_task_count sp = Some n ->
  spank_getenv (sp_env sp) "SLURM_LOCALID" 64 = Some lr ->
  exists g2, get_remote_env sp gr = Parsed 0 g2.
Proof.
  intros Hd Hloc Hr Hn Hlr. unfold get_local_env in Hloc. rewrite Hd in Hloc.
  cbn [Z.eqb negb] in Hloc.
  assert (Hparse : forall gx, exists g2,
    match spank_getenv (sp_env sp) "MPIBIND" 64 with
    | Some v => parse_user_option (sp_nprocessors_onln sp) (Some v) 1 gx
    | None => Parsed 0 gx
    end = Parsed 0 g2).
  { intros gx. unfold spank_getenv.
    destruct (sp_env sp !! "MPIBIND") as [val|] eqn:Em; [|eauto].
    destruct (Z.of_nat (String.length val) <? 64); [|eauto].
    destruct (parse_user_option (sp_nprocessors_onln sp) (Some val) 0 g)
      as [rc g'| |] eqn:Ep; [|done|done].
    injection Hloc as -> _.
    pose proof (parse_user_option_remote_of_local (sp_nprocessors_onln sp) val g g' Ep)
      as Hrem.
    cbn [parse_user_option] in Hrem |- *.
    eapply parse_tokens_rc. exact Hrem. }
  unfold get_remote_env. destruct (negb (disabled gr =? 0)); [eauto|].
  rewrite Hr, Hn, Hlr.
  destruct (spank_getenv (sp_env sp) "OMPI_COMM_WORLD_LOCAL_RANK" 64) as [v|];
    apply Hparse.
Qed.

Lemma validated_options_accepted_witness :
  (disabled initial_globals = 0 /\
   get_local_env (sp_env (task 3 "3" [("MPIBIND", "w.0-7")])) 16 initial_globals =
     Parsed 0 (set_num_threads 0
                 (set_level_size 8 (set_cpubits (Some 255)
                    (set_verbose 1 initial_globals)))) /\
   sp_task_id (task 3 "3" [("MPIBIND", "w.0-7")]) = Some 3 /\
   sp_local_task_count (task 3 "3" [("MPIBIND", "w.0-7")]) = Some 4 /\
   spank_getenv (sp_env (task 3 "3" [("MPIBIND", "w.0-7")])) "SLURM_LOCALID" 64
     = Some "3"%string) /\
  exists g2,
    get_remote_env (task 3 "3" [("MPIBIND", "w.0-7")]) (set_verbose 3 initial_globals)
      = Parsed 0 g2.
Proof.
  assert (H1 : get_local_env (sp_env (task 3 "3" [("MPIBIND", "w.0-7")])) 16
                 initial_globals =
     Parsed 0 (set_num_threads 0
                 (set_level_size 8 (set_cpubits (Some 255)
                    (set_verbose 1 initial_globals)))))
    by (vm_compute; reflexivity).
  assert (H2 : spank_getenv (sp_env (task 3 "3" [("MPIBIND", "w.0-7")]))
                 "SLURM_LOCALID" 64 = Some "3"%string) by (vm_compute; reflexivity).
  split; [repeat split; (reflexivity || exact H1 || exact H2)|].
  exact (validated_options_accepted (task 3 "3" [("MPIBIND", "w.0-7")])
           initial_globals _ (set_verbose 3 initial_globals) 3 4 "3"
           eq_refl H1 eq_refl eq_refl H2).
Defined.

End ValidationClaims.

(** ** The slices of the tasks of a node *)

Section SliceMore.
Import Hwloc Slice.

(** The raw unit-set, for a slice that lies within the pool. *)
Lemma raw_cpuset_fold cpusets level_size local_size local_rank index count :
  slice_index level_size local_size local_rank = Ok index ->
  slice_count level_size local_size = Ok count ->
  0 <= index -> 0 <= count -> index + count <= Z.of_nat (length cpusets) ->
  Z.of_nat (length cpusets) < 2 ^ 31 ->
  raw_cpuset cpusets level_size local_size local_rank =
    Ok (fold_left Z.lor (take (Z.to_nat count) (drop (Z.to_nat index) cpusets)) 0).
Proof.
  intros Hi Hc Hi0 Hc0 Hlen Hmax. unfold raw_cpuset. rewrite Hi, Hc. osimpl.
  rewrite wrap32_id by (unfold in_int32; lia).
  replace (index + count - index) with count by lia.
  apply or_loop_spec; lia.
Qed.

(** Integer division of a sum. *)
Lemma div_add_le a b c : 0 <= a -> 0 <= b -> 0 < c -> a / c + b / c <= (a + b) / c.
Proof.
  intros Ha Hb Hc.
  pose proof (Z.div_mod a c ltac:(lia)). pose proof (Z.mod_pos_bound a c Hc).
  pose proof (Z.div_mod b c ltac:(lia)). pose proof (Z.mod_pos_bound b c Hc).
  apply Z.div_le_lower_bound; [done|]. nia.
Qed.

(** With at least as many entries as tasks, the slice of a task ends
    where the slice of the next one begins, or before. *)
Lemma exact_slices_apart level_size local_size r r' :
  1 <= local_size <= level_size -> 0 <= r -> r < r' ->
  exact_index level_size local_size r + exact_count level_size local_size
    <= exact_index level_size local_size r'.
Proof.
  intros HS Hr Hrr. unfold exact_index, exact_count.
  assert (1 <= level_size / local_size) by (apply Z.div_le_lower_bound; lia).
  rewrite Z.max_r by lia.
  pose proof (div_add_le (r * level_size) level_size local_size
                ltac:(nia) ltac:(lia) ltac:(lia)) as H1.
  assert (H2 : (r * level_size + level_size) / local_size
               <= (r' * level_size) / local_size).
  { apply Z.div_le_mono; [lia|nia]. }
  lia.
Qed.

End SliceMore.

Section SliceMoreClaims.
Import Hwloc Slice.

(** X25: on a pool of up to 21 entries with at least as many entries
    as local tasks, the raw unit-sets of two different tasks are built
    from different entries of the pool: when the entries of the pool
    are pairwise disjoint, so are the unit-sets of the two tasks. *)
Theorem raw_cpusets_disjoint (cpusets : list Hwloc.hwloc_bitmap_t)
    (level_size local_size r r' : Z) :
  1 <= local_size -> local_size <= level_size -> level_size <= 21 ->
  Z.of_nat (length cpusets) = level_size ->
  0 <= r -> r < r' -> r' < local_size ->
  (forall (i j : nat) e e', i <> j -> cpusets !! i = Some e ->
                            cpusets !! j = Some e' -> Z.land e e' = 0) ->
  exists raw raw',
    raw_cpuset cpusets level_size local_size r = Ok raw /\
    raw_cpuset cpusets level_size local_size r' = Ok raw' /\
    Z.land raw raw' = 0.
Proof.
  intros HS HSL HL Hlen Hr Hrr Hr' Hdis.
  destruct (slice_small_exact level_size local_size r ltac:(lia) ltac:(lia) ltac:(lia))
    as (Hi & Hc & Hin).
  destruct (slice_small_exact level_size local_size r' ltac:(lia) ltac:(lia) ltac:(lia))
    as (Hi' & _ & Hin').
  pose proof (exact_slices_apart level_size local_size r r' ltac:(lia) Hr Hrr) as Hapart.
  set (i := exact_index level_size local_size r) in *.
  set (i' := exact_index level_size local_size r') in *.
  set (c := exact_count level_size local_size) in *.
  assert (Hc1 : 1 <= c) by (unfold c, exact_count; lia).
  assert (Hi0 : 0 <= i) by (unfold i, exact_index; apply Z.div_pos; nia).
  eexists. eexists.
  split; [apply (raw_cpuset_fold _ _ _ _ i c); try done; lia|].
  split; [apply (raw_cpuset_fold _ _ _ _ i' c); try done; lia|].
  apply Z.bits_inj'. intros u Hu. rewrite Z.land_spec, Z.bits_0.
  destruct (Z.testbit (fold_left Z.lor (take (Z.to_nat c) (drop (Z.to_nat i) cpusets)) 0) u)
    eqn:E1; [|done].
  destruct (Z.testbit (fold_left Z.lor (take (Z.to_nat c) (drop (Z.to_nat i') cpusets)) 0) u)
    eqn:E2; [|done].
  apply testbit_fold_lor in E1 as [E1|(e & He & Heu)]; [by rewrite Z.bits_0 in E1|].
  apply testbit_fold_lor in E2 as [E2|(e' & He' & Heu')]; [by rewrite Z.bits_0 in E2|].
  apply elem_of_slice in He as (k & Hk & He).
  apply elem_of_slice in He' as (k' & Hk' & He').
  assert (Hne : k <> k') by lia.
  pose proof (Hdis k k' e e' Hne He He') as Hz.
  apply (f_equal (fun z => Z.testbit z u)) in Hz.
  by rewrite Z.land_spec, Heu, Heu', Z.bits_0 in Hz.
Qed.

Lemma raw_cpusets_disjoint_witness :
  (1 <= 4 /\ 4 <= 8 /\ 8 <= 21 /\ Z.of_nat (length Scenario.units8) = 8 /\
   0 <= 1 /\ 1 < 2 /\ 2 < 4) /\
  exists raw raw',
    raw_cpuset Scenario.units8 8 4 1 = Ok raw /\
    raw_cpuset Scenario.units8 8 4 2 = Ok raw' /\
    Z.land raw raw' = 0.
Proof.
  split; [repeat split; (lia || reflexivity)|].
  apply (raw_cpusets_disjoint Scenario.units8 8 4 1 2); try lia; try reflexivity.
  intros i j e e' Hne Hi Hj.
  do 8 (destruct i as [|i]; [injection Hi as <-;
          do 8 (destruct j as [|j]; [injection Hj as <-; (done || reflexivity)|]);
          discriminate Hj|]).
  discriminate Hi.
Defined.

(** X26: on a pool of up to 21 entries with fewer entries than local
    tasks, every task is given exactly one entry of the pool: entry
    [local_rank * level_size / local_size], which it shares with its
    neighbours. *)
Theorem raw_cpuset_oversubscribed (cpusets : list Hwloc.hwloc_bitmap_t)
    (level_size local_size local_rank : Z) :
  1 <= level_size -> level_size < local_size -> local_size <= 21 ->
  Z.of_nat (length cpusets) = level_size ->
  0 <= local_rank < local_size ->
  exists e,
    cpusets !! Z.to_nat (local_rank * level_size / local_size) = Some e /\
    raw_cpuset cpusets level_size local_size local_rank = Ok e.
Proof.
  intros HL HLS HS Hlen Hr.
  destruct (slice_small_exact level_size local_size local_rank
              ltac:(lia) ltac:(lia) ltac:(lia)) as (Hi & Hc & Hin).
  unfold exact_index, exact_count in *.
  rewrite (Z.div_small level_size local_size) in Hc, Hin by lia.
  rewrite Z.max_l in Hc, Hin by lia.
  assert (Hi0 : 0 <= local_rank * level_size / local_size) by (apply Z.div_pos; nia).
  destruct (lookup_lt_is_Some_2 cpusets (Z.to_nat (local_rank * level_size / local_size))
              ltac:(lia)) as [e He].
  exists e. split; [done|].
  rewrite (raw_cpuset_fold _ _ _ _ _ 1 Hi Hc) by lia.
  change (Z.to_nat 1) with 1%nat. rewrite (drop_S _ _ _ He). done.
Qed.

Lemma raw_cpuset_oversubscribed_witness :
  (1 <= 3 /\ 3 < 5 /\ 5 <= 21 /\ Z.of_nat (length [1; 2; 4]) = 3 /\ 0 <= 4 < 5) /\
  raw_cpuset [1; 2; 4] 3 5 4 = Ok 4.
Proof.
  split; [repeat split; (lia || reflexivity)|].
  destruct (raw_cpuset_oversubscribed [1; 2; 4] 3 5 4
              ltac:(lia) ltac:(lia) ltac:(lia) eq_refl ltac:(lia)) as (e & He & ->).
  f_equal. vm_compute in He. congruence.
Defined.

End SliceMoreClaims.

(** ** The environment of a bound task *)

Section TaskFacts.
Import Partition Hwloc Topology Plugin Options TaskInit Gpu GpuInv GpuNode.

Lemma groups_ok_devs numas devs : groups_ok numas devs -> devs_ok numas devs.
Proof.
  intros H. eapply Forall_impl; [exact H|]. intros obj Hobj Hr.
  destruct (Hobj Hr) as (a & i2 & Ha & Hi & _). by exists a.
Qed.

(** The group table the caller builds, and its count of the GPUs. *)
Lemma group_numas_spec numas : forall devs numagroup gpus,
  groups_ok numas devs -> numagroup_ok numas numagroup ->
  0 <= gpus -> gpus + count_gpus devs < 2 ^ 31 ->
  exists numagroup',
    group_numas devs numagroup gpus = Ok (numagroup', gpus + count_gpus devs) /\
    numagroup_ok numas numagroup'.
Proof.
  induction devs as [|obj devs IH]; intros numagroup gpus Hd Hng Hg Hc.
  - exists numagroup. unfold count_gpus. cbn. by rewrite Z.add_0_r.
  - rewrite count_gpus_cons in *. apply Forall_cons in Hd as [Hobj Hd].
    pose proof (count_gpus_nonneg devs) as Hnn.
    cbn [group_numas]. destruct (is_render_gpu obj).
    2:{ rewrite Z.add_0_l in *. by apply IH. }
    destruct (Hobj eq_refl) as (a & i2 & -> & Ha & -> & Hi2).
    destruct Hng as [Hlen Hall].
    rewrite zset_Ok by lia. osimpl.
    rewrite wrap32_id by (unfold in_int32; lia).
    destruct (IH (<[Z.to_nat (os_index a) := i2]> numagroup) (gpus + 1) Hd)
      as (ng' & E & Hok); [|lia|lia|].
    { split; [by rewrite length_insert|]. by apply Forall_insert. }
    exists ng'. split; [|done]. rewrite E. do 2 f_equal. lia.
Qed.

(** The pool selection leaves the local rank as it is. *)
Lemma unit_pool_local_rank topo g g1 cpusets :
  unit_pool topo g = Ok (g1, cpusets) -> local_rank g1 = local_rank g.
Proof.
  unfold unit_pool. intros H. destruct (explicit_cores g) as [bits|].
  - unfold select_cores in H. apply obind_inv in H as ([cs n] & _ & H).
    injection H as <- _. by destruct (_ <? _).
  - unfold select_by_depth in H. destruct (find_depth _ _ _ _) as [depth lsize].
    apply obind_inv in H as (cs & _ & H). by injection H as <- _.
Qed.

Lemma export_omp_num_threads_ranks g e g' e' :
  export_omp_num_threads g e = Ok (g', e') ->
  local_rank g' = local_rank g /\ local_size g' = local_size g.
Proof.
  unfold export_omp_num_threads. intros H.
  destruct (num_threads g =? 0); [|by injection H as <- _].
  destruct (local_size g =? 0); [done|]. by injection H as <- _.
Qed.

(** The string of a task is the list of one device of its domain, or
    of all of them. *)
Lemma gpu_string_part t numas cap rank size :
  tables_wf numas cap cap t -> cap < 2 ^ 31 ->
  0 <= rank < size -> size < 2 ^ 31 -> 0 < numas < 2 ^ 31 ->
  (forall i, 0 <= i < numas ->
     exists n, gpus_per_numa t !! Z.to_nat i = Some n /\ 1 <= n) ->
  exists d l,
    map_to_domains rank size numas (DomOut 0 0 0) =
      Ok (0, {| mapi := d; np_in_dom := bucket_size size numas d;
                id_in_dom := rank - bucket_start size numas d |}) /\
    0 <= d < numas /\ l <> [] /\
    (l = numa_gpus t d \/ exists v, l = [v] /\ v ∈ numa_gpus t d) /\
    gpu_string t numas rank size = Ok (String.concat "," (map print_d l)).
Proof.
  intros Hwf Hcap Hr Hsize Hnumas Hall.
  destruct (map_to_domains_valid rank size numas (DomOut 0 0 0) Hr Hsize Hnumas)
    as (d & Hdr & Hrange & Hmap).
  destruct (Hall d Hdr) as (m & Hm & Hm1).
  exists d.
  destruct (Z.le_gt_cases m (bucket_size size numas d)) as [Hle|Hgt].
  - destruct (gpu_string_single t numas cap rank size d m
                Hwf Hcap ltac:(lia) Hnumas Hdr Hrange Hm ltac:(lia))
      as (g & v & Hgm & Hv & E).
    exists [v]. split; [done|]. split; [done|]. split; [done|].
    split; [|done]. right. exists v. split; [done|]. by eapply list_elem_of_lookup_2.
  - exists (numa_gpus t d). split; [done|]. split; [done|].
    pose proof (Forall_lookup_1 _ _ _ _ (wf_cnt_numa _ _ _ _ Hwf) Hm) as Hmc. cbn in Hmc.
    destruct (lookup_lt_is_Some_2 (gpus_in_numa t) (Z.to_nat d)) as [row Hrow].
    { rewrite (wf_len_in_numa _ _ _ _ Hwf). lia. }
    pose proof (Forall_lookup_1 _ _ _ _ (wf_rows_numa _ _ _ _ Hwf) Hrow) as Hlen.
    cbn in Hlen.
    split.
    { intros E. apply (f_equal length) in E.
      rewrite (numa_gpus_lookup _ _ _ _ Hm Hrow), length_take in E. cbn in E. lia. }
    split; [by left|].
    apply (gpu_string_case2 t numas cap rank size d m); try done; lia.
Qed.

(** The lists after direct ownership and fallback: ascending, and of
    GPUs of the node. *)
Lemma gpu_ownership_valid devs gpus numas numagroup :
  numagroup_ok numas numagroup -> devs_ok numas devs ->
  gpus = count_gpus devs -> 1 <= gpus < 2 ^ 31 ->
  exists t,
    gpu_ownership devs gpus numas numagroup = Ok t /\
    tables_wf numas gpus gpus t /\
    (forall i, 0 <= i < numas ->
       exists n, gpus_per_numa t !! Z.to_nat i = Some n /\ 1 <= n) /\
    forall i, 0 <= i < numas ->
      StronglySorted Z.lt (numa_gpus t i) /\
      Forall (fun v => 0 <= v < gpus) (numa_gpus t i).
Proof.
  intros Hng Hd Hgc Hg.
  destruct (gpu_ownership_wf devs gpus numas numagroup Hng Hd Hgc Hg)
    as (t & Ht & Hwf & Hall).
  exists t. split; [done|]. split; [done|]. split; [done|].
  subst gpus.
  pose proof (devs_ok_numas _ _ Hd ltac:(lia)) as Hnumas.
  destruct (assign_gpus_lists numas (count_gpus devs) numagroup Hng ltac:(lia) devs 0
              (alloc_tables (count_gpus devs) numas) Hd
              (alloc_tables_wf (count_gpus devs) numas ltac:(lia)) ltac:(lia) ltac:(lia))
    as (t1 & H1 & Hwf1 & Hl).
  rewrite Z.add_0_l in H1, Hwf1.
  destruct (assign_gpus_spec numas (count_gpus devs) numagroup Hng ltac:(lia)
              devs 0 (alloc_tables (count_gpus devs) numas) Hd
              (alloc_tables_wf (count_gpus devs) numas ltac:(lia))
              ltac:(lia) ltac:(lia))
    as (t1' & H1' & _ & Hsome).
  rewrite Z.add_0_l in H1'. rewrite H1 in H1'. injection H1' as <-.
  specialize (Hsome ltac:(right; lia)).
  unfold gpu_ownership in Ht. rewrite H1 in Ht. cbn in Ht.
  set (Q := fun l : list Z =>
              StronglySorted Z.lt l /\ Forall (fun v => 0 <= v < count_gpus devs) l).
  apply (fallback_loop_lists Q numas (count_gpus devs) numagroup Hng
           (Z.to_nat numas) 0 t1 t ltac:(lia) ltac:(lia) Hwf1 Hsome); [| |exact Ht].
  - intros j Hj. destruct (Hl j Hj) as [-> _]. rewrite numa_gpus_alloc. cbn [app].
    apply (numbered_filter_sorted (Ownership.below_numa j) devs 0).
  - intros g Hgr. destruct (Hl g Hgr) as [_ ->]. rewrite group_gpus_alloc. cbn [app].
    apply (numbered_filter_sorted (Ownership.below_group numagroup g) devs 0).
Qed.

End TaskFacts.

Section TaskClaims.
Import Partition Hwloc Topology Plugin Options TaskInit Gpu GpuInv GpuNode Node.

(** X27: [slurm_spank_task_init] does not look at what
    [get_remote_env] returns.  When SLURM does not provide the local
    task count, [get_remote_env] fails with -1, and the binding goes on
    with the task count and the thread count the plugin was loaded
    with, 0 and 0: it cannot complete - there is an error return on
    the way, or the division [num_cores / local_size] by zero. *)
Theorem task_init_without_task_count (sp : Plugin.spank) (topo : Topology.topology)
    (g : Plugin.globals) (r : Z) (lr : string) :
  sp_remote sp = true -> enabled g <> 0 -> disabled g = 0 ->
  local_size g = 0 -> num_threads g = 0 ->
  sp_task_id sp = Some r ->
  spank_getenv (sp_env sp) "SLURM_LOCALID" 64 = Some lr ->
  sp_local_task_count sp = None ->
  Z.of_nat (length (topo_cores topo)) < 2 ^ 32 ->
  (exists g', get_remote_env sp g = Parsed (-1) g') /\
  (slurm_spank_task_init sp topo g = Fail \/ slurm_spank_task_init sp topo g = Undef).
Proof.
  intros Hrem Hen Hdis Hls Hnt Hr Hlr Hcount Hcores.
  assert (Henv : exists g', get_remote_env sp g = Parsed (-1) g' /\
                   enabled g' = enabled g /\ disabled g' = 0 /\
                   local_size g' = 0 /\ num_threads g' = 0).
  { unfold get_remote_env. rewrite Hdis, Hr, Hlr, Hcount. cbn [Z.eqb negb].
    destruct (spank_getenv (sp_env sp) "OMPI_COMM_WORLD_LOCAL_RANK" 64);
      eexists; (split; [reflexivity|]); by destruct (negb (r =? 0)). }
  destruct Henv as (g' & E & He & Hd & Hl & Hn).
  split; [by exists g'|].
  unfold slurm_spank_task_init. rewrite Hrem, E. cbn [negb].
  rewrite Hd. destruct (Z.eqb_spec (enabled g') 0) as [|_]; [congruence|].
  cbn [Z.eqb negb orb].
  destruct (bind_task sp topo g') as [res| |] eqn:Hb; [|by left|by right].
  exfalso. unfold bind_task in Hb.
  apply obind_inv in Hb as ([g2 cpusets] & Hpool & Hb).
  apply unit_pool_num_cores in Hpool as (_ & Hls2 & Hnt2 & _); [|done].
  cbn [local_size num_threads set_local_threads] in Hls2, Hnt2.
  apply obind_inv in Hb as ([numagroup gpus] & _ & Hb).
  apply obind_inv in Hb as (gpustr & _ & Hb).
  apply obind_inv in Hb as ([g3 e] & Hexp & _).
  unfold export_omp_num_threads in Hexp. by rewrite Hnt2, Hls2, Hn, Hl in Hexp.
Qed.

Lemma task_init_without_task_count_witness :
  (sp_remote {| sp_remote := true; sp_task_id := Some 0; sp_local_task_count := None;
                sp_env := {["SLURM_LOCALID" := "0"]}; sp_nprocessors_onln := 16 |}
     = true /\
   enabled initial_globals <> 0 /\ disabled initial_globals = 0 /\
   local_size initial_globals = 0 /\ num_threads initial_globals = 0 /\
   spank_getenv {["SLURM_LOCALID" := "0"]} "SLURM_LOCALID" 64 = Some "0"%string /\
   Z.of_nat (length (topo_cores topo16)) < 2 ^ 32) /\
  slurm_spank_task_init
    {| sp_remote := true; sp_task_id := Some 0; sp_local_task_count := None;
       sp_env := {["SLURM_LOCALID" := "0"]}; sp_nprocessors_onln := 16 |}
    topo16 initial_globals = Undef.
Proof.
  assert (H1 : spank_getenv {["SLURM_LOCALID" := "0"]} "SLURM_LOCALID" 64
               = Some "0"%string) by (vm_compute; reflexivity).
  assert (H2 : Z.of_nat (length (topo_cores topo16)) < 2 ^ 32)
    by (vm_compute; reflexivity).
  split; [repeat split; (reflexivity || discriminate || exact H1 || exact H2)|].
  destruct (task_init_without_task_count
              {| sp_remote := true; sp_task_id := Some 0; sp_local_task_count := None;
                 sp_env := {["SLURM_LOCALID" := "0"]}; sp_nprocessors_onln := 16 |}
              topo16 initial_globals 0 "0" eq_refl ltac:(discriminate) eq_refl
              eq_refl eq_refl eq_refl H1 eq_refl H2) as [_ [E|E]].
  - vm_compute in E. discriminate E.
  - exact E.
Defined.

(** X28: when a task is bound on a node with GPUs,
    [CUDA_VISIBLE_DEVICES] is set to a list that is not empty, strictly
    ascending, and holds only numbers of GPUs of the node (0 up to
    their count). *)
Theorem cuda_visible_devices_valid (sp : Plugin.spank) (topo : Topology.topology)
    (g : Plugin.globals) (r : TaskInit.task_result) (c : Hwloc.hwloc_bitmap_t) :
  slurm_spank_task_init sp topo g = Ok r -> tr_cpubind r = Some c ->
  groups_ok (topo_numas topo) (topo_osdevs topo) ->
  1 <= count_gpus (topo_osdevs topo) < 2 ^ 31 -> topo_numas topo < 2 ^ 31 ->
  0 <= local_rank (tr_globals r) < local_size (tr_globals r) ->
  local_size (tr_globals r) < 2 ^ 31 ->
  exists l,
    l <> [] /\ StronglySorted Z.lt l /\
    Forall (fun v => 0 <= v < count_gpus (topo_osdevs topo)) l /\
    tr_env r !! "CUDA_VISIBLE_DEVICES" = Some (String.concat "," (map print_d l)).
Proof.
  intros H Hb Hgrp Hcnt Hnumas Hrank Hsize. unfold slurm_spank_task_init in H.
  destruct (sp_remote sp); cbn [negb] in H; [|by injection H as <-].
  destruct (get_remote_env sp g) as [rc g1| |]; [|done|done].
  destruct (_ || _); [by injection H as <-|].
  unfold bind_task in H.
  apply obind_inv in H as ([g2 cpusets] & Hpool & H).
  apply obind_inv in H as ([numagroup gpus] & Hgn & H).
  apply obind_inv in H as (gpustr & Hgs & H).
  apply obind_inv in H as ([g3 e] & Hexp & H).
  apply obind_inv in H as (raw & _ & H).
  apply obind_inv in H as (cpuset & _ & H).
  injection H as <-. cbn [tr_env tr_globals] in *.
  apply export_omp_num_threads_ranks in Hexp as [Hlr Hls].
  rewrite Hlr, Hls in *.
  pose proof (groups_ok_devs _ _ Hgrp) as Hd.
  pose proof (devs_ok_numas _ _ Hd ltac:(lia)) as Hn0.
  set (numas := topo_numas topo) in *. set (devs := topo_osdevs topo) in *.
  destruct (group_numas_spec numas devs (replicate (Z.to_nat numas) 0) 0 Hgrp)
    as (ng & Egn & Hng); [|lia|lia|].
  { split; [by rewrite length_replicate|]. apply Forall_replicate. lia. }
  rewrite Z.add_0_l in Egn. rewrite Hgn in Egn. injection Egn as -> ->.
  destruct (Z.eqb_spec (count_gpus devs) 0) as [|_]; [lia|].
  apply obind_inv in Hgs as (s & Hs & Hgs). injection Hgs as <-.
  unfold get_gpustring in Hs.
  destruct (gpu_ownership_valid devs (count_gpus devs) numas ng Hng Hd eq_refl Hcnt)
    as (t & Ht & Hwf & Hall & Hval).
  rewrite Ht in Hs. cbn in Hs.
  destruct (gpu_string_part t numas (count_gpus devs) (local_rank g2) (local_size g2)
              Hwf ltac:(lia) Hrank Hsize ltac:(lia) Hall)
    as (d & l & _ & Hdr & Hne & Hl & Es).
  rewrite Es in Hs. injection Hs as <-.
  destruct (Hval d Hdr) as [Hsorted Hrange].
  exists l. split; [done|].
  assert (Hq : StronglySorted Z.lt l /\ Forall (fun v => 0 <= v < count_gpus devs) l).
  { destruct Hl as [->|(v & -> & Hv)]; [done|]. split.
    - repeat constructor.
    - constructor; [|constructor].
      rewrite Forall_forall in Hrange. by apply Hrange. }
  split; [apply Hq|]. split; [apply Hq|].
  by apply spank_setenv_set.
Qed.

Lemma cuda_visible_devices_valid_witness :
  (slurm_spank_task_init (task 2 "2" []) topo16_gpus initial_globals = Ok task2_result /\
   tr_cpubind task2_result = Some 3840 /\
   groups_ok (topo_numas topo16_gpus) (topo_osdevs topo16_gpus) /\
   1 <= count_gpus (topo_osdevs topo16_gpus) < 2 ^ 31 /\
   topo_numas topo16_gpus < 2 ^ 31 /\
   0 <= local_rank (tr_globals task2_result) < local_size (tr_globals task2_result) /\
   local_size (tr_globals task2_result) < 2 ^ 31) /\
  exists l,
    l <> [] /\
    tr_env task2_result !! "CUDA_VISIBLE_DEVICES" =
      Some (String.concat "," (map print_d l)).
Proof.
  assert (H1 : slurm_spank_task_init (task 2 "2" []) topo16_gpus initial_globals
               = Ok task2_result) by (vm_compute; reflexivity).
  assert (H2 : tr_cpubind task2_result = Some 3840) by reflexivity.
  assert (H3 : groups_ok (topo_numas topo16_gpus) (topo_osdevs topo16_gpus)).
  { repeat constructor; cbn; intros E; try discriminate E;
      do 2 eexists; (split; [reflexivity|cbn; split; [lia|split; [reflexivity|lia]]]). }
  assert (H4 : 1 <= count_gpus (topo_osdevs topo16_gpus) < 2 ^ 31)
    by (vm_compute; split; (discriminate || reflexivity)).
  assert (H5 : 0 <= local_rank (tr_globals task2_result)
                 < local_size (tr_globals task2_result))
    by (vm_compute; split; (discriminate || reflexivity)).
  assert (H6 : local_size (tr_globals task2_result) < 2 ^ 31)
    by (vm_compute; reflexivity).
  split; [repeat split; (exact H1 || exact H2 || exact H3 || apply H4 || apply H5
                         || exact H6 || (vm_compute; reflexivity))|].
  destruct (cuda_visible_devices_valid (task 2 "2" []) topo16_gpus initial_globals
              task2_result 3840 H1 H2 H3 H4 ltac:(vm_compute; reflexivity) H5 H6)
    as (l & Hne & _ & _ & E).
  exists l. split; [exact Hne|exact E].
Defined.

End TaskClaims.
